(** * ClawBot coordinator: aggregates, coordinator, sweeper and registry

    A shallow embedding of the domain layer of [clawbot_coordinator]
    (domain/models, domain/services, workers/timeout_worker.py) and the
    properties of its state machines.

    Conventions of the embedding.
    - A Python object that is mutated in place is a value threaded through
      the state-and-exception monad [M]: a method of [Task] is an
      [M Task.t unit], so that the state of the object after a raised
      exception is part of the result.
    - [datetime] values are integers: microseconds since the epoch, the
      resolution of [datetime].  One method call observes one reading [now]
      of the clock.
    - [timedelta.total_seconds()] is the exact quotient by 10^6; comparing it
      with an integer number of seconds is comparing microseconds (the
      rounding to a float cannot change the outcome for timeouts in the
      validated range 1..3600).
    - [dict[str, Any]] is a finite map from strings to JSON-like values.
    - The repositories are abstract ports (ABC classes): type classes whose
      operations run in [M W] for a world [W] and may raise. *)

From Stdlib Require Import ZArith NArith QArith List DecimalString.
From stdpp Require Import base decidable option list strings gmap fin_maps.

Local Open Scope string_scope.
Local Open Scope list_scope.
Local Open Scope Z_scope.

(** ** Basic data *)

Definition UUID := N.
Definition Timestamp := Z.

Inductive JValue :=
| JStr (s : string)
| JInt (n : Z)
| JBool (b : bool).

Abbreviation dict := (gmap string JValue).

(** [str(n)] for a Python int. *)
Definition str_of_int (n : Z) : string := NilZero.string_of_int (Z.to_int n).

(** [timedelta.total_seconds() > secs] for a difference of [delta]
    microseconds. *)
Definition total_seconds_gt (delta : Z) (secs : Z) : bool :=
  secs * 1000000 <? delta.

(** ** exceptions.py *)

Inductive DomainError :=
| ResourceNotFound (resource_type : string) (resource_id : UUID)
| InvalidStateTransition (entity_type current_state attempted_action : string)
| ResourceAlreadyExists (resource_type identifier : string)
| ValidationError (field reason : string)
| AuthorizationError (operation reason : string)
(* pydantic's own error for a violated Field constraint; it carries the
   locations of the offending fields *)
| PydanticValidationError (locs : list string)
(* any exception raised by an implementation of a repository port *)
| RepositoryError (detail : string).

(** ** State and exceptions *)

Definition M (S A : Type) : Type := S -> (DomainError + A) * S.

Definition ret {S A} (a : A) : M S A := fun s => (inr a, s).
Definition raise {S A} (e : DomainError) : M S A := fun s => (inl e, s).
Definition bind {S A B} (m : M S A) (k : A -> M S B) : M S B :=
  fun s => match m s with
           | (inl e, s') => (inl e, s')
           | (inr a, s') => k a s'
           end.
Definition get_self {S} : M S S := fun s => (inr s, s).
Definition modify {S} (f : S -> S) : M S unit := fun s => (inr tt, f s).

#[global] Instance M_ret {S} : MRet (M S) := fun A => @ret S A.
#[global] Instance M_bind {S} : MBind (M S) := fun A B k m => bind m k.

(** A method call [obj.m(...)] on an object held in a local variable of a
    service: the exception propagates, otherwise the mutated object is the
    new value of the variable. *)
Definition call {W S A} (m : M S A) (obj : S) : M W (A * S) :=
  fun w => match m obj with
           | (inl e, _) => (inl e, w)
           | (inr a, obj') => (inr (a, obj'), w)
           end.

(** [try: body  except Exception: handler] *)
Definition try_except {S A} (body : M S A) (handler : DomainError -> M S A)
  : M S A :=
  fun s => match body s with
           | (inl e, s') => handler e s'
           | r => r
           end.

(** ** domain/models/task.py *)

Inductive TaskStatus :=
| PENDING | ASSIGNED | IN_PROGRESS | COMPLETED | FAILED | CANCELLED.

#[global] Instance TaskStatus_eq_dec : EqDecision TaskStatus.
Proof. solve_decision. Defined.

Module Task.

Definition value (s : TaskStatus) : string :=
  match s with
  | PENDING => "pending"
  | ASSIGNED => "assigned"
  | IN_PROGRESS => "in_progress"
  | COMPLETED => "completed"
  | FAILED => "failed"
  | CANCELLED => "cancelled"
  end.

Record t := mk {
  id : UUID;
  workflow_id : UUID;
  bot_id : option UUID;
  status : TaskStatus;
  payload : dict;
  result : option dict;
  timeout_seconds : Z;
  created_at : Timestamp;
  assigned_at : option Timestamp;
  started_at : option Timestamp;
  completed_at : option Timestamp;
  updated_at : Timestamp
}.

Definition set_bot_id (v : option UUID) (x : t) : t :=
  mk (id x) (workflow_id x) v (status x) (payload x) (result x)
     (timeout_seconds x) (created_at x) (assigned_at x) (started_at x)
     (completed_at x) (updated_at x).
Definition set_status (v : TaskStatus) (x : t) : t :=
  mk (id x) (workflow_id x) (bot_id x) v (payload x) (result x)
     (timeout_seconds x) (created_at x) (assigned_at x) (started_at x)
     (completed_at x) (updated_at x).
Definition set_result (v : option dict) (x : t) : t :=
  mk (id x) (workflow_id x) (bot_id x) (status x) (payload x) v
     (timeout_seconds x) (created_at x) (assigned_at x) (started_at x)
     (completed_at x) (updated_at x).
Definition set_assigned_at (v : option Timestamp) (x : t) : t :=
  mk (id x) (workflow_id x) (bot_id x) (status x) (payload x) (result x)
     (timeout_seconds x) (created_at x) v (started_at x)
     (completed_at x) (updated_at x).
Definition set_started_at (v : option Timestamp) (x : t) : t :=
  mk (id x) (workflow_id x) (bot_id x) (status x) (payload x) (result x)
     (timeout_seconds x) (created_at x) (assigned_at x) v
     (completed_at x) (updated_at x).
Definition set_completed_at (v : option Timestamp) (x : t) : t :=
  mk (id x) (workflow_id x) (bot_id x) (status x) (payload x) (result x)
     (timeout_seconds x) (created_at x) (assigned_at x) (started_at x)
     v (updated_at x).
Definition set_updated_at (v : Timestamp) (x : t) : t :=
  mk (id x) (workflow_id x) (bot_id x) (status x) (payload x) (result x)
     (timeout_seconds x) (created_at x) (assigned_at x) (started_at x)
     (completed_at x) v.

Definition assign_to (bot : UUID) (now : Timestamp) : M t unit :=
  self ← get_self;
  if negb (bool_decide (status self = PENDING)) then
    raise (InvalidStateTransition "Task" (value (status self)) "assign_to")
  else
    modify (set_status ASSIGNED);;
    modify (set_bot_id (Some bot));;
    modify (set_assigned_at (Some now));;
    modify (set_updated_at now).

Definition start (now : Timestamp) : M t unit :=
  self ← get_self;
  if negb (bool_decide (status self = ASSIGNED)) then
    raise (InvalidStateTransition "Task" (value (status self)) "start")
  else
    modify (set_status IN_PROGRESS);;
    modify (set_started_at (Some now));;
    modify (set_updated_at now).

Definition complete (res : dict) (now : Timestamp) : M t unit :=
  self ← get_self;
  if negb (bool_decide (status self = IN_PROGRESS)) then
    raise (InvalidStateTransition "Task" (value (status self)) "complete")
  else
    modify (set_status COMPLETED);;
    modify (set_result (Some res));;
    modify (set_completed_at (Some now));;
    modify (set_updated_at now).

Definition fail (error : dict) (now : Timestamp) : M t unit :=
  self ← get_self;
  if negb (bool_decide (status self = IN_PROGRESS)) then
    raise (InvalidStateTransition "Task" (value (status self)) "fail")
  else
    modify (set_status FAILED);;
    modify (set_result (Some error));;
    modify (set_completed_at (Some now));;
    modify (set_updated_at now).

Definition cancel (now : Timestamp) : M t unit :=
  modify (set_status CANCELLED);;
  modify (set_completed_at (Some now));;
  modify (set_updated_at now).

Definition is_timed_out (now : Timestamp) (self : t) : bool :=
  if negb (bool_decide (status self = IN_PROGRESS)) then false
  else match started_at self with
       | None => false
       | Some s => total_seconds_gt (now - s) (timeout_seconds self)
       end.

Definition is_terminal (self : t) : bool :=
  match status self with
  | COMPLETED | FAILED | CANCELLED => true
  | _ => false
  end.

Definition is_pending (self : t) : bool :=
  bool_decide (status self = PENDING).

Definition is_assigned (self : t) : bool :=
  bool_decide (status self = ASSIGNED).

Definition is_in_progress (self : t) : bool :=
  bool_decide (status self = IN_PROGRESS).

(** [duration()], as the [timedelta] whose [total_seconds()] the method
    returns: a number of microseconds. *)
Definition duration (now : Timestamp) (self : t) : option Z :=
  match started_at self with
  | None => None
  | Some s =>
    match completed_at self with
    | Some c => Some (c - s)
    | None => Some (now - s)
    end
  end.

(** [Task(workflow_id=..., payload=..., timeout_seconds=...)], the call of
    [create_task]: [Field(ge=1, le=3600)] guards the timeout, every other
    field takes its default; [fresh_id] is the value drawn by [uuid4()]. *)
Definition new (fresh_id workflow_id_ : UUID) (payload_ : dict)
    (timeout_seconds_ : Z) (now : Timestamp) : DomainError + t :=
  if (1 <=? timeout_seconds_) && (timeout_seconds_ <=? 3600) then
    inr (mk fresh_id workflow_id_ None PENDING payload_ None
           timeout_seconds_ now None None None now)
  else inl (PydanticValidationError ["timeout_seconds"]).

End Task.

(** ** Python strings

    A [str] is a sequence of Unicode code points; [len] counts code points.
    Literals of the source that are plain ASCII are written as Rocq strings
    and converted with [pystr_of_string]. *)

Definition pystr := list N.

Definition pystr_of_string (s : string) : pystr :=
  map Ascii.N_of_ascii (String.list_ascii_of_string s).

(** [str.isspace] on one code point (CPython's [Py_UNICODE_ISSPACE]). *)
Definition isspace (c : N) : bool :=
  ((9 <=? c) && (c <=? 13) || (28 <=? c) && (c <=? 32)
   || (c =? 133) || (c =? 160) || (c =? 5760)
   || (8192 <=? c) && (c <=? 8202)
   || (c =? 8232) || (c =? 8233) || (c =? 8239) || (c =? 8287)
   || (c =? 12288))%N.

Fixpoint lstrip (s : pystr) : pystr :=
  match s with
  | c :: r => if isspace c then lstrip r else s
  | [] => []
  end.

Definition rstrip (s : pystr) : pystr := rev (lstrip (rev s)).

(** [str.strip()] without arguments. *)
Definition strip (s : pystr) : pystr := rstrip (lstrip s).

(** Truth value of a [str] or a [list]: non-empty. *)
Definition truthy {A} (l : list A) : bool :=
  match l with [] => false | _ => true end.

(** ** The float of [timedelta.total_seconds()]

    [total_seconds()] divides the microseconds of the difference by 10^6
    and returns the nearest binary64 float.  Where the result is compared
    with an integer that is not validated, the float is kept: a function
    [total_seconds] gives, for a difference of [d] microseconds, the value
    of that float as a rational, and Python compares a float with an [int]
    by their exact values.  [float_seconds] is what is used of rounding to
    nearest: it keeps the order, it is exact on whole seconds up to 2^53,
    and it loses at most the relative error 2^-53. *)

Record float_seconds (total_seconds : Z -> Q) : Prop := {
  float_monotone :
    forall d1 d2, d1 <= d2 -> Qle (total_seconds d1) (total_seconds d2);
  float_whole :
    forall n, Z.abs n <= 2 ^ 53 ->
              Qeq (total_seconds (n * 1000000)) (inject_Z n);
  float_close :
    forall d, 0 <= d ->
              Qle (Qmult (9007199254740991 # 9007199254740992)
                     (d # 1000000))
                  (total_seconds d)
}.

(** The quotient without rounding. *)
Definition exact_seconds (d : Z) : Q := d # 1000000.

(** ** domain/models/bot.py *)

Inductive BotStatus := OFFLINE | ONLINE | BUSY.

#[global] Instance BotStatus_eq_dec : EqDecision BotStatus.
Proof. solve_decision. Defined.

Module Bot.

Definition value (s : BotStatus) : string :=
  match s with
  | OFFLINE => "offline"
  | ONLINE => "online"
  | BUSY => "busy"
  end.

Record t := mk {
  id : UUID;
  name : pystr;
  capabilities : list pystr;
  status : BotStatus;
  last_seen : option Timestamp;
  metadata : dict;
  created_at : Timestamp;
  updated_at : Timestamp
}.

Definition set_status (v : BotStatus) (x : t) : t :=
  mk (id x) (name x) (capabilities x) v (last_seen x) (metadata x)
     (created_at x) (updated_at x).
Definition set_last_seen (v : option Timestamp) (x : t) : t :=
  mk (id x) (name x) (capabilities x) (status x) v (metadata x)
     (created_at x) (updated_at x).
Definition set_updated_at (v : Timestamp) (x : t) : t :=
  mk (id x) (name x) (capabilities x) (status x) (last_seen x) (metadata x)
     (created_at x) v.

(** [@field_validator("name")] *)
Definition validate_name (v : pystr) : DomainError + pystr :=
  if negb (truthy v) || negb (truthy (strip v)) then
    inl (ValidationError "name" "Bot name cannot be empty")
  else inr v.

(** [@field_validator("capabilities")] *)
Definition validate_capabilities (v : list pystr)
  : DomainError + list pystr :=
  if negb (truthy v) || (length v =? 0)%nat then
    inl (ValidationError "capabilities"
           "Bot must have at least one capability")
  else inr v.

(** Validation of one field by pydantic: the constraint of [Field(...)]
    first; when it is violated the location of the field is recorded and
    the field validator is not called; otherwise the field validator runs
    (mode "after"), and an exception it raises that is not a [ValueError]
    leaves the constructor at once. *)
Definition field {A} (loc : string) (constraint : bool)
    (validator : A -> DomainError + A) (v : A)
  : DomainError + (list string * A) :=
  if constraint then
    match validator v with
    | inl e => inl e
    | inr v' => inr ([], v')
    end
  else inr ([loc], v).

(** [Bot(name=..., capabilities=..., metadata=...)]: [fresh_id] is the
    value drawn by [uuid4()], [now] the clock. *)
Definition new (fresh_id : UUID) (name_ : pystr)
    (capabilities_ : list pystr) (metadata_ : dict) (now : Timestamp)
  : DomainError + t :=
  match field "name"
          ((1 <=? length name_)%nat && (length name_ <=? 255)%nat)
          validate_name name_ with
  | inl e => inl e
  | inr (errs1, n) =>
    match field "capabilities" (1 <=? length capabilities_)%nat
            validate_capabilities capabilities_ with
    | inl e => inl e
    | inr (errs2, c) =>
      if truthy (errs1 ++ errs2) then
        inl (PydanticValidationError (errs1 ++ errs2))
      else inr (mk fresh_id n c OFFLINE None metadata_ now now)
    end
  end.

Definition go_online (now : Timestamp) : M t unit :=
  modify (set_status ONLINE);;
  modify (set_last_seen (Some now));;
  modify (set_updated_at now).

Definition go_busy (now : Timestamp) : M t unit :=
  self ← get_self;
  if negb (bool_decide (status self = ONLINE)) then
    raise (InvalidStateTransition "Bot" (value (status self)) "go_busy")
  else
    modify (set_status BUSY);;
    modify (set_updated_at now).

Definition go_offline (now : Timestamp) : M t unit :=
  modify (set_status OFFLINE);;
  modify (set_updated_at now).

Definition heartbeat (now : Timestamp) : M t unit :=
  self ← get_self;
  (if bool_decide (status self = OFFLINE) then modify (set_status ONLINE)
   else mret tt);;
  modify (set_last_seen (Some now));;
  modify (set_updated_at now).

Definition has_capability (capability : pystr) (self : t) : bool :=
  bool_decide (capability ∈ capabilities self).

Definition is_available (self : t) : bool :=
  bool_decide (status self = ONLINE).

(** [elapsed > timeout_seconds], where [elapsed] is the float
    [total_seconds (now - last_seen)]. *)
Definition is_stale (total_seconds : Z -> Q) (now : Timestamp)
    (timeout_seconds : Z) (self : t) : bool :=
  match last_seen self with
  | None => true
  | Some seen =>
    negb (Qle_bool (total_seconds (now - seen)) (inject_Z timeout_seconds))
  end.

End Bot.

(** ** domain/models/workflow.py *)

Module Workflow.

Inductive WorkflowStatus :=
| PENDING | IN_PROGRESS | COMPLETED | FAILED | CANCELLED.

Record t := mk {
  id : UUID;
  name : pystr;
  description : pystr;
  status : WorkflowStatus;
  task_ids : list UUID;
  metadata : dict;
  created_at : Timestamp;
  started_at : option Timestamp;
  completed_at : option Timestamp;
  updated_at : Timestamp
}.

Definition set_status (v : WorkflowStatus) (x : t) : t :=
  mk (id x) (name x) (description x) v (task_ids x) (metadata x)
     (created_at x) (started_at x) (completed_at x) (updated_at x).
Definition set_completed_at (v : option Timestamp) (x : t) : t :=
  mk (id x) (name x) (description x) (status x) (task_ids x) (metadata x)
     (created_at x) (started_at x) v (updated_at x).
Definition set_updated_at (v : Timestamp) (x : t) : t :=
  mk (id x) (name x) (description x) (status x) (task_ids x) (metadata x)
     (created_at x) (started_at x) (completed_at x) v.

Definition cancel (now : Timestamp) : M t unit :=
  modify (set_status CANCELLED);;
  self ← get_self;
  (if negb (bool_decide (is_Some (completed_at self))) then
     modify (set_completed_at (Some now))
   else mret tt);;
  modify (set_updated_at now).

Definition value (s : WorkflowStatus) : string :=
  match s with
  | PENDING => "pending"
  | IN_PROGRESS => "in_progress"
  | COMPLETED => "completed"
  | FAILED => "failed"
  | CANCELLED => "cancelled"
  end.

#[global] Instance WorkflowStatus_eq_dec : EqDecision WorkflowStatus.
Proof. solve_decision. Defined.

Definition set_started_at (v : option Timestamp) (x : t) : t :=
  mk (id x) (name x) (description x) (status x) (task_ids x) (metadata x)
     (created_at x) v (completed_at x) (updated_at x).
Definition set_task_ids (v : list UUID) (x : t) : t :=
  mk (id x) (name x) (description x) (status x) v (metadata x)
     (created_at x) (started_at x) (completed_at x) (updated_at x).

(** [Workflow(name=..., description=..., metadata=...)]: the name is
    guarded by [Field(min_length=1, max_length=255)] alone, the model has
    no field validator. *)
Definition new (fresh_id : UUID) (name_ description_ : pystr)
    (metadata_ : dict) (now : Timestamp) : DomainError + t :=
  if (1 <=? length name_)%nat && (length name_ <=? 255)%nat then
    inr (mk fresh_id name_ description_ PENDING [] metadata_ now None None
           now)
  else inl (PydanticValidationError ["name"]).

Definition start (now : Timestamp) : M t unit :=
  self ← get_self;
  if negb (bool_decide (status self = PENDING)) then
    raise (InvalidStateTransition "Workflow" (value (status self)) "start")
  else
    modify (set_status IN_PROGRESS);;
    modify (set_started_at (Some now));;
    modify (set_updated_at now).

Definition complete (now : Timestamp) : M t unit :=
  self ← get_self;
  if negb (bool_decide (status self = IN_PROGRESS)) then
    raise (InvalidStateTransition "Workflow" (value (status self))
             "complete")
  else
    modify (set_status COMPLETED);;
    modify (set_completed_at (Some now));;
    modify (set_updated_at now).

Definition fail (now : Timestamp) : M t unit :=
  self ← get_self;
  if negb (bool_decide (status self = IN_PROGRESS)) then
    raise (InvalidStateTransition "Workflow" (value (status self)) "fail")
  else
    modify (set_status FAILED);;
    modify (set_completed_at (Some now));;
    modify (set_updated_at now).

Definition add_task (task_id : UUID) (now : Timestamp) : M t unit :=
  self ← get_self;
  modify (set_task_ids (task_ids self ++ [task_id]));;
  modify (set_updated_at now).

Definition has_tasks (self : t) : bool :=
  (0 <? length (task_ids self))%nat.

Definition task_count (self : t) : nat := length (task_ids self).

Definition is_terminal (self : t) : bool :=
  match status self with
  | COMPLETED | FAILED | CANCELLED => true
  | _ => false
  end.

End Workflow.

(** ** domain/services/websocket_manager.py *)

Module WebSocketConnectionManager.

Record ConnectionInfo := mkInfo {
  bot_id : UUID;
  connected_at : Timestamp
}.

Section Manager.
(** The WebSocket objects are opaque ([Any]). *)
Context {WebSocket : Type}.

Record t := mk {
  _connections : gmap UUID WebSocket;
  _connection_info : gmap UUID ConnectionInfo
}.

(** [__init__] *)
Definition init : t := mk ∅ ∅.

Definition connect (bot : UUID) (websocket : WebSocket)
    (now : Timestamp) (self : t) : t :=
  mk (<[bot := websocket]> (_connections self))
     (<[bot := mkInfo bot now]> (_connection_info self)).

Definition disconnect (bot : UUID) (self : t) : t :=
  mk (delete bot (_connections self))
     (delete bot (_connection_info self)).

Definition is_connected (bot : UUID) (self : t) : bool :=
  bool_decide (is_Some (_connections self !! bot)).

Definition get_connection (bot : UUID) (self : t) : option WebSocket :=
  _connections self !! bot.

Definition get_connection_info (bot : UUID) (self : t)
  : option ConnectionInfo :=
  _connection_info self !! bot.

Definition get_connection_count (self : t) : nat :=
  size (_connections self).

Definition get_all_connected_bot_ids (self : t) : list UUID :=
  (map_to_list (_connections self)).*1.

(** Sequences of calls on one manager. *)
Inductive op :=
| Connect (bot : UUID) (websocket : WebSocket) (now : Timestamp)
| Disconnect (bot : UUID).

Definition step (self : t) (o : op) : t :=
  match o with
  | Connect b ws now => connect b ws now self
  | Disconnect b => disconnect b self
  end.

Definition run (ops : list op) : t := fold_left step ops init.
(** Every connection record is filed under the bot it names. *)
Definition info_keyed (self : t) : Prop :=
  forall b info, _connection_info self !! b = Some info -> bot_id info = b.
End Manager.

Arguments t : clear implicits.
Arguments op : clear implicits.

End WebSocketConnectionManager.

(** ** domain/repositories: the ports

    Only the operations the services below call.  [get_all] is called with
    its defaults [skip=0, limit=100]; an implementation of
    [get_timeout_candidates] reads the clock, passed here as [now]. *)

Class TaskRepository (W : Type) := {
  task_get : UUID -> M W (option Task.t);
  task_save : Task.t -> M W unit;
  task_get_all : M W (list Task.t);
  task_get_timeout_candidates : Timestamp -> M W (list Task.t)
}.

Class BotRepository (W : Type) := {
  bot_get : UUID -> M W (option Bot.t);
  bot_save : Bot.t -> M W unit
}.

(** The block

      if task.bot_id:
          bot = await self._bot_repo.get(task.bot_id)
          if bot and bot.status == BotStatus.BUSY:
              bot.go_online()
              await self._bot_repo.save(bot)

    which task_service.py and timeout_worker.py write out after every
    transition of a task to a terminal state. *)
Definition free_the_bot {W} `{BotRepository W} (task : Task.t)
    (now : Timestamp) : M W unit :=
  match Task.bot_id task with
  | Some b =>
    o ← bot_get b;
    match o with
    | Some bot =>
      if bool_decide (Bot.status bot = BUSY) then
        '(_, bot) ← call (Bot.go_online now) bot;
        bot_save bot
      else mret tt
    | None => mret tt
    end
  | None => mret tt
  end.

(** ** domain/services/task_service.py *)

Module TaskService.
Section Service.
Context {W : Type} `{TaskRepository W} `{BotRepository W}.

Definition assign_task_to_bot (task_id bot_id : UUID) (now : Timestamp)
  : M W unit :=
  o ← task_get task_id;
  match o with
  | None => raise (ResourceNotFound "Task" task_id)
  | Some task =>
    ob ← bot_get bot_id;
    match ob with
    | None => raise (ResourceNotFound "Bot" bot_id)
    | Some bot =>
      '(_, task) ← call (Task.assign_to bot_id now) task;
      task_save task
    end
  end.

Definition start_task (task_id : UUID) (now : Timestamp) : M W unit :=
  o ← task_get task_id;
  match o with
  | None => raise (ResourceNotFound "Task" task_id)
  | Some task =>
    '(_, task) ← call (Task.start now) task;
    task_save task
  end.

Definition complete_task (task_id : UUID) (result : dict)
    (now : Timestamp) : M W unit :=
  o ← task_get task_id;
  match o with
  | None => raise (ResourceNotFound "Task" task_id)
  | Some task =>
    '(_, task) ← call (Task.complete result now) task;
    task_save task;;
    free_the_bot task now
  end.

Definition fail_task (task_id : UUID) (error : dict)
    (now : Timestamp) : M W unit :=
  o ← task_get task_id;
  match o with
  | None => raise (ResourceNotFound "Task" task_id)
  | Some task =>
    '(_, task) ← call (Task.fail error now) task;
    task_save task;;
    free_the_bot task now
  end.

Definition cancel_task (task_id : UUID) (now : Timestamp) : M W unit :=
  o ← task_get task_id;
  match o with
  | None => raise (ResourceNotFound "Task" task_id)
  | Some task =>
    '(_, task) ← call (Task.cancel now) task;
    task_save task;;
    free_the_bot task now
  end.

(** The error recorded by [handle_timed_out_tasks]. *)
Definition timeout_error (task : Task.t) : dict :=
  {[ "error" := JStr "Task exceeded timeout";
     "timeout_seconds" := JInt (Task.timeout_seconds task) ]}.

(** The body of the [for] loop of [handle_timed_out_tasks];
    [failed_count] is the loop's counter. *)
Definition handle_candidate (now : Timestamp) (failed_count : nat)
    (task : Task.t) : M W nat :=
  if Task.is_timed_out now task then
    '(_, task) ← call (Task.fail (timeout_error task) now) task;
    task_save task;;
    free_the_bot task now;;
    mret (S failed_count)
  else mret failed_count.

Fixpoint handle_loop (now : Timestamp) (timeout_tasks : list Task.t)
    (failed_count : nat) : M W nat :=
  match timeout_tasks with
  | [] => mret failed_count
  | task :: rest =>
    n ← handle_candidate now failed_count task;
    handle_loop now rest n
  end.

Definition handle_timed_out_tasks (now : Timestamp) : M W nat :=
  timeout_tasks ← task_get_timeout_candidates now;
  handle_loop now timeout_tasks 0%nat.

(** [timeout_seconds] defaults to 300; [fresh_id] is the identity drawn
    by [uuid4()] in the constructor. *)
Definition create_task (fresh_id workflow_id : UUID) (payload : dict)
    (timeout_seconds : Z) (now : Timestamp) : M W Task.t :=
  match Task.new fresh_id workflow_id payload timeout_seconds now with
  | inl e => raise e
  | inr task => task_save task;; mret task
  end.

Definition get_task (task_id : UUID) : M W Task.t :=
  o ← task_get task_id;
  match o with
  | None => raise (ResourceNotFound "Task" task_id)
  | Some task => mret task
  end.
End Service.
End TaskService.

(** ** domain/services/bot_service.py *)

Module BotService.
Section Service.
Context {W : Type} `{BotRepository W}.

(** [fresh_id] is the identity drawn by [uuid4()] in the constructor;
    [metadata or {}] is the empty dict for [None]. *)
Definition register_bot (fresh_id : UUID) (name : pystr)
    (capabilities : list pystr) (metadata : option dict)
    (now : Timestamp) : M W Bot.t :=
  match Bot.new fresh_id name capabilities (default ∅ metadata) now with
  | inl e => raise e
  | inr bot => bot_save bot;; mret bot
  end.

Definition heartbeat (bot_id : UUID) (now : Timestamp) : M W unit :=
  o ← bot_get bot_id;
  match o with
  | None => raise (ResourceNotFound "Bot" bot_id)
  | Some bot =>
    '(_, bot) ← call (Bot.heartbeat now) bot;
    bot_save bot
  end.

Definition get_bot (bot_id : UUID) : M W Bot.t :=
  o ← bot_get bot_id;
  match o with
  | None => raise (ResourceNotFound "Bot" bot_id)
  | Some bot => mret bot
  end.

Definition mark_bot_busy (bot_id : UUID) (now : Timestamp) : M W unit :=
  o ← bot_get bot_id;
  match o with
  | None => raise (ResourceNotFound "Bot" bot_id)
  | Some bot =>
    '(_, bot) ← call (Bot.go_busy now) bot;
    bot_save bot
  end.

Definition mark_bot_available (bot_id : UUID) (now : Timestamp)
  : M W unit :=
  o ← bot_get bot_id;
  match o with
  | None => raise (ResourceNotFound "Bot" bot_id)
  | Some bot =>
    '(_, bot) ← call (Bot.go_online now) bot;
    bot_save bot
  end.

Definition save_bot (bot : Bot.t) : M W unit := bot_save bot.
End Service.
End BotService.

(** ** workers/timeout_worker.py *)

Module TimeoutWorker.
Section Worker.
Context {W : Type} `{TaskRepository W} `{BotRepository W}.

Definition error_details (current_task : Task.t) : dict :=
  {[ "reason" := JStr "timeout";
     "message" :=
       JStr ("Task exceeded timeout of "
             +:+ str_of_int (Task.timeout_seconds current_task)
             +:+ " seconds");
     "timeout_seconds" := JInt (Task.timeout_seconds current_task) ]}.

(** The body of the [for] loop of [process_timeouts]; every [continue]
    leaves the counter as it is. *)
Definition process_candidate (now : Timestamp) (timed_out_count : nat)
    (task : Task.t) : M W nat :=
  if Task.is_timed_out now task then
    try_except
      (o ← task_get (Task.id task);
       match o with
       | None => mret timed_out_count
       | Some current_task =>
         if Task.is_terminal current_task then mret timed_out_count
         else
           '(_, current_task) ←
             call (Task.fail (error_details current_task) now)
                  current_task;
           task_save current_task;;
           free_the_bot current_task now;;
           mret (S timed_out_count)
       end)
      (fun _ => mret timed_out_count)
  else mret timed_out_count.

Fixpoint process_loop (now : Timestamp) (all_tasks : list Task.t)
    (timed_out_count : nat) : M W nat :=
  match all_tasks with
  | [] => mret timed_out_count
  | task :: rest =>
    n ← process_candidate now timed_out_count task;
    process_loop now rest n
  end.

Definition process_timeouts (now : Timestamp) : M W nat :=
  all_tasks ← task_get_all;
  process_loop now all_tasks 0%nat.
End Worker.
End TimeoutWorker.

(** ** An in-memory implementation of the ports

    The store of the specification: it reflects the last save of every
    identity.  [saved] records the calls of [save], oldest first. *)

Module InMemory.

Inductive SaveEvent :=
| SavedTask (task : Task.t)
| SavedBot (bot : Bot.t).

Record World := mk {
  tasks : gmap UUID Task.t;
  bots : gmap UUID Bot.t;
  saved : list SaveEvent
}.

Definition put_task (task : Task.t) (w : World) : World :=
  mk (<[Task.id task := task]> (tasks w)) (bots w)
     (saved w ++ [SavedTask task]).

Definition put_bot (bot : Bot.t) (w : World) : World :=
  mk (tasks w) (<[Bot.id bot := bot]> (bots w))
     (saved w ++ [SavedBot bot]).

Definition all_tasks (w : World) : list Task.t :=
  (map_to_list (tasks w)).*2.

#[global] Instance task_repo : TaskRepository World := {
  task_get task_id := fun w => (inr (tasks w !! task_id), w);
  task_save task := modify (put_task task);
  task_get_all := fun w => (inr (take 100 (all_tasks w)), w);
  task_get_timeout_candidates now :=
    fun w => (inr (filter (fun t => Task.is_timed_out now t = true)
                     (all_tasks w)), w)
}.

#[global] Instance bot_repo : BotRepository World := {
  bot_get bot_id := fun w => (inr (bots w !! bot_id), w);
  bot_save bot := modify (put_bot bot)
}.

End InMemory.

(** ** A store whose [save] of tasks is out of order

    The in-memory store, except that [TaskRepository.save] raises for the
    identities in [broken] (a lost connection, a constraint of the
    database). *)

Module Faulty.

Record World := mk {
  inner : InMemory.World;
  broken : gset UUID
}.

Definition lift {A} (m : M InMemory.World A) : M World A :=
  fun w => let '(r, i) := m (inner w) in (r, mk i (broken w)).

#[global] Instance task_repo : TaskRepository World := {
  task_get task_id := lift (task_get task_id);
  task_save task := fun w =>
    if bool_decide (Task.id task ∈ broken w) then
      (inl (RepositoryError "save failed"), w)
    else lift (task_save task) w;
  task_get_all := lift task_get_all;
  task_get_timeout_candidates now := lift (task_get_timeout_candidates now)
}.

#[global] Instance bot_repo : BotRepository World := {
  bot_get bot_id := lift (bot_get bot_id);
  bot_save bot := lift (bot_save bot)
}.

End Faulty.

(** ** Concrete aggregates and stores used in the examples below *)

Module Fixtures.

(** One second, in the unit of [Timestamp]. *)
Definition second : Z := 1000000.

(** A task of workflow 9, started at the epoch with a timeout of 60
    seconds by bot 7. *)
Definition running_task (task_id : UUID) : Task.t :=
  Task.mk task_id 9%N (Some 7%N) IN_PROGRESS ∅ None 60 0 (Some 0) (Some 0)
    None 0.

(** The same task after it completed, ten seconds after its start. *)
Definition completed_task (task_id : UUID) : Task.t :=
  Task.mk task_id 9%N (Some 7%N) COMPLETED ∅ (Some {[ "ok" := JBool true ]})
    60 0 (Some 0) (Some 0) (Some (10 * second)) (10 * second).

Definition pending_task (task_id : UUID) : Task.t :=
  Task.mk task_id 9%N None PENDING ∅ None 60 0 None None None 0.

Definition w1 : pystr := pystr_of_string "w1".
Definition build : pystr := pystr_of_string "build".

Definition busy_bot : Bot.t :=
  Bot.mk 7%N w1 [build] BUSY (Some 0) ∅ 0 0.

Definition offline_bot : Bot.t :=
  Bot.mk 7%N w1 [build] OFFLINE None ∅ 0 0.

(** A workflow that completed ten seconds after the epoch. *)
Definition completed_workflow : Workflow.t :=
  Workflow.mk 9%N w1 [] Workflow.COMPLETED [1%N] ∅ 0 (Some 0)
    (Some (10 * second)) (10 * second).

(** Task 1 is running on the busy bot 7. *)
Definition world_running : InMemory.World :=
  InMemory.mk {[ 1%N := running_task 1%N ]} {[ 7%N := busy_bot ]} [].

(** Task 1 is pending, bot 7 is registered. *)
Definition world_pending : InMemory.World :=
  InMemory.mk {[ 1%N := pending_task 1%N ]} {[ 7%N := offline_bot ]} [].

(** Tasks 1, 2 and 3 are running; the store cannot save task 3.  The
    store lists its tasks in the order 2, 3, 1. *)
Definition world_faulty : Faulty.World :=
  Faulty.mk
    (InMemory.mk
       {[ 1%N := running_task 1%N; 2%N := running_task 2%N;
          3%N := running_task 3%N ]}
       {[ 7%N := busy_bot ]} [])
    {[ 3%N ]}.

End Fixtures.

(** ** The aggregates after a transition

    Written out field by field, for the statements below. *)

Module Outcome.

Definition assigned (task : Task.t) (bot : UUID) (now : Timestamp)
  : Task.t :=
  Task.mk (Task.id task) (Task.workflow_id task) (Some bot) ASSIGNED
    (Task.payload task) (Task.result task) (Task.timeout_seconds task)
    (Task.created_at task) (Some now) (Task.started_at task)
    (Task.completed_at task) now.

Definition completed (task : Task.t) (res : dict) (now : Timestamp)
  : Task.t :=
  Task.mk (Task.id task) (Task.workflow_id task) (Task.bot_id task)
    COMPLETED (Task.payload task) (Some res) (Task.timeout_seconds task)
    (Task.created_at task) (Task.assigned_at task) (Task.started_at task)
    (Some now) now.

Definition failed (task : Task.t) (error : dict) (now : Timestamp)
  : Task.t :=
  Task.mk (Task.id task) (Task.workflow_id task) (Task.bot_id task)
    FAILED (Task.payload task) (Some error) (Task.timeout_seconds task)
    (Task.created_at task) (Task.assigned_at task) (Task.started_at task)
    (Some now) now.

Definition cancelled (task : Task.t) (now : Timestamp) : Task.t :=
  Task.mk (Task.id task) (Task.workflow_id task) (Task.bot_id task)
    CANCELLED (Task.payload task) (Task.result task)
    (Task.timeout_seconds task) (Task.created_at task)
    (Task.assigned_at task) (Task.started_at task) (Some now) now.

Definition online (bot : Bot.t) (now : Timestamp) : Bot.t :=
  Bot.mk (Bot.id bot) (Bot.name bot) (Bot.capabilities bot) ONLINE
    (Some now) (Bot.metadata bot) (Bot.created_at bot) now.

(** The store after a task was saved and its busy bot released. *)
Definition task_saved_bot_released (w : InMemory.World) (task : Task.t)
    (bot : Bot.t) (now : Timestamp) : InMemory.World :=
  InMemory.mk (<[Task.id task := task]> (InMemory.tasks w))
    (<[Bot.id bot := online bot now]> (InMemory.bots w))
    (InMemory.saved w
     ++ [InMemory.SavedTask task; InMemory.SavedBot (online bot now)]).

(** The store after a task was saved and no bot touched. *)
Definition task_saved (w : InMemory.World) (task : Task.t)
  : InMemory.World :=
  InMemory.mk (<[Task.id task := task]> (InMemory.tasks w))
    (InMemory.bots w) (InMemory.saved w ++ [InMemory.SavedTask task]).

(** The store after a sweep failed a task: the task is saved, and its
    bot is released when it is in the store and busy. *)
Definition swept (w : InMemory.World) (task : Task.t) (now : Timestamp)
  : InMemory.World :=
  match Task.bot_id task with
  | Some b =>
    match InMemory.bots w !! b with
    | Some bot =>
      if decide (Bot.status bot = BUSY) then
        task_saved_bot_released w task bot now
      else task_saved w task
    | None => task_saved w task
    end
  | None => task_saved w task
  end.

(** The number of saves of tasks in a log of saves. *)
Fixpoint task_saves (evs : list InMemory.SaveEvent) : nat :=
  match evs with
  | [] => 0
  | InMemory.SavedTask _ :: r => S (task_saves r)
  | InMemory.SavedBot _ :: r => task_saves r
  end.

(** What one sweep of [TimeoutWorker] may add to the log of saves: a
    failed task carrying the error of the worker, or a bot put online. *)
Definition sweep_event (ev : InMemory.SaveEvent) : Prop :=
  match ev with
  | InMemory.SavedTask t =>
    Task.status t = FAILED
    /\ Task.result t = Some (TimeoutWorker.error_details t)
  | InMemory.SavedBot b => Bot.status b = ONLINE
  end.

End Outcome.

(** ** The sweep as the specification words it

    The result the specification gives a task failed by the sweep:
    reason "timeout", the message "<timeout_seconds>s exceeded", and
    timeout_seconds. *)
Definition spec_timeout_result (timeout_seconds : Z) (d : dict) : Prop :=
  d !! "reason" = Some (JStr "timeout")
  /\ d !! "message" = Some (JStr (str_of_int timeout_seconds +:+ "s exceeded"))
  /\ d !! "timeout_seconds" = Some (JInt timeout_seconds).

(** ** Sequences of calls on one task *)

Module TaskLifecycle.

Inductive op :=
| AssignTo (bot : UUID) (now : Timestamp)
| Start (now : Timestamp)
| Complete (res : dict) (now : Timestamp)
| Fail (error : dict) (now : Timestamp)
| Cancel (now : Timestamp).

Definition method (o : op) : M Task.t unit :=
  match o with
  | AssignTo bot now => Task.assign_to bot now
  | Start now => Task.start now
  | Complete res now => Task.complete res now
  | Fail error now => Task.fail error now
  | Cancel now => Task.cancel now
  end.

Definition time_of (o : op) : Timestamp :=
  match o with
  | AssignTo _ now | Start now | Complete _ now | Fail _ now | Cancel now =>
    now
  end.

(** The object after the call, whether it returned or raised. *)
Definition step (self : Task.t) (o : op) : Task.t := (method o self).2.

Definition run (ops : list op) (self : Task.t) : Task.t :=
  fold_left step ops self.

(** The calls are made at times that do not go back, none before [lo]. *)
Fixpoint in_time_order (lo : Timestamp) (ops : list op) : Prop :=
  match ops with
  | [] => True
  | o :: rest => lo <= time_of o /\ in_time_order (time_of o) rest
  end.

(** What the fields of a task say about each other in each status. *)
Definition consistent (t : Task.t) : Prop :=
  match Task.status t with
  | PENDING =>
    Task.bot_id t = None /\ Task.result t = None
    /\ Task.assigned_at t = None /\ Task.started_at t = None
    /\ Task.completed_at t = None
  | ASSIGNED =>
    is_Some (Task.bot_id t) /\ Task.result t = None
    /\ is_Some (Task.assigned_at t) /\ Task.started_at t = None
    /\ Task.completed_at t = None
  | IN_PROGRESS =>
    is_Some (Task.bot_id t) /\ Task.result t = None
    /\ is_Some (Task.assigned_at t) /\ is_Some (Task.started_at t)
    /\ Task.completed_at t = None
  | COMPLETED | FAILED =>
    is_Some (Task.bot_id t) /\ is_Some (Task.result t)
    /\ is_Some (Task.assigned_at t) /\ is_Some (Task.started_at t)
    /\ is_Some (Task.completed_at t)
  | CANCELLED =>
    is_Some (Task.completed_at t)
    /\ (is_Some (Task.bot_id t) <-> is_Some (Task.assigned_at t))
    /\ (is_Some (Task.started_at t) -> is_Some (Task.assigned_at t))
    /\ (is_Some (Task.result t) -> is_Some (Task.started_at t))
  end.

Definition before (a b : option Timestamp) : Prop :=
  match a, b with
  | Some x, Some y => x <= y
  | _, _ => True
  end.

(** The timestamps of a task, where set, follow the life of the task. *)
Definition chronological (t : Task.t) : Prop :=
  Task.created_at t <= Task.updated_at t
  /\ before (Some (Task.created_at t)) (Task.assigned_at t)
  /\ before (Some (Task.created_at t)) (Task.started_at t)
  /\ before (Some (Task.created_at t)) (Task.completed_at t)
  /\ before (Task.assigned_at t) (Task.started_at t)
  /\ before (Task.assigned_at t) (Task.completed_at t)
  /\ before (Task.started_at t) (Task.completed_at t)
  /\ before (Task.assigned_at t) (Some (Task.updated_at t))
  /\ before (Task.started_at t) (Some (Task.updated_at t))
  /\ before (Task.completed_at t) (Some (Task.updated_at t)).

End TaskLifecycle.

(** ** domain/repositories/workflow_repo.py and
       domain/services/workflow_service.py *)

Class WorkflowRepository (W : Type) := {
  workflow_get : UUID -> M W (option Workflow.t);
  workflow_save : Workflow.t -> M W unit
}.

Module WorkflowService.
Section Service.
Context {W : Type} `{WorkflowRepository W} `{TaskRepository W}
  `{BotRepository W}.

(** The [for] loop of [create_workflow].  [fresh i] is the [i]-th value
    drawn by [uuid4()] during the call: [fresh 0] for the workflow, then one
    for every task. *)
Fixpoint create_tasks (fresh : nat -> UUID) (i : nat)
    (task_payloads : list dict) (workflow : Workflow.t) (now : Timestamp)
  : M W Workflow.t :=
  match task_payloads with
  | [] => mret workflow
  | payload :: rest =>
    task ← TaskService.create_task (fresh i) (Workflow.id workflow)
             payload 300 now;
    '(_, workflow) ← call (Workflow.add_task (Task.id task) now) workflow;
    create_tasks fresh (S i) rest workflow now
  end.

Definition create_workflow (fresh : nat -> UUID) (name description : pystr)
    (task_payloads : option (list dict)) (metadata : option dict)
    (now : Timestamp) : M W Workflow.t :=
  match Workflow.new (fresh 0%nat) name description (default ∅ metadata)
          now with
  | inl e => raise e
  | inr workflow =>
    workflow ←
      (if truthy (default [] task_payloads) then
         create_tasks fresh 1 (default [] task_payloads) workflow now
       else mret workflow);
    workflow_save workflow;;
    mret workflow
  end.

Definition start_workflow (workflow_id : UUID) (now : Timestamp)
  : M W unit :=
  o ← workflow_get workflow_id;
  match o with
  | None => raise (ResourceNotFound "Workflow" workflow_id)
  | Some workflow =>
    '(_, workflow) ← call (Workflow.start now) workflow;
    workflow_save workflow
  end.

Definition get_workflow (workflow_id : UUID) : M W Workflow.t :=
  o ← workflow_get workflow_id;
  match o with
  | None => raise (ResourceNotFound "Workflow" workflow_id)
  | Some workflow => mret workflow
  end.
End Service.
End WorkflowService.

(** ** The in-memory store with workflows

    [InMemory.World] and a table of workflows; [Faulty.World] the same way,
    for a store that cannot save some tasks. *)

Module WorkflowStore.
Section Store.
Context {B : Type}.

Record World := mk {
  base : B;
  workflows : gmap UUID Workflow.t;
  saved_workflows : list Workflow.t
}.

Definition lift {A} (m : M B A) : M World A :=
  fun w => let '(r, b) := m (base w) in
           (r, mk b (workflows w) (saved_workflows w)).

Definition put_workflow (workflow : Workflow.t) (w : World) : World :=
  mk (base w) (<[Workflow.id workflow := workflow]> (workflows w))
     (saved_workflows w ++ [workflow]).

#[global] Instance workflow_repo : WorkflowRepository World := {
  workflow_get workflow_id := fun w => (inr (workflows w !! workflow_id), w);
  workflow_save workflow := modify (put_workflow workflow)
}.

#[global] Instance task_repo `{TaskRepository B} : TaskRepository World := {
  task_get task_id := lift (task_get task_id);
  task_save task := lift (task_save task);
  task_get_all := lift task_get_all;
  task_get_timeout_candidates now := lift (task_get_timeout_candidates now)
}.

#[global] Instance bot_repo `{BotRepository B} : BotRepository World := {
  bot_get bot_id := lift (bot_get bot_id);
  bot_save bot := lift (bot_save bot)
}.
End Store.
Arguments World : clear implicits.
End WorkflowStore.

(** ** Expected results of the services, written out *)

Module Expected.

(** The task [create_task] builds. *)
Definition new_task (task_id workflow_id : UUID) (payload : dict)
    (timeout_seconds : Z) (now : Timestamp) : Task.t :=
  Task.mk task_id workflow_id None PENDING payload None timeout_seconds now
    None None None now.

(** The tasks [create_workflow] builds for its payloads, the first with
    the identity [fresh i]. *)
Fixpoint new_tasks (fresh : nat -> UUID) (i : nat) (workflow_id : UUID)
    (task_payloads : list dict) (now : Timestamp) : list Task.t :=
  match task_payloads with
  | [] => []
  | payload :: rest =>
    new_task (fresh i) workflow_id payload 300 now
    :: new_tasks fresh (S i) workflow_id rest now
  end.

(** The workflow [create_workflow] saves and returns. *)
Definition new_workflow (fresh : nat -> UUID) (name description : pystr)
    (task_payloads : list dict) (metadata : dict) (now : Timestamp)
  : Workflow.t :=
  Workflow.mk (fresh 0%nat) name description Workflow.PENDING
    (map fresh (seq 1 (length task_payloads))) metadata now None None now.

(** The in-memory store after the tasks of a list were saved in turn. *)
Definition tasks_saved (w : InMemory.World) (tasks : list Task.t)
  : InMemory.World :=
  fold_left (fun w task => InMemory.put_task task w) tasks w.

(** No bot is busy in [w'] that was not already stored, as it is, in
    [w]. *)
Definition no_new_busy (w w' : InMemory.World) : Prop :=
  forall k bot,
    InMemory.bots w' !! k = Some bot -> Bot.status bot = BUSY ->
    InMemory.bots w !! k = Some bot.

(** Every task of the store is stored under its own identity. *)
Definition keyed_by_id (w : InMemory.World) : Prop :=
  forall k task, InMemory.tasks w !! k = Some task -> Task.id task = k.

(** Calls of [add_task] in a row. *)
Definition add_tasks (task_ids : list UUID) (now : Timestamp)
    (workflow : Workflow.t) : Workflow.t :=
  fold_left (fun wf task_id => (Workflow.add_task task_id now wf).2)
    task_ids workflow.

(** A task after a pass of [handle_timed_out_tasks] at [now]. *)
Definition after_pass (now : Timestamp) (task : Task.t) : Task.t :=
  if Task.is_timed_out now task then
    Outcome.failed task (TaskService.timeout_error task) now
  else task.

End Expected.

(** ** Any store, with a record of the saves that returned

    The ports of a store [B], passed on as they are; a call of [save] that
    returns is added to [saved], one that raises is not. *)

Module Logged.
Section Store.
Context {B : Type} `{TaskRepository B} `{BotRepository B}.

Record World := mk {
  inner : B;
  saved : list InMemory.SaveEvent
}.

Definition lift {A} (m : M B A) : M World A :=
  fun w => match m (inner w) with
           | (r, b) => (r, mk b (saved w))
           end.

Definition logging (ev : InMemory.SaveEvent) (m : M B unit) : M World unit :=
  fun w => match m (inner w) with
           | (inr tt, b) => (inr tt, mk b (saved w ++ [ev]))
           | (inl e, b) => (inl e, mk b (saved w))
           end.

#[global] Instance task_repo : TaskRepository World := {
  task_get task_id := lift (task_get task_id);
  task_save task := logging (InMemory.SavedTask task) (task_save task);
  task_get_all := lift task_get_all;
  task_get_timeout_candidates now := lift (task_get_timeout_candidates now)
}.

#[global] Instance bot_repo : BotRepository World := {
  bot_get bot_id := lift (bot_get bot_id);
  bot_save bot := logging (InMemory.SavedBot bot) (bot_save bot)
}.

(** The bot store answers every call: neither [get] nor [save] raises. *)
Definition bot_store_returns : Prop :=
  (forall bot_id (b : B), exists o b', bot_get bot_id b = (inr o, b'))
  /\ (forall bot (b : B), exists b', bot_save bot b = (inr tt, b')).
End Store.
Arguments World : clear implicits.
Arguments bot_store_returns B {_}.
End Logged.

(** * Properties *)

Ltac unfold_m :=
  unfold mbind, M_bind, bind, mret, M_ret, ret, raise, modify, get_self,
    call, try_except in *.

(** ** The task state machine *)

(** The task a guarded transition leaves behind when its guard holds. *)
Lemma assign_to_pending (t : Task.t) (bot : UUID) (now : Timestamp) :
  Task.status t = PENDING ->
  Task.assign_to bot now t =
  (inr tt,
   Task.mk (Task.id t) (Task.workflow_id t) (Some bot) ASSIGNED
     (Task.payload t) (Task.result t) (Task.timeout_seconds t)
     (Task.created_at t) (Some now) (Task.started_at t)
     (Task.completed_at t) now).
Proof. destruct t; simpl; intros ->; reflexivity. Qed.

Lemma fail_in_progress (t : Task.t) (error : dict) (now : Timestamp) :
  Task.status t = IN_PROGRESS ->
  Task.fail error now t =
  (inr tt,
   Task.mk (Task.id t) (Task.workflow_id t) (Task.bot_id t) FAILED
     (Task.payload t) (Some error) (Task.timeout_seconds t)
     (Task.created_at t) (Task.assigned_at t) (Task.started_at t)
     (Some now) now).
Proof. destruct t; simpl; intros ->; reflexivity. Qed.

Lemma complete_in_progress (t : Task.t) (res : dict) (now : Timestamp) :
  Task.status t = IN_PROGRESS ->
  Task.complete res now t =
  (inr tt,
   Task.mk (Task.id t) (Task.workflow_id t) (Task.bot_id t) COMPLETED
     (Task.payload t) (Some res) (Task.timeout_seconds t)
     (Task.created_at t) (Task.assigned_at t) (Task.started_at t)
     (Some now) now).
Proof. destruct t; simpl; intros ->; reflexivity. Qed.

Lemma fail_not_in_progress (t : Task.t) (error : dict) (now : Timestamp) :
  Task.status t <> IN_PROGRESS ->
  Task.fail error now t =
  (inl (InvalidStateTransition "Task" (Task.value (Task.status t)) "fail"),
   t).
Proof. destruct t as [? ? ? [] ? ? ? ? ? ? ? ?]; simpl; intros Hs;
  try reflexivity; congruence. Qed.

Lemma complete_not_in_progress (t : Task.t) (res : dict) (now : Timestamp) :
  Task.status t <> IN_PROGRESS ->
  Task.complete res now t =
  (inl (InvalidStateTransition "Task" (Task.value (Task.status t))
          "complete"), t).
Proof. destruct t as [? ? ? [] ? ? ? ? ? ? ? ?]; simpl; intros Hs;
  try reflexivity; congruence. Qed.

Lemma cancel_any (t : Task.t) (now : Timestamp) :
  Task.cancel now t =
  (inr tt,
   Task.mk (Task.id t) (Task.workflow_id t) (Task.bot_id t) CANCELLED
     (Task.payload t) (Task.result t) (Task.timeout_seconds t)
     (Task.created_at t) (Task.assigned_at t) (Task.started_at t)
     (Some now) now).
Proof. destruct t; reflexivity. Qed.

Lemma is_timed_out_in_progress (now : Timestamp) (t : Task.t) :
  Task.is_timed_out now t = true -> Task.status t = IN_PROGRESS.
Proof.
  unfold Task.is_timed_out. destruct (Task.status t); simpl; congruence.
Qed.

Lemma terminal_not_in_progress (t : Task.t) :
  Task.is_terminal t = true -> Task.status t <> IN_PROGRESS.
Proof. unfold Task.is_terminal. destruct (Task.status t); congruence. Qed.

(** C1. The four guarded operations of a task: [assign_to] succeeds exactly
    from pending, [start] exactly from assigned, [complete] and [fail]
    exactly from in_progress; in every other state the call raises
    [InvalidStateTransition] with the entity type "Task", the value of the
    current state and the name of the operation, and the task is left as it
    was. *)
Theorem C1_task_guarded_transitions
    (t : Task.t) (bot : UUID) (res : dict) (now : Timestamp) :
  Task.assign_to bot now t =
    (if decide (Task.status t = PENDING) then
       (inr tt,
        Task.mk (Task.id t) (Task.workflow_id t) (Some bot) ASSIGNED
          (Task.payload t) (Task.result t) (Task.timeout_seconds t)
          (Task.created_at t) (Some now) (Task.started_at t)
          (Task.completed_at t) now)
     else
       (inl (InvalidStateTransition "Task" (Task.value (Task.status t))
               "assign_to"), t))
  /\ Task.start now t =
    (if decide (Task.status t = ASSIGNED) then
       (inr tt,
        Task.mk (Task.id t) (Task.workflow_id t) (Task.bot_id t) IN_PROGRESS
          (Task.payload t) (Task.result t) (Task.timeout_seconds t)
          (Task.created_at t) (Task.assigned_at t) (Some now)
          (Task.completed_at t) now)
     else
       (inl (InvalidStateTransition "Task" (Task.value (Task.status t))
               "start"), t))
  /\ Task.complete res now t =
    (if decide (Task.status t = IN_PROGRESS) then
       (inr tt,
        Task.mk (Task.id t) (Task.workflow_id t) (Task.bot_id t) COMPLETED
          (Task.payload t) (Some res) (Task.timeout_seconds t)
          (Task.created_at t) (Task.assigned_at t) (Task.started_at t)
          (Some now) now)
     else
       (inl (InvalidStateTransition "Task" (Task.value (Task.status t))
               "complete"), t))
  /\ Task.fail res now t =
    (if decide (Task.status t = IN_PROGRESS) then
       (inr tt,
        Task.mk (Task.id t) (Task.workflow_id t) (Task.bot_id t) FAILED
          (Task.payload t) (Some res) (Task.timeout_seconds t)
          (Task.created_at t) (Task.assigned_at t) (Task.started_at t)
          (Some now) now)
     else
       (inl (InvalidStateTransition "Task" (Task.value (Task.status t))
               "fail"), t)).
Proof.
  destruct t as [? ? ? st ? ? ? ? ? ? ? ?].
  repeat split; destruct st; reflexivity.
Qed.

(** C4. [is_timed_out()] holds exactly when the task is in progress, has a
    start time, and more than [timeout_seconds] have elapsed since; it is
    false in every other status whatever the start time, false when the
    elapsed time is exactly the timeout, and true one second later. *)
Theorem C4_is_timed_out_iff (now : Timestamp) (t : Task.t) :
  (Task.is_timed_out now t = true <->
   Task.status t = IN_PROGRESS /\
   exists s, Task.started_at t = Some s /\
             Task.timeout_seconds t * 1000000 < now - s)
  /\ (Task.status t <> IN_PROGRESS -> Task.is_timed_out now t = false)
  /\ (forall s, Task.started_at t = Some s ->
        now - s = Task.timeout_seconds t * 1000000 ->
        Task.is_timed_out now t = false)
  /\ (forall s, Task.status t = IN_PROGRESS ->
        Task.started_at t = Some s ->
        now - s = (Task.timeout_seconds t + 1) * 1000000 ->
        Task.is_timed_out now t = true).
Proof.
  unfold Task.is_timed_out, total_seconds_gt.
  repeat split.
  - destruct (Task.status t); simpl in *; congruence.
  - destruct (Task.status t); simpl in *; try congruence.
    destruct (Task.started_at t) as [s|]; [|congruence].
    exists s; split; [reflexivity|]. now apply Z.ltb_lt.
  - intros [-> (s & -> & Hlt)]; simpl. now apply Z.ltb_lt.
  - intros Hs. destruct (Task.status t); simpl; congruence.
  - intros s -> Heq. destruct (negb _); [reflexivity|].
    apply Z.ltb_ge. lia.
  - intros s -> -> Heq; simpl. apply Z.ltb_lt. lia.
Qed.

Lemma C4_is_timed_out_witness :
  Task.is_timed_out (60 * Fixtures.second) (Fixtures.running_task 1%N) = false
  /\ Task.is_timed_out (61 * Fixtures.second) (Fixtures.running_task 1%N) = true
  /\ Task.is_timed_out (1000 * Fixtures.second) (Fixtures.completed_task 1%N)
     = false.
Proof.
  split; [|split].
  - apply (proj1 (proj2 (proj2
      (C4_is_timed_out_iff (60 * Fixtures.second)
         (Fixtures.running_task 1%N)))) 0); reflexivity.
  - apply (proj2 (proj2 (proj2
      (C4_is_timed_out_iff (61 * Fixtures.second)
         (Fixtures.running_task 1%N)))) 0); reflexivity.
  - apply (proj1 (proj2
      (C4_is_timed_out_iff (1000 * Fixtures.second)
         (Fixtures.completed_task 1%N)))). discriminate.
Defined.

(** [Workflow.cancel] keeps a completion time that is already set. *)
Lemma workflow_cancel_keeps_completed_at
    (wf : Workflow.t) (now c : Timestamp) :
  Workflow.completed_at wf = Some c ->
  Workflow.completed_at (Workflow.cancel now wf).2 = Some c.
Proof. destruct wf; simpl; intros ->; reflexivity. Qed.

Lemma workflow_cancel_completed_example :
  Workflow.completed_at
    (Workflow.cancel (20 * Fixtures.second) Fixtures.completed_workflow).2
  = Some (10 * Fixtures.second).
Proof. reflexivity. Qed.

(** C6. [Task.cancel] on a task that completed at second 10, called at
    second 20: the task becomes cancelled and its [completed_at] is
    overwritten with the time of the call, where the claim (and
    [Workflow.cancel]) keeps the time already set. *)
Theorem C6_task_cancel_overwrites_completed_at :
  Task.completed_at (Fixtures.completed_task 1%N) = Some (10 * Fixtures.second)
  /\ Task.cancel (20 * Fixtures.second) (Fixtures.completed_task 1%N) =
     (inr tt,
      Task.mk 1%N 9%N (Some 7%N) CANCELLED ∅ (Some {[ "ok" := JBool true ]})
        60 0 (Some 0) (Some 0) (Some (20 * Fixtures.second))
        (20 * Fixtures.second)).
Proof. split; reflexivity. Qed.

(** ** The bot state machine *)

(** C8. [heartbeat()] sets [last_seen] (and [updated_at]) to the current
    time; an offline bot becomes online, a busy or online bot keeps its
    status; identity, name, capabilities, metadata and [created_at] are the
    same after the call, which never raises. *)
Theorem C8_heartbeat (b : Bot.t) (now : Timestamp) :
  Bot.heartbeat now b =
  (inr tt,
   Bot.mk (Bot.id b) (Bot.name b) (Bot.capabilities b)
     (match Bot.status b with
      | OFFLINE => ONLINE
      | ONLINE => ONLINE
      | BUSY => BUSY
      end)
     (Some now) (Bot.metadata b) (Bot.created_at b) now).
Proof. destruct b as [? ? ? [] ? ? ? ?]; reflexivity. Qed.

(** ** The connection registry *)

Section Registry.
Import WebSocketConnectionManager.
Context {WebSocket : Type}.
Implicit Types (self : t WebSocket) (ops : list (op WebSocket)).

(** The two dictionaries of a manager always hold the same bots. *)
Lemma registry_step_dom self o :
  dom (_connections self) = dom (_connection_info self) ->
  dom (_connections (step self o)) = dom (_connection_info (step self o)).
Proof.
  intros Hd. destruct o as [b ws now|b]; simpl.
  - rewrite !dom_insert_L. congruence.
  - rewrite !dom_delete_L. congruence.
Qed.

Lemma registry_fold_dom ops self :
  dom (_connections self) = dom (_connection_info self) ->
  dom (_connections (fold_left step ops self))
  = dom (_connection_info (fold_left step ops self)).
Proof.
  revert self. induction ops as [|o ops IH]; intros self Hd; simpl.
  - exact Hd.
  - apply IH, registry_step_dom, Hd.
Qed.

Lemma registry_run_dom ops :
  dom (_connections (run ops)) = dom (_connection_info (run ops)).
Proof. apply registry_fold_dom. simpl. now rewrite !dom_empty_L. Qed.

(** C7. After any sequence of connect/disconnect calls the registry
    lists every bot at most once, and [get_connection_count] is the number
    of bots listed.  A second [connect] for a bot replaces its entry: the
    count is the one after the first [connect] (1 on a fresh registry) and
    [get_connection] returns the second channel.  [disconnect] removes
    the entry of the bot and no other, and changes nothing when the bot
    has no entry. *)
Theorem C7_registry_one_channel_per_bot
    ops (b : UUID) (ch1 ch2 : WebSocket) (n1 n2 : Timestamp) :
  NoDup (get_all_connected_bot_ids (run ops))
  /\ get_connection_count (run ops)
     = length (get_all_connected_bot_ids (run ops))
  /\ get_connection_count (connect b ch2 n2 (connect b ch1 n1 (run ops)))
     = get_connection_count (connect b ch1 n1 (run ops))
  /\ get_connection_count (connect b ch2 n2 (connect b ch1 n1 init)) = 1%nat
  /\ get_connection b (connect b ch2 n2 (connect b ch1 n1 (run ops)))
     = Some ch2
  /\ get_connection b (disconnect b (run ops)) = None
  /\ is_connected b (disconnect b (run ops)) = false
  /\ (forall b', b' <> b ->
        get_connection b' (disconnect b (run ops))
        = get_connection b' (run ops))
  /\ (is_connected b (run ops) = false ->
      disconnect b (run ops) = run ops).
Proof.
  unfold get_all_connected_bot_ids, get_connection_count, get_connection,
    is_connected.
  split; [apply NoDup_fst_map_to_list|].
  split; [now rewrite length_fmap, length_map_to_list|].
  split; [simpl; now rewrite insert_insert_eq, !map_size_insert|].
  split; [simpl; rewrite insert_insert_eq, insert_empty;
          apply map_size_singleton|].
  split; [simpl; apply lookup_insert_eq|].
  split; [simpl; apply lookup_delete_eq|].
  split; [simpl; rewrite lookup_delete_eq; apply bool_decide_eq_false;
          intros [x Hx]; discriminate|].
  split; [intros b' Hne; simpl; now apply lookup_delete_ne|].
  intros Hc. apply bool_decide_eq_false in Hc.
  assert (Hn : _connections (run ops) !! b = None).
  { destruct (_connections (run ops) !! b) eqn:E; [|reflexivity].
    exfalso; apply Hc; eauto. }
  assert (Hi : _connection_info (run ops) !! b = None).
  { apply not_elem_of_dom. rewrite <- registry_run_dom.
    now apply not_elem_of_dom. }
  unfold disconnect. rewrite (delete_id _ _ Hn), (delete_id _ _ Hi).
  now destruct (run ops).
Qed.

End Registry.

(** The scenario of the specification, with channels named by numbers:
    connect(bot 5, ch1) then connect(bot 5, ch2), and a disconnect of bot 8,
    which never connected. *)
Lemma C7_registry_witness :
  WebSocketConnectionManager.disconnect 8%N
    (WebSocketConnectionManager.run
       [WebSocketConnectionManager.Connect 5%N 1%nat 0;
        WebSocketConnectionManager.Connect 5%N 2%nat 1])
  = WebSocketConnectionManager.run
      [WebSocketConnectionManager.Connect 5%N 1%nat 0;
       WebSocketConnectionManager.Connect 5%N 2%nat 1].
Proof.
  apply (C7_registry_one_channel_per_bot
           [WebSocketConnectionManager.Connect 5%N 1%nat 0;
            WebSocketConnectionManager.Connect 5%N 2%nat 1]
           8%N 1%nat 2%nat 0 0).
  vm_compute. reflexivity.
Defined.

(** ** Validation of a bot's name *)

Lemma lstrip_nil_iff (s : pystr) :
  lstrip s = [] <-> forallb isspace s = true.
Proof.
  induction s as [|c r IH]; simpl; [tauto|].
  destruct (isspace c); simpl; [exact IH|]. split; discriminate.
Qed.

Lemma lstrip_head (s r : pystr) (c : N) :
  lstrip s = c :: r -> isspace c = false.
Proof.
  induction s as [|a s IH]; simpl; [discriminate|].
  destruct (isspace a) eqn:E; [exact IH|]. intros [= <- _]. exact E.
Qed.

Lemma forallb_rev {A} (f : A -> bool) (l : list A) :
  forallb f (rev l) = forallb f l.
Proof.
  induction l as [|a l IH]; simpl; [reflexivity|].
  rewrite forallb_app, IH. simpl. rewrite andb_true_r. apply andb_comm.
Qed.

Lemma strip_nil_iff (s : pystr) :
  strip s = [] <-> forallb isspace s = true.
Proof.
  unfold strip, rstrip. rewrite <- lstrip_nil_iff. split.
  - intros Hr. apply (f_equal (@rev N)) in Hr. rewrite rev_involutive in Hr.
    simpl in Hr. apply lstrip_nil_iff in Hr. rewrite forallb_rev in Hr.
    destruct (lstrip s) as [|c r] eqn:E; [reflexivity|].
    apply lstrip_head in E. simpl in Hr. rewrite E in Hr. discriminate.
  - intros ->. reflexivity.
Qed.

Lemma validate_name_whitespace (v : pystr) :
  forallb isspace v = true ->
  Bot.validate_name v
  = inl (ValidationError "name" "Bot name cannot be empty").
Proof.
  intros Hs. apply strip_nil_iff in Hs. unfold Bot.validate_name.
  rewrite Hs. simpl. now rewrite orb_true_r.
Qed.

Lemma validate_name_visible (v : pystr) :
  forallb isspace v = false -> Bot.validate_name v = inr v.
Proof.
  intros Hs. unfold Bot.validate_name.
  destruct v as [|c r]; [discriminate|].
  destruct (strip (c :: r)) as [|c' r'] eqn:E; [|reflexivity].
  apply strip_nil_iff in E. congruence.
Qed.

(** C10. A name of 1 to 255 characters that consists of whitespace only is
    refused by the constructor of [Bot], and so by [register_bot], with the
    domain's [ValidationError] for the field "name"; nothing is saved.  A
    name within the bound with at least one character that is not
    whitespace is accepted as it is (for a non-empty list of
    capabilities), and [register_bot] saves and returns the bot. *)
Theorem C10_bot_name_validation
    (fresh_id : UUID) (name : pystr) (capabilities : list pystr)
    (metadata : option dict) (now : Timestamp) (w : InMemory.World) :
  (1 <= length name <= 255)%nat ->
  (forallb isspace name = true ->
   Bot.new fresh_id name capabilities (default ∅ metadata) now
   = inl (ValidationError "name" "Bot name cannot be empty")
   /\ BotService.register_bot fresh_id name capabilities metadata now w
      = (inl (ValidationError "name" "Bot name cannot be empty"), w))
  /\ (forallb isspace name = false -> capabilities <> [] ->
      let bot := Bot.mk fresh_id name capabilities OFFLINE None
                   (default ∅ metadata) now now in
      Bot.new fresh_id name capabilities (default ∅ metadata) now = inr bot
      /\ BotService.register_bot fresh_id name capabilities metadata now w
         = (inr bot, InMemory.put_bot bot w)).
Proof.
  intros [Hlo Hhi].
  assert (Hc : ((1 <=? length name)%nat && (length name <=? 255)%nat) = true).
  { apply andb_true_intro; split; now apply Nat.leb_le. }
  split.
  - intros Hs.
    assert (Hn : Bot.new fresh_id name capabilities (default ∅ metadata) now
                 = inl (ValidationError "name" "Bot name cannot be empty")).
    { unfold Bot.new, Bot.field. rewrite Hc.
      now rewrite (validate_name_whitespace _ Hs). }
    split; [exact Hn|]. unfold BotService.register_bot. now rewrite Hn.
  - intros Hs Hcaps bot.
    assert (Hn : Bot.new fresh_id name capabilities (default ∅ metadata) now
                 = inr bot).
    { unfold Bot.new, Bot.field. rewrite Hc.
      rewrite (validate_name_visible _ Hs).
      destruct capabilities as [|c cs]; [congruence|]. reflexivity. }
    split; [exact Hn|]. unfold BotService.register_bot. now rewrite Hn.
Qed.

(** Two spaces are refused; a no-break space is refused; "w1" is
    accepted. *)
Lemma C10_bot_name_witness :
  Bot.new 7%N [32%N; 32%N] [Fixtures.build] ∅ 0
  = inl (ValidationError "name" "Bot name cannot be empty")
  /\ Bot.new 7%N [160%N] [Fixtures.build] ∅ 0
     = inl (ValidationError "name" "Bot name cannot be empty")
  /\ BotService.register_bot 7%N Fixtures.w1 [Fixtures.build] None 0
       (InMemory.mk ∅ ∅ [])
     = (inr Fixtures.offline_bot,
        InMemory.mk ∅ {[ 7%N := Fixtures.offline_bot ]}
          [InMemory.SavedBot Fixtures.offline_bot]).
Proof.
  split; [|split].
  - apply (C10_bot_name_validation 7%N [32%N; 32%N] [Fixtures.build]
             None 0 (InMemory.mk ∅ ∅ [])); [simpl; lia | reflexivity].
  - apply (C10_bot_name_validation 7%N [160%N] [Fixtures.build]
             None 0 (InMemory.mk ∅ ∅ [])); [simpl; lia | reflexivity].
  - apply (C10_bot_name_validation 7%N Fixtures.w1 [Fixtures.build]
             None 0 (InMemory.mk ∅ ∅ []));
      [simpl; lia | reflexivity | discriminate].
Defined.

(** ** The coordinator on the in-memory store *)

Lemma free_the_bot_in_memory
    (task : Task.t) (now : Timestamp) (w : InMemory.World) :
  free_the_bot task now w =
  match Task.bot_id task with
  | Some b =>
    match InMemory.bots w !! b with
    | Some bot =>
      if decide (Bot.status bot = BUSY) then
        (inr tt, InMemory.put_bot (Outcome.online bot now) w)
      else (inr tt, w)
    | None => (inr tt, w)
    end
  | None => (inr tt, w)
  end.
Proof.
  unfold free_the_bot. destruct (Task.bot_id task) as [b|]; [|reflexivity].
  unfold_m. simpl. destruct (InMemory.bots w !! b) as [bot|]; [|reflexivity].
  destruct bot as [? ? ? [] ? ? ? ?]; reflexivity.
Qed.

Lemma put_bot_put_task (w : InMemory.World) (task : Task.t) (bot : Bot.t)
    (now : Timestamp) :
  InMemory.put_bot (Outcome.online bot now) (InMemory.put_task task w)
  = Outcome.task_saved_bot_released w task bot now.
Proof.
  unfold InMemory.put_bot, InMemory.put_task, Outcome.task_saved_bot_released.
  simpl. now rewrite <- app_assoc.
Qed.

(** What the three terminal operations of the coordinator do once the task
    is loaded and its transition [m] went through to [task']. *)
Lemma terminal_step_in_memory
    (m : M Task.t unit) (task task' : Task.t) (now : Timestamp)
    (w : InMemory.World) :
  m task = (inr tt, task') ->
  ('(_, t) ← call m task; task_save t;; free_the_bot t now) w
  = free_the_bot task' now (InMemory.put_task task' w).
Proof. intros Hm. unfold_m. rewrite Hm. reflexivity. Qed.

Lemma raising_step_in_memory
    (m : M Task.t unit) (task task' : Task.t) (e : DomainError)
    (now : Timestamp) (w : InMemory.World) :
  m task = (inl e, task') ->
  ('(_, t) ← call m task; task_save t;; free_the_bot t now) w = (inl e, w).
Proof. intros Hm. unfold_m. rewrite Hm. reflexivity. Qed.

(** C5. [assign_task_to_bot] raises [ResourceNotFound] for an absent task
    and for an absent bot; for a pending task and an existing bot it stores
    the task as assigned, with [bot_id] and [assigned_at] set, by one save
    of the task, and leaves every bot of the store as it was: the bot is
    not made busy. *)
Theorem C5_assign_leaves_bot_unchanged
    (w : InMemory.World) (task_id bot_id : UUID) (now : Timestamp) :
  (InMemory.tasks w !! task_id = None ->
   TaskService.assign_task_to_bot task_id bot_id now w
   = (inl (ResourceNotFound "Task" task_id), w))
  /\ (forall task,
        InMemory.tasks w !! task_id = Some task ->
        InMemory.bots w !! bot_id = None ->
        TaskService.assign_task_to_bot task_id bot_id now w
        = (inl (ResourceNotFound "Bot" bot_id), w))
  /\ (forall task bot,
        InMemory.tasks w !! task_id = Some task ->
        InMemory.bots w !! bot_id = Some bot ->
        Task.status task = PENDING ->
        TaskService.assign_task_to_bot task_id bot_id now w
        = (inr tt,
           InMemory.mk
             (<[Task.id task := Outcome.assigned task bot_id now]>
                (InMemory.tasks w))
             (InMemory.bots w)
             (InMemory.saved w
              ++ [InMemory.SavedTask (Outcome.assigned task bot_id now)]))).
Proof.
  unfold TaskService.assign_task_to_bot. split; [|split].
  - intros Ht. unfold_m. simpl. now rewrite Ht.
  - intros task Ht Hb. unfold_m. simpl. now rewrite Ht, Hb.
  - intros task bot Ht Hb Hs. unfold_m. simpl. rewrite Ht, Hb.
    rewrite (assign_to_pending _ _ _ Hs). reflexivity.
Qed.

Lemma C5_assign_witness :
  TaskService.assign_task_to_bot 1%N 7%N 5 Fixtures.world_pending
  = (inr tt,
     InMemory.mk
       {[ 1%N := Task.mk 1%N 9%N (Some 7%N) ASSIGNED ∅ None 60 0 (Some 5)
                   None None 5 ]}
       {[ 7%N := Fixtures.offline_bot ]}
       [InMemory.SavedTask
          (Task.mk 1%N 9%N (Some 7%N) ASSIGNED ∅ None 60 0 (Some 5)
             None None 5)])
  /\ TaskService.assign_task_to_bot 2%N 7%N 5 Fixtures.world_pending
     = (inl (ResourceNotFound "Task" 2%N), Fixtures.world_pending)
  /\ TaskService.assign_task_to_bot 1%N 8%N 5 Fixtures.world_pending
     = (inl (ResourceNotFound "Bot" 8%N), Fixtures.world_pending).
Proof.
  split; [|split].
  - apply (proj2 (proj2 (C5_assign_leaves_bot_unchanged
             Fixtures.world_pending 1%N 7%N 5))
             (Fixtures.pending_task 1%N) Fixtures.offline_bot);
      reflexivity.
  - apply (proj1 (C5_assign_leaves_bot_unchanged
             Fixtures.world_pending 2%N 7%N 5)); reflexivity.
  - apply (proj1 (proj2 (C5_assign_leaves_bot_unchanged
             Fixtures.world_pending 1%N 8%N 5))
             (Fixtures.pending_task 1%N)); reflexivity.
Defined.

Lemma complete_task_in_memory (w : InMemory.World) (task_id : UUID)
    (task : Task.t) (res : dict) (now : Timestamp) :
  InMemory.tasks w !! task_id = Some task ->
  Task.status task = IN_PROGRESS ->
  TaskService.complete_task task_id res now w
  = free_the_bot (Outcome.completed task res now) now
      (InMemory.put_task (Outcome.completed task res now) w).
Proof.
  intros Ht Hs. unfold TaskService.complete_task.
  unfold mbind at 1. unfold M_bind, bind. simpl. rewrite Ht.
  apply terminal_step_in_memory, complete_in_progress, Hs.
Qed.

Lemma fail_task_in_memory (w : InMemory.World) (task_id : UUID)
    (task : Task.t) (error : dict) (now : Timestamp) :
  InMemory.tasks w !! task_id = Some task ->
  Task.status task = IN_PROGRESS ->
  TaskService.fail_task task_id error now w
  = free_the_bot (Outcome.failed task error now) now
      (InMemory.put_task (Outcome.failed task error now) w).
Proof.
  intros Ht Hs. unfold TaskService.fail_task.
  unfold mbind at 1. unfold M_bind, bind. simpl. rewrite Ht.
  apply terminal_step_in_memory, fail_in_progress, Hs.
Qed.

Lemma cancel_task_in_memory (w : InMemory.World) (task_id : UUID)
    (task : Task.t) (now : Timestamp) :
  InMemory.tasks w !! task_id = Some task ->
  TaskService.cancel_task task_id now w
  = free_the_bot (Outcome.cancelled task now) now
      (InMemory.put_task (Outcome.cancelled task now) w).
Proof.
  intros Ht. unfold TaskService.cancel_task.
  unfold mbind at 1. unfold M_bind, bind. simpl. rewrite Ht.
  apply terminal_step_in_memory, cancel_any.
Qed.

Lemma complete_task_raises (w : InMemory.World) (task_id : UUID)
    (task : Task.t) (res : dict) (now : Timestamp) :
  InMemory.tasks w !! task_id = Some task ->
  Task.status task <> IN_PROGRESS ->
  TaskService.complete_task task_id res now w
  = (inl (InvalidStateTransition "Task" (Task.value (Task.status task))
            "complete"), w).
Proof.
  intros Ht Hs. unfold TaskService.complete_task.
  unfold mbind at 1. unfold M_bind, bind. simpl. rewrite Ht.
  eapply raising_step_in_memory, complete_not_in_progress, Hs.
Qed.

Lemma fail_task_raises (w : InMemory.World) (task_id : UUID)
    (task : Task.t) (error : dict) (now : Timestamp) :
  InMemory.tasks w !! task_id = Some task ->
  Task.status task <> IN_PROGRESS ->
  TaskService.fail_task task_id error now w
  = (inl (InvalidStateTransition "Task" (Task.value (Task.status task))
            "fail"), w).
Proof.
  intros Ht Hs. unfold TaskService.fail_task.
  unfold mbind at 1. unfold M_bind, bind. simpl. rewrite Ht.
  eapply raising_step_in_memory, fail_not_in_progress, Hs.
Qed.

(** The release step on a store in which the task was just saved. *)
Lemma release_busy (w : InMemory.World) (task : Task.t) (B : UUID)
    (bot : Bot.t) (now : Timestamp) :
  Task.bot_id task = Some B ->
  InMemory.bots w !! B = Some bot ->
  Bot.status bot = BUSY ->
  free_the_bot task now (InMemory.put_task task w)
  = (inr tt, Outcome.task_saved_bot_released w task bot now).
Proof.
  intros Hb Hbot Hs. rewrite free_the_bot_in_memory, Hb. simpl.
  rewrite Hbot. rewrite decide_True by assumption.
  now rewrite put_bot_put_task.
Qed.

Lemma release_absent (w : InMemory.World) (task : Task.t) (B : UUID)
    (now : Timestamp) :
  Task.bot_id task = Some B ->
  InMemory.bots w !! B = None ->
  free_the_bot task now (InMemory.put_task task w)
  = (inr tt, Outcome.task_saved w task).
Proof.
  intros Hb Hbot. rewrite free_the_bot_in_memory, Hb. simpl.
  now rewrite Hbot.
Qed.

(** C3. For a stored task whose [bot_id] is B:
    - when B is busy, a successful [complete_task], [fail_task] or
      [cancel_task] saves the task and then saves B, now online, once;
    - when B is absent from the store, the task is saved and nothing else
      happens;
    - on a task that is already terminal, [complete_task] and [fail_task]
      raise [InvalidStateTransition] and the store, its log of saves
      included, is what it was; this is what a second [complete_task] or
      [fail_task] meets after a first one succeeded;
    - in the store after a release, B (stored under its own identity) is
      online. *)
Theorem C3_bot_released_once
    (w : InMemory.World) (task_id B : UUID) (task : Task.t)
    (res : dict) (now : Timestamp) :
  InMemory.tasks w !! task_id = Some task ->
  Task.bot_id task = Some B ->
  (forall bot,
     InMemory.bots w !! B = Some bot -> Bot.status bot = BUSY ->
     (Task.status task = IN_PROGRESS ->
      TaskService.complete_task task_id res now w
      = (inr tt, Outcome.task_saved_bot_released w
                   (Outcome.completed task res now) bot now)
      /\ TaskService.fail_task task_id res now w
         = (inr tt, Outcome.task_saved_bot_released w
                      (Outcome.failed task res now) bot now))
     /\ TaskService.cancel_task task_id now w
        = (inr tt, Outcome.task_saved_bot_released w
                     (Outcome.cancelled task now) bot now))
  /\ (InMemory.bots w !! B = None ->
      (Task.status task = IN_PROGRESS ->
       TaskService.complete_task task_id res now w
       = (inr tt, Outcome.task_saved w (Outcome.completed task res now))
       /\ TaskService.fail_task task_id res now w
          = (inr tt, Outcome.task_saved w (Outcome.failed task res now)))
      /\ TaskService.cancel_task task_id now w
         = (inr tt, Outcome.task_saved w (Outcome.cancelled task now)))
  /\ (Task.is_terminal task = true ->
      TaskService.complete_task task_id res now w
      = (inl (InvalidStateTransition "Task" (Task.value (Task.status task))
                "complete"), w)
      /\ TaskService.fail_task task_id res now w
         = (inl (InvalidStateTransition "Task"
                   (Task.value (Task.status task)) "fail"), w))
  /\ (forall bot res2 now2,
        Task.id task = task_id ->
        InMemory.bots w !! B = Some bot -> Bot.status bot = BUSY ->
        Task.status task = IN_PROGRESS ->
        let w' := Outcome.task_saved_bot_released w
                    (Outcome.completed task res now) bot now in
        TaskService.complete_task task_id res2 now2 w'
        = (inl (InvalidStateTransition "Task" "completed" "complete"), w')
        /\ TaskService.fail_task task_id res2 now2 w'
           = (inl (InvalidStateTransition "Task" "completed" "fail"), w'))
  /\ (forall bot task',
        Bot.id bot = B ->
        InMemory.bots (Outcome.task_saved_bot_released w task' bot now) !! B
        = Some (Outcome.online bot now)
        /\ Bot.status (Outcome.online bot now) = ONLINE).
Proof.
  intros Ht Hb. split; [|split; [|split; [|split]]].
  - intros bot Hbot Hbusy. split.
    + intros Hs. split.
      * rewrite (complete_task_in_memory _ _ _ _ _ Ht Hs).
        now apply (release_busy _ _ B).
      * rewrite (fail_task_in_memory _ _ _ _ _ Ht Hs).
        now apply (release_busy _ _ B).
    + rewrite (cancel_task_in_memory _ _ _ _ Ht).
      now apply (release_busy _ _ B).
  - intros Hbot. split.
    + intros Hs. split.
      * rewrite (complete_task_in_memory _ _ _ _ _ Ht Hs).
        now apply (release_absent _ _ B).
      * rewrite (fail_task_in_memory _ _ _ _ _ Ht Hs).
        now apply (release_absent _ _ B).
    + rewrite (cancel_task_in_memory _ _ _ _ Ht).
      now apply (release_absent _ _ B).
  - intros Hterm. apply terminal_not_in_progress in Hterm. split.
    + now apply complete_task_raises.
    + now apply fail_task_raises.
  - intros bot res2 now2 Hid Hbot Hbusy Hs w'.
    assert (Ht' : InMemory.tasks w' !! task_id
                  = Some (Outcome.completed task res now)).
    { subst w'. simpl. rewrite Hid. apply lookup_insert_eq. }
    split.
    + now rewrite (complete_task_raises _ _ _ res2 now2 Ht').
    + now rewrite (fail_task_raises _ _ _ res2 now2 Ht').
  - intros bot task' Hid. split; [|reflexivity].
    simpl. rewrite Hid. apply lookup_insert_eq.
Qed.

(** Task 1 runs on the busy bot 7 and completes at second 10; a second
    completion at second 11 raises and changes nothing. *)
Lemma C3_bot_released_witness :
  TaskService.complete_task 1%N {[ "ok" := JBool true ]}
    (10 * Fixtures.second) Fixtures.world_running
  = (inr tt,
     Outcome.task_saved_bot_released Fixtures.world_running
       (Fixtures.completed_task 1%N) Fixtures.busy_bot
       (10 * Fixtures.second))
  /\ TaskService.complete_task 1%N ∅ (11 * Fixtures.second)
       (Outcome.task_saved_bot_released Fixtures.world_running
          (Fixtures.completed_task 1%N) Fixtures.busy_bot
          (10 * Fixtures.second))
     = (inl (InvalidStateTransition "Task" "completed" "complete"),
        Outcome.task_saved_bot_released Fixtures.world_running
          (Fixtures.completed_task 1%N) Fixtures.busy_bot
          (10 * Fixtures.second)).
Proof.
  pose proof (C3_bot_released_once Fixtures.world_running 1%N 7%N
                (Fixtures.running_task 1%N) {[ "ok" := JBool true ]}
                (10 * Fixtures.second) eq_refl eq_refl) as H.
  split.
  - exact (proj1 (proj1 (proj1 H Fixtures.busy_bot eq_refl eq_refl) eq_refl)).
  - exact (proj1 (proj1 (proj2 (proj2 (proj2 H))) Fixtures.busy_bot ∅
                    (11 * Fixtures.second) eq_refl eq_refl eq_refl eq_refl)).
Defined.

(** ** The sweep of the timeout worker *)

Lemma swept_in_memory (w : InMemory.World) (task : Task.t)
    (now : Timestamp) :
  free_the_bot task now (InMemory.put_task task w)
  = (inr tt, Outcome.swept w task now).
Proof.
  rewrite free_the_bot_in_memory. unfold Outcome.swept. simpl.
  destruct (Task.bot_id task) as [b|]; [|reflexivity].
  destruct (InMemory.bots w !! b) as [bot|]; [|reflexivity].
  destruct (decide (Bot.status bot = BUSY)); [|reflexivity].
  now rewrite put_bot_put_task.
Qed.

(** One iteration of the loop of [process_timeouts] on the in-memory
    store, case by case. *)
Lemma process_candidate_in_memory
    (now : Timestamp) (count : nat) (task : Task.t) (w : InMemory.World) :
  TimeoutWorker.process_candidate now count task w =
  if Task.is_timed_out now task then
    match InMemory.tasks w !! Task.id task with
    | None => (inr count, w)
    | Some cur =>
      if Task.is_terminal cur then (inr count, w)
      else if decide (Task.status cur = IN_PROGRESS) then
        (inr (S count),
         Outcome.swept w
           (Outcome.failed cur (TimeoutWorker.error_details cur) now) now)
      else (inr count, w)
    end
  else (inr count, w).
Proof.
  unfold TimeoutWorker.process_candidate.
  destruct (Task.is_timed_out now task); [|reflexivity].
  unfold try_except, mbind, M_bind, bind at 1. simpl.
  destruct (InMemory.tasks w !! Task.id task) as [cur|]; [|reflexivity].
  destruct (Task.is_terminal cur) eqn:Hterm; [reflexivity|].
  destruct (decide (Task.status cur = IN_PROGRESS)) as [Hs|Hs].
  - unfold bind, call. rewrite (fail_in_progress _ _ _ Hs).
    fold (Outcome.failed cur (TimeoutWorker.error_details cur) now).
    unfold modify. cbv beta iota. rewrite swept_in_memory. reflexivity.
  - unfold bind, call. rewrite (fail_not_in_progress _ _ _ Hs). reflexivity.
Qed.

Lemma process_candidate_log
    (now : Timestamp) (c : nat) (task : Task.t) (w : InMemory.World) :
  exists n evs w',
    TimeoutWorker.process_candidate now c task w = (inr n, w')
    /\ InMemory.saved w' = InMemory.saved w ++ evs
    /\ n = (c + Outcome.task_saves evs)%nat
    /\ Forall Outcome.sweep_event evs.
Proof.
  assert (Hskip : exists n evs w',
             (inr c : DomainError + nat, w) = (inr n, w')
             /\ InMemory.saved w' = InMemory.saved w ++ evs
             /\ n = (c + Outcome.task_saves evs)%nat
             /\ Forall Outcome.sweep_event evs).
  { exists c, [], w. rewrite app_nil_r. simpl. rewrite Nat.add_0_r.
    repeat split. constructor. }
  rewrite process_candidate_in_memory.
  destruct (Task.is_timed_out now task); [|exact Hskip].
  destruct (InMemory.tasks w !! Task.id task) as [cur|]; [|exact Hskip].
  destruct (Task.is_terminal cur); [exact Hskip|].
  destruct (decide (Task.status cur = IN_PROGRESS)); [|exact Hskip].
  clear Hskip. unfold Outcome.swept.
  set (failed := Outcome.failed cur (TimeoutWorker.error_details cur) now).
  assert (Hf : Outcome.sweep_event (InMemory.SavedTask failed)).
  { split; reflexivity. }
  assert (Hone : exists n evs w',
             (inr (S c) : DomainError + nat, Outcome.task_saved w failed)
             = (inr n, w')
             /\ InMemory.saved w' = InMemory.saved w ++ evs
             /\ n = (c + Outcome.task_saves evs)%nat
             /\ Forall Outcome.sweep_event evs).
  { exists (S c), [InMemory.SavedTask failed], (Outcome.task_saved w failed).
    simpl. repeat split; [lia|]. constructor; [exact Hf|constructor]. }
  destruct (Task.bot_id failed) as [b|]; [|exact Hone].
  destruct (InMemory.bots w !! b) as [bot|]; [|exact Hone].
  destruct (decide (Bot.status bot = BUSY)); [|exact Hone].
  exists (S c),
    [InMemory.SavedTask failed; InMemory.SavedBot (Outcome.online bot now)],
    (Outcome.task_saved_bot_released w failed bot now).
  simpl. repeat split; [lia|].
  constructor; [exact Hf|]. constructor; [reflexivity|constructor].
Qed.

Lemma process_loop_log
    (now : Timestamp) (l : list Task.t) (c : nat) (w : InMemory.World) :
  exists n evs w',
    TimeoutWorker.process_loop now l c w = (inr n, w')
    /\ InMemory.saved w' = InMemory.saved w ++ evs
    /\ n = (c + Outcome.task_saves evs)%nat
    /\ Forall Outcome.sweep_event evs.
Proof.
  revert c w. induction l as [|task rest IH]; intros c w.
  - exists c, [], w. simpl. rewrite app_nil_r, Nat.add_0_r.
    repeat split. constructor.
  - destruct (process_candidate_log now c task w)
      as (n1 & evs1 & w1 & H1 & Hlog1 & Hn1 & Hok1).
    destruct (IH n1 w1) as (n2 & evs2 & w2 & H2 & Hlog2 & Hn2 & Hok2).
    exists n2, (evs1 ++ evs2), w2. repeat split.
    + simpl. unfold mbind, M_bind, bind. rewrite H1. exact H2.
    + rewrite Hlog2, Hlog1. now rewrite app_assoc.
    + rewrite Hn2, Hn1. clear. induction evs1 as [|[t|b] r IHr]; simpl; lia.
    + apply Forall_app; split; assumption.
Qed.

(** One iteration of the loop of [process_timeouts] on any store, as far
    as the release of the bot. *)
Section AnyStoreSweep.
Context {W : Type} `{TaskRepository W} `{BotRepository W}.

Lemma process_candidate_not_listed (now : Timestamp) (count : nat)
    (task : Task.t) (w : W) :
  Task.is_timed_out now task = false ->
  TimeoutWorker.process_candidate now count task w = (inr count, w).
Proof.
  intros Hto. unfold TimeoutWorker.process_candidate. now rewrite Hto.
Qed.

Lemma process_candidate_get_raises (now : Timestamp) (count : nat)
    (task : Task.t) (w w1 : W) (e : DomainError) :
  Task.is_timed_out now task = true ->
  task_get (Task.id task) w = (inl e, w1) ->
  TimeoutWorker.process_candidate now count task w = (inr count, w1).
Proof.
  intros Hto Hget. unfold TimeoutWorker.process_candidate. rewrite Hto.
  unfold try_except, mbind, M_bind, bind. now rewrite Hget.
Qed.

Lemma process_candidate_absent (now : Timestamp) (count : nat)
    (task : Task.t) (w w1 : W) :
  Task.is_timed_out now task = true ->
  task_get (Task.id task) w = (inr None, w1) ->
  TimeoutWorker.process_candidate now count task w = (inr count, w1).
Proof.
  intros Hto Hget. unfold TimeoutWorker.process_candidate. rewrite Hto.
  unfold try_except, mbind, M_bind, bind. now rewrite Hget.
Qed.

Lemma process_candidate_not_in_progress (now : Timestamp) (count : nat)
    (task cur : Task.t) (w w1 : W) :
  Task.is_timed_out now task = true ->
  task_get (Task.id task) w = (inr (Some cur), w1) ->
  Task.status cur <> IN_PROGRESS ->
  TimeoutWorker.process_candidate now count task w = (inr count, w1).
Proof.
  intros Hto Hget Hs. unfold TimeoutWorker.process_candidate. rewrite Hto.
  unfold try_except, mbind, M_bind, bind. rewrite Hget.
  destruct (Task.is_terminal cur); [reflexivity|].
  unfold call. now rewrite (fail_not_in_progress _ _ _ Hs).
Qed.

Lemma process_candidate_save_raises (now : Timestamp) (count : nat)
    (task cur : Task.t) (w w1 w2 : W) (e : DomainError) :
  Task.is_timed_out now task = true ->
  task_get (Task.id task) w = (inr (Some cur), w1) ->
  Task.status cur = IN_PROGRESS ->
  task_save (Outcome.failed cur (TimeoutWorker.error_details cur) now) w1
  = (inl e, w2) ->
  TimeoutWorker.process_candidate now count task w = (inr count, w2).
Proof.
  intros Hto Hget Hs Hsave. unfold TimeoutWorker.process_candidate.
  rewrite Hto. unfold try_except, mbind, M_bind, bind. rewrite Hget.
  unfold Task.is_terminal. rewrite Hs. unfold call.
  rewrite (fail_in_progress _ _ _ Hs).
  fold (Outcome.failed cur (TimeoutWorker.error_details cur) now).
  now rewrite Hsave.
Qed.

Lemma process_candidate_counted (now : Timestamp) (count : nat)
    (task cur : Task.t) (w w1 w2 w3 : W) :
  Task.is_timed_out now task = true ->
  task_get (Task.id task) w = (inr (Some cur), w1) ->
  Task.status cur = IN_PROGRESS ->
  task_save (Outcome.failed cur (TimeoutWorker.error_details cur) now) w1
  = (inr tt, w2) ->
  free_the_bot (Outcome.failed cur (TimeoutWorker.error_details cur) now)
    now w2 = (inr tt, w3) ->
  TimeoutWorker.process_candidate now count task w = (inr (S count), w3).
Proof.
  intros Hto Hget Hs Hsave Hfree. unfold TimeoutWorker.process_candidate.
  rewrite Hto. unfold try_except, mbind, M_bind, bind. rewrite Hget.
  unfold Task.is_terminal. rewrite Hs. unfold call.
  rewrite (fail_in_progress _ _ _ Hs).
  fold (Outcome.failed cur (TimeoutWorker.error_details cur) now).
  now rewrite Hsave, Hfree.
Qed.
End AnyStoreSweep.

(** The same iteration on any store whose bot store answers every call,
    with the saves it made. *)
Section LoggedSweep.
Context {B : Type} `{TaskRepository B} `{BotRepository B}.
Implicit Types (w : Logged.World B).

Lemma free_the_bot_logged (task : Task.t) (now : Timestamp) w :
  Logged.bot_store_returns B ->
  exists evs b',
    free_the_bot task now w
    = (inr tt, Logged.mk b' (Logged.saved w ++ evs))
    /\ Outcome.task_saves evs = 0%nat
    /\ Forall Outcome.sweep_event evs.
Proof.
  intros [Hget Hsave]. unfold free_the_bot.
  destruct (Task.bot_id task) as [b|].
  - unfold mbind, M_bind, bind. cbn [bot_get Logged.bot_repo]. unfold Logged.lift.
    destruct (Hget b (Logged.inner w)) as (o & b1 & ->).
    destruct o as [bot|].
    + destruct (bool_decide (Bot.status bot = BUSY)).
      * unfold call.
        assert (Hon : Bot.go_online now bot
                      = (inr tt, Outcome.online bot now))
          by (destruct bot; reflexivity).
        rewrite Hon. cbn [bot_save Logged.bot_repo]. unfold Logged.logging.
        cbn [Logged.inner Logged.saved].
        destruct (Hsave (Outcome.online bot now) b1) as (b2 & ->).
        exists [InMemory.SavedBot (Outcome.online bot now)], b2.
        repeat split. constructor; [reflexivity|constructor].
      * exists [], b1. rewrite app_nil_r. repeat split. constructor.
    + exists [], b1. rewrite app_nil_r. repeat split. constructor.
  - exists [], (Logged.inner w). rewrite app_nil_r.
    destruct w; repeat split. constructor.
Qed.

Lemma process_candidate_logged (now : Timestamp) (c : nat) (task : Task.t)
    w :
  Logged.bot_store_returns B ->
  exists n evs b',
    TimeoutWorker.process_candidate now c task w
    = (inr n, Logged.mk b' (Logged.saved w ++ evs))
    /\ n = (c + Outcome.task_saves evs)%nat
    /\ Forall Outcome.sweep_event evs.
Proof.
  intros Hbot.
  assert (Hskip : forall b' : B,
            exists n evs b'',
              (inr c : DomainError + nat, Logged.mk b' (Logged.saved w))
              = (inr n, Logged.mk b'' (Logged.saved w ++ evs))
              /\ n = (c + Outcome.task_saves evs)%nat
              /\ Forall Outcome.sweep_event evs).
  { intros b'. exists c, [], b'. rewrite app_nil_r. simpl.
    rewrite Nat.add_0_r. repeat split. constructor. }
  unfold TimeoutWorker.process_candidate.
  destruct (Task.is_timed_out now task).
  2:{ destruct (Hskip (Logged.inner w)) as (n & evs & b'' & E & Hn & Hok).
      exists n, evs, b''. rewrite <- E. destruct w. repeat split; auto. }
  unfold try_except, mbind at 1. unfold M_bind, bind.
  cbn [task_get Logged.task_repo]. unfold Logged.lift.
  destruct (task_get (Task.id task) (Logged.inner w)) as [[e|[cur|]] b1];
    [apply Hskip| |apply Hskip].
  destruct (Task.is_terminal cur); [apply Hskip|].
  unfold mbind at 1. unfold M_bind, bind, call.
  destruct (decide (Task.status cur = IN_PROGRESS)) as [Hs|Hs].
  2:{ rewrite (fail_not_in_progress _ _ _ Hs). apply Hskip. }
  rewrite (fail_in_progress _ _ _ Hs).
  fold (Outcome.failed cur (TimeoutWorker.error_details cur) now).
  set (failed := Outcome.failed cur (TimeoutWorker.error_details cur) now).
  unfold mbind at 1. unfold M_bind, bind.
  cbn [task_save Logged.task_repo]. unfold Logged.logging.
  cbn [Logged.inner Logged.saved].
  destruct (task_save failed b1) as [[e|[]] b2]; [apply Hskip|].
  unfold mbind at 1. unfold M_bind, bind.
  destruct (free_the_bot_logged failed now
              (Logged.mk b2 (Logged.saved w ++ [InMemory.SavedTask failed]))
              Hbot) as (evs & b3 & Hfree & Hzero & Hok).
  rewrite Hfree. cbn [Logged.saved].
  exists (S c), (InMemory.SavedTask failed :: evs), b3.
  split; [|split].
  - unfold mret, M_ret, ret. now rewrite <- app_assoc.
  - simpl. rewrite Hzero. lia.
  - constructor; [split; reflexivity|exact Hok].
Qed.

Lemma process_loop_logged (now : Timestamp) (l : list Task.t) (c : nat) w :
  Logged.bot_store_returns B ->
  exists n evs b',
    TimeoutWorker.process_loop now l c w
    = (inr n, Logged.mk b' (Logged.saved w ++ evs))
    /\ n = (c + Outcome.task_saves evs)%nat
    /\ Forall Outcome.sweep_event evs.
Proof.
  intros Hbot. revert c w. induction l as [|task rest IH]; intros c w.
  - exists c, [], (Logged.inner w). simpl. rewrite app_nil_r, Nat.add_0_r.
    destruct w. repeat split. constructor.
  - destruct (process_candidate_logged now c task w Hbot)
      as (n1 & evs1 & b1 & H1 & Hn1 & Hok1).
    destruct (IH n1 (Logged.mk b1 (Logged.saved w ++ evs1)))
      as (n2 & evs2 & b2 & H2 & Hn2 & Hok2).
    exists n2, (evs1 ++ evs2), b2. split; [|split].
    + simpl. unfold mbind, M_bind, bind. rewrite H1, H2.
      cbn [Logged.saved]. now rewrite app_assoc.
    + rewrite Hn2, Hn1. clear.
      induction evs1 as [|[t|b] r IHr]; simpl; lia.
    + apply Forall_app; split; assumption.
Qed.

Lemma process_timeouts_logged (now : Timestamp) w :
  Logged.bot_store_returns B ->
  (exists e w', TimeoutWorker.process_timeouts now w = (inl e, w')
                /\ Logged.saved w' = Logged.saved w)
  \/ (exists n evs w',
        TimeoutWorker.process_timeouts now w = (inr n, w')
        /\ Logged.saved w' = Logged.saved w ++ evs
        /\ n = Outcome.task_saves evs
        /\ Forall Outcome.sweep_event evs).
Proof.
  intros Hbot. unfold TimeoutWorker.process_timeouts, mbind, M_bind, bind.
  cbn [task_get_all Logged.task_repo]. unfold Logged.lift.
  destruct (task_get_all (Logged.inner w)) as [[e|l] b1].
  - left. exists e, (Logged.mk b1 (Logged.saved w)). split; reflexivity.
  - right.
    destruct (process_loop_logged now l 0 (Logged.mk b1 (Logged.saved w))
                Hbot) as (n & evs & b' & Hrun & Hn & Hok).
    exists n, evs, (Logged.mk b' (Logged.saved w ++ evs)).
    split; [exact Hrun|]. repeat split; assumption.
Qed.
End LoggedSweep.

(** C2, as the code has it. A candidate whose listed snapshot does not
    satisfy [is_timed_out()] is passed over without a re-fetch. For the
    others the sweeper re-fetches the current state by identity and skips
    the candidate when that state is absent, when it is terminal, and when
    it is pending or assigned (the [InvalidStateTransition] of [fail] is
    swallowed); when the re-fetched state is in progress it is failed with a
    result holding reason "timeout", the message
    "Task exceeded timeout of <timeout_seconds> seconds" and
    timeout_seconds, saved, and its busy bot released.  On any store, a
    candidate is counted when its task was failed and saved and the
    release of its bot returned, and it is neither saved nor counted when
    the re-fetch or the save raises.  On any store whose bot store answers
    every call (the in-memory store is one), the pass either raises with
    [get_all], before anything is saved, or returns the number of tasks it
    failed and saved. *)
Theorem C2_sweep_pass (now : Timestamp) (w : InMemory.World) :
  (forall count task,
     Task.is_timed_out now task = false ->
     TimeoutWorker.process_candidate now count task w = (inr count, w))
  /\ (forall count task,
        Task.is_timed_out now task = true ->
        InMemory.tasks w !! Task.id task = None ->
        TimeoutWorker.process_candidate now count task w = (inr count, w))
  /\ (forall count task cur,
        Task.is_timed_out now task = true ->
        InMemory.tasks w !! Task.id task = Some cur ->
        Task.is_terminal cur = true ->
        TimeoutWorker.process_candidate now count task w = (inr count, w))
  /\ (forall count task cur,
        Task.is_timed_out now task = true ->
        InMemory.tasks w !! Task.id task = Some cur ->
        Task.status cur = PENDING \/ Task.status cur = ASSIGNED ->
        TimeoutWorker.process_candidate now count task w = (inr count, w))
  /\ (forall count task cur,
        Task.is_timed_out now task = true ->
        InMemory.tasks w !! Task.id task = Some cur ->
        Task.status cur = IN_PROGRESS ->
        let error := TimeoutWorker.error_details cur in
        TimeoutWorker.process_candidate now count task w
        = (inr (S count),
           Outcome.swept w (Outcome.failed cur error now) now)
        /\ error !! "reason" = Some (JStr "timeout")
        /\ error !! "message"
           = Some (JStr ("Task exceeded timeout of "
                         +:+ str_of_int (Task.timeout_seconds cur)
                         +:+ " seconds"))
        /\ error !! "timeout_seconds"
           = Some (JInt (Task.timeout_seconds cur)))
  /\ (exists n evs w',
        TimeoutWorker.process_timeouts now w = (inr n, w')
        /\ InMemory.saved w' = InMemory.saved w ++ evs
        /\ n = Outcome.task_saves evs
        /\ Forall Outcome.sweep_event evs)
  /\ (forall (W : Type) (TR : TaskRepository W) (BR : BotRepository W)
             (w0 : W) (count : nat) (task : Task.t),
        (Task.is_timed_out now task = false ->
         TimeoutWorker.process_candidate now count task w0
         = (inr count, w0))
        /\ (Task.is_timed_out now task = true ->
            (forall e w1,
               task_get (Task.id task) w0 = (inl e, w1) ->
               TimeoutWorker.process_candidate now count task w0
               = (inr count, w1))
            /\ (forall w1,
                  task_get (Task.id task) w0 = (inr None, w1) ->
                  TimeoutWorker.process_candidate now count task w0
                  = (inr count, w1))
            /\ (forall cur w1,
                  task_get (Task.id task) w0 = (inr (Some cur), w1) ->
                  Task.status cur <> IN_PROGRESS ->
                  TimeoutWorker.process_candidate now count task w0
                  = (inr count, w1))
            /\ (forall cur w1 e w2,
                  task_get (Task.id task) w0 = (inr (Some cur), w1) ->
                  Task.status cur = IN_PROGRESS ->
                  task_save
                    (Outcome.failed cur (TimeoutWorker.error_details cur)
                       now) w1 = (inl e, w2) ->
                  TimeoutWorker.process_candidate now count task w0
                  = (inr count, w2))
            /\ (forall cur w1 w2 w3,
                  task_get (Task.id task) w0 = (inr (Some cur), w1) ->
                  Task.status cur = IN_PROGRESS ->
                  task_save
                    (Outcome.failed cur (TimeoutWorker.error_details cur)
                       now) w1 = (inr tt, w2) ->
                  free_the_bot
                    (Outcome.failed cur (TimeoutWorker.error_details cur)
                       now) now w2 = (inr tt, w3) ->
                  TimeoutWorker.process_candidate now count task w0
                  = (inr (S count), w3))))
  /\ (forall (B : Type) (TR : TaskRepository B) (BR : BotRepository B)
             (w0 : Logged.World B),
        Logged.bot_store_returns B ->
        (exists e w',
           TimeoutWorker.process_timeouts now w0 = (inl e, w')
           /\ Logged.saved w' = Logged.saved w0)
        \/ (exists n evs w',
              TimeoutWorker.process_timeouts now w0 = (inr n, w')
              /\ Logged.saved w' = Logged.saved w0 ++ evs
              /\ n = Outcome.task_saves evs
              /\ Forall Outcome.sweep_event evs)).
Proof.
  split; [|split; [|split; [|split; [|split; [|split; [|split]]]]]].
  - intros count task Hto. now rewrite process_candidate_in_memory, Hto.
  - intros count task Hto Hnone.
    now rewrite process_candidate_in_memory, Hto, Hnone.
  - intros count task cur Hto Hcur Hterm.
    now rewrite process_candidate_in_memory, Hto, Hcur, Hterm.
  - intros count task cur Hto Hcur Hs.
    rewrite process_candidate_in_memory, Hto, Hcur.
    unfold Task.is_terminal. destruct Hs as [-> | ->]; reflexivity.
  - intros count task cur Hto Hcur Hs error.
    split; [|split; [|split]].
    + rewrite process_candidate_in_memory, Hto, Hcur.
      unfold Task.is_terminal. rewrite Hs. reflexivity.
    + reflexivity.
    + unfold error, TimeoutWorker.error_details.
      rewrite lookup_insert_ne by discriminate. apply lookup_insert_eq.
    + unfold error, TimeoutWorker.error_details.
      rewrite !lookup_insert_ne by discriminate. apply lookup_singleton_eq.
  - destruct (process_loop_log now (take 100 (InMemory.all_tasks w)) 0 w)
      as (n & evs & w' & Hrun & Hlog & Hn & Hok).
    exists n, evs, w'. repeat split; assumption.
  - intros W TR BR w0 count task. split.
    + apply process_candidate_not_listed.
    + intros Hto. split; [|split; [|split; [|split]]].
      * intros e w1. now apply process_candidate_get_raises.
      * intros w1. now apply process_candidate_absent.
      * intros cur w1. now apply process_candidate_not_in_progress.
      * intros cur w1 e w2. now apply process_candidate_save_raises.
      * intros cur w1 w2 w3. now apply process_candidate_counted.
  - intros B TR BR w0 Hbot. now apply process_timeouts_logged.
Qed.

(** Task 1 (timeout 60 s, started at the epoch, running on the busy bot 7)
    is swept at second 120; a stale candidate for a task that completed in
    the meantime is skipped; and on the store that cannot save task 3 the
    pass returns 2, the number of tasks it failed and saved. *)
Lemma C2_sweep_witness :
  TimeoutWorker.process_candidate (120 * Fixtures.second) 0
    (Fixtures.running_task 1%N) Fixtures.world_running
  = (inr 1%nat,
     Outcome.swept Fixtures.world_running
       (Outcome.failed (Fixtures.running_task 1%N)
          (TimeoutWorker.error_details (Fixtures.running_task 1%N))
          (120 * Fixtures.second))
       (120 * Fixtures.second))
  /\ TimeoutWorker.process_candidate (120 * Fixtures.second) 0
       (Fixtures.running_task 1%N)
       (InMemory.mk {[ 1%N := Fixtures.completed_task 1%N ]} ∅ [])
     = (inr 0%nat, InMemory.mk {[ 1%N := Fixtures.completed_task 1%N ]} ∅ [])
  /\ (exists evs w',
        TimeoutWorker.process_timeouts (120 * Fixtures.second)
          (Logged.mk Fixtures.world_faulty [])
        = (inr 2%nat, w')
        /\ Logged.saved w' = evs
        /\ Outcome.task_saves evs = 2%nat
        /\ Forall Outcome.sweep_event evs).
Proof.
  split; [|split].
  - exact (proj1 (proj1 (proj2 (proj2 (proj2 (proj2
      (C2_sweep_pass (120 * Fixtures.second) Fixtures.world_running)))))
      0%nat (Fixtures.running_task 1%N) (Fixtures.running_task 1%N)
      eq_refl eq_refl eq_refl)).
  - exact (proj1 (proj2 (proj2
      (C2_sweep_pass (120 * Fixtures.second)
         (InMemory.mk {[ 1%N := Fixtures.completed_task 1%N ]} ∅ []))))
      0%nat (Fixtures.running_task 1%N) (Fixtures.completed_task 1%N)
      eq_refl eq_refl eq_refl).
  - assert (Hbot : Logged.bot_store_returns Faulty.World).
    { split; [intros; eexists _, _; reflexivity
             |intros; eexists; reflexivity]. }
    destruct (proj2 (proj2 (proj2 (proj2 (proj2 (proj2 (proj2
        (C2_sweep_pass (120 * Fixtures.second) Fixtures.world_running)))))))
        Faulty.World Faulty.task_repo Faulty.bot_repo
        (Logged.mk Fixtures.world_faulty []) Hbot)
      as [(e & w' & He & _) | (n & evs & w' & Hrun & Hlog & Hn & Hok)].
    + exfalso. vm_compute in He. discriminate He.
    + assert (Hn2 : n = 2%nat).
      { vm_compute in Hrun. now injection Hrun as <- _. }
      subst n. exists evs, w'. simpl in Hlog. subst evs.
      split; [now rewrite <- Hn2|]. repeat split; auto.
Defined.

(** The scenario of the specification: the sweep at second 120 fails task 1
    and releases bot 7; a second sweep finds nothing to do. *)
Example sweep_then_sweep_again :
  exists w',
    TimeoutWorker.process_timeouts (120 * Fixtures.second)
      Fixtures.world_running = (inr 1%nat, w')
    /\ Task.status <$> (InMemory.tasks w' !! 1%N) = Some FAILED
    /\ Bot.status <$> (InMemory.bots w' !! 7%N) = Some ONLINE
    /\ TimeoutWorker.process_timeouts (150 * Fixtures.second) w'
       = (inr 0%nat, w').
Proof.
  eexists. split; [vm_compute; reflexivity|].
  repeat split; vm_compute; reflexivity.
Qed.

(** C2, as the specification states it, fails on the message: the sweep of
    task 1 (timeout 60 s) at second 120 stores the message
    "Task exceeded timeout of 60 seconds", not "60s exceeded". *)
Lemma C2_message_counterexample :
  exists w' t' d,
    TimeoutWorker.process_timeouts (120 * Fixtures.second)
      Fixtures.world_running = (inr 1%nat, w')
    /\ InMemory.tasks w' !! 1%N = Some t'
    /\ Task.status t' = FAILED
    /\ Task.result t' = Some d
    /\ d !! "message" = Some (JStr "Task exceeded timeout of 60 seconds")
    /\ ~ spec_timeout_result (Task.timeout_seconds t') d.
Proof.
  eexists _, _, _.
  split; [vm_compute; reflexivity|].
  split; [vm_compute; reflexivity|].
  split; [reflexivity|].
  split; [reflexivity|].
  split; [vm_compute; reflexivity|].
  intros (_ & Hm & _). vm_compute in Hm. discriminate Hm.
Qed.

(** ** The sweep of the task service *)

Lemma handle_candidate_in_memory
    (now : Timestamp) (c : nat) (task : Task.t) (w : InMemory.World) :
  Task.is_timed_out now task = true ->
  TaskService.handle_candidate now c task w
  = (inr (S c),
     Outcome.swept w
       (Outcome.failed task (TaskService.timeout_error task) now) now).
Proof.
  intros Hto. unfold TaskService.handle_candidate. rewrite Hto.
  unfold mbind, M_bind, bind, call.
  rewrite (fail_in_progress _ _ _ (is_timed_out_in_progress _ _ Hto)).
  fold (Outcome.failed task (TaskService.timeout_error task) now).
  simpl. unfold modify. rewrite swept_in_memory. reflexivity.
Qed.

(** On the in-memory store the pass never raises: [fail] is reached only
    after [is_timed_out()] found the same object in progress. *)
Lemma handle_loop_in_memory_returns
    (now : Timestamp) (l : list Task.t) (c : nat) (w : InMemory.World) :
  exists n w', TaskService.handle_loop now l c w = (inr n, w').
Proof.
  revert c w. induction l as [|task rest IH]; intros c w; simpl.
  - now exists c, w.
  - unfold mbind, M_bind, bind.
    destruct (Task.is_timed_out now task) eqn:Hto.
    + rewrite (handle_candidate_in_memory _ _ _ _ Hto). apply IH.
    + unfold TaskService.handle_candidate. rewrite Hto. apply IH.
Qed.

Section AnyStore.
Context {W : Type} `{TaskRepository W} `{BotRepository W}.

(** An exception in one iteration ends the loop. *)
Lemma handle_loop_aborts (now : Timestamp) (l1 l2 : list Task.t)
    (task : Task.t) (c c1 : nat) (w w1 w2 : W) (e : DomainError) :
  TaskService.handle_loop now l1 c w = (inr c1, w1) ->
  TaskService.handle_candidate now c1 task w1 = (inl e, w2) ->
  TaskService.handle_loop now (l1 ++ task :: l2) c w = (inl e, w2).
Proof.
  revert c w. induction l1 as [|t l1 IH]; intros c w; simpl.
  - intros [= -> ->] Hc. unfold mbind, M_bind, bind. now rewrite Hc.
  - unfold mbind, M_bind, bind.
    destruct (TaskService.handle_candidate now c t w) as [[e'|n] w'].
    + discriminate.
    + apply IH.
Qed.
End AnyStore.

(** C9. [handle_timed_out_tasks] decides on the candidate as listed: a
    candidate for which [is_timed_out()] holds is failed and saved whatever
    the store holds for its identity, which is not read. Nothing catches an
    exception inside the loop: when the processing of one candidate raises,
    the pass raises the same exception, and the store is the one of that
    moment, the candidates after it not being looked at. The error recorded
    has the keys "error" and "timeout_seconds" and no "reason". *)
Theorem C9_handle_timed_out_tasks (now : Timestamp) :
  (forall (w : InMemory.World) (c : nat) (task : Task.t),
     Task.is_timed_out now task = true ->
     TaskService.handle_candidate now c task w
     = (inr (S c),
        Outcome.swept w
          (Outcome.failed task (TaskService.timeout_error task) now) now))
  /\ (forall (W : Type) (TR : TaskRepository W) (BR : BotRepository W)
             (w w0 w1 w2 : W) (l1 l2 : list Task.t) (task : Task.t)
             (c1 : nat) (e : DomainError),
        task_get_timeout_candidates now w = (inr (l1 ++ task :: l2), w0) ->
        TaskService.handle_loop now l1 0 w0 = (inr c1, w1) ->
        TaskService.handle_candidate now c1 task w1 = (inl e, w2) ->
        TaskService.handle_timed_out_tasks now w = (inl e, w2))
  /\ (forall task : Task.t,
        TaskService.timeout_error task !! "reason" = None
        /\ dom (TaskService.timeout_error task)
           = ({[ "error"; "timeout_seconds" ]} : gset string)).
Proof.
  split; [|split].
  - intros w c task Hto. now apply handle_candidate_in_memory.
  - intros W TR BR w w0 w1 w2 l1 l2 task c1 e Hcands Hl1 Hc.
    unfold TaskService.handle_timed_out_tasks, mbind, M_bind, bind.
    rewrite Hcands. now apply (handle_loop_aborts now l1 l2 task 0 c1 w0 w1).
  - intros task. split; [reflexivity|].
    unfold TaskService.timeout_error.
    rewrite dom_insert_L, dom_singleton_L. reflexivity.
Qed.

(** Tasks 2, 3 and 1 are listed, all overdue at second 120, and the store
    cannot save task 3: the pass of the task service fails task 2 and ends
    at task 3; task 1 is not failed.  And a candidate whose stored state is
    already completed is failed and saved over it. *)
Lemma C9_handle_timed_out_witness :
  (exists w2,
     TaskService.handle_timed_out_tasks (120 * Fixtures.second)
       Fixtures.world_faulty
     = (inl (RepositoryError "save failed"), w2)
     /\ Task.status <$> (InMemory.tasks (Faulty.inner w2) !! 2%N)
        = Some FAILED
     /\ Task.status <$> (InMemory.tasks (Faulty.inner w2) !! 3%N)
        = Some IN_PROGRESS
     /\ Task.status <$> (InMemory.tasks (Faulty.inner w2) !! 1%N)
        = Some IN_PROGRESS)
  /\ TaskService.handle_candidate (120 * Fixtures.second) 0
       (Fixtures.running_task 1%N)
       (InMemory.mk {[ 1%N := Fixtures.completed_task 1%N ]} ∅ [])
     = (inr 1%nat,
        Outcome.swept
          (InMemory.mk {[ 1%N := Fixtures.completed_task 1%N ]} ∅ [])
          (Outcome.failed (Fixtures.running_task 1%N)
             (TaskService.timeout_error (Fixtures.running_task 1%N))
             (120 * Fixtures.second))
          (120 * Fixtures.second)).
Proof.
  split.
  - eexists. split.
    + eapply (proj1 (proj2
                (C9_handle_timed_out_tasks (120 * Fixtures.second)))
                Faulty.World Faulty.task_repo Faulty.bot_repo
                Fixtures.world_faulty Fixtures.world_faulty _ _
                [Fixtures.running_task 2%N] [Fixtures.running_task 1%N]
                (Fixtures.running_task 3%N) 1%nat
                (RepositoryError "save failed"));
        vm_compute; reflexivity.
    + repeat split; vm_compute; reflexivity.
  - apply (proj1 (C9_handle_timed_out_tasks (120 * Fixtures.second))).
    reflexivity.
Defined.

(** The worker, on the same faulty store, fails tasks 2 and 1 and passes
    over task 3. *)
Example process_timeouts_isolates_errors :
  exists w',
    TimeoutWorker.process_timeouts (120 * Fixtures.second)
      Fixtures.world_faulty = (inr 2%nat, w')
    /\ Task.status <$> (InMemory.tasks (Faulty.inner w') !! 2%N)
       = Some FAILED
    /\ Task.status <$> (InMemory.tasks (Faulty.inner w') !! 3%N)
       = Some IN_PROGRESS
    /\ Task.status <$> (InMemory.tasks (Faulty.inner w') !! 1%N)
       = Some FAILED.
Proof.
  eexists. split; [vm_compute; reflexivity|].
  repeat split; vm_compute; reflexivity.
Qed.

(** * Further properties of the aggregates and services *)

(** ** Creation and lookup of tasks *)

(** X1. [create_task] with a timeout of 1 to 3600 seconds saves and
    returns a pending task without bot, result or progress timestamps, and
    [get_task] then returns that task; with any other timeout it raises
    pydantic's error for "timeout_seconds" and saves nothing.  [get_task]
    of an identity that is not stored raises [ResourceNotFound]. *)
Theorem create_task_then_get_task
    (w : InMemory.World) (fresh_id workflow_id : UUID) (payload : dict)
    (timeout_seconds : Z) (now : Timestamp) :
  (1 <= timeout_seconds <= 3600 ->
   let task := Expected.new_task fresh_id workflow_id payload
                 timeout_seconds now in
   TaskService.create_task fresh_id workflow_id payload timeout_seconds
     now w
   = (inr task, InMemory.put_task task w)
   /\ TaskService.get_task fresh_id (InMemory.put_task task w)
      = (inr task, InMemory.put_task task w))
  /\ (~ 1 <= timeout_seconds <= 3600 ->
      TaskService.create_task fresh_id workflow_id payload timeout_seconds
        now w
      = (inl (PydanticValidationError ["timeout_seconds"]), w))
  /\ (InMemory.tasks w !! fresh_id = None ->
      TaskService.get_task fresh_id w
      = (inl (ResourceNotFound "Task" fresh_id), w)).
Proof.
  split; [|split].
  - intros [Hlo Hhi] task.
    assert (Hn : Task.new fresh_id workflow_id payload timeout_seconds now
                 = inr task).
    { unfold Task.new.
      destruct (Z.leb_spec 1 timeout_seconds); [|lia].
      destruct (Z.leb_spec timeout_seconds 3600); [|lia]. reflexivity. }
    split.
    + unfold TaskService.create_task. rewrite Hn. reflexivity.
    + unfold TaskService.get_task. unfold_m. simpl.
      now rewrite lookup_insert_eq.
  - intros Hout. unfold TaskService.create_task, Task.new.
    destruct (Z.leb_spec 1 timeout_seconds);
      destruct (Z.leb_spec timeout_seconds 3600); simpl;
      try reflexivity. lia.
  - intros Hnone. unfold TaskService.get_task. unfold_m. simpl.
    now rewrite Hnone.
Qed.

Lemma create_task_then_get_task_witness :
  TaskService.get_task 1%N
    (InMemory.put_task (Fixtures.pending_task 1%N) (InMemory.mk ∅ ∅ []))
  = (inr (Fixtures.pending_task 1%N),
     InMemory.put_task (Fixtures.pending_task 1%N) (InMemory.mk ∅ ∅ []))
  /\ TaskService.create_task 1%N 9%N ∅ 3601 0 (InMemory.mk ∅ ∅ [])
     = (inl (PydanticValidationError ["timeout_seconds"]),
        InMemory.mk ∅ ∅ [])
  /\ TaskService.get_task 1%N (InMemory.mk ∅ ∅ [])
     = (inl (ResourceNotFound "Task" 1%N), InMemory.mk ∅ ∅ []).
Proof.
  pose proof (create_task_then_get_task (InMemory.mk ∅ ∅ []) 1%N 9%N ∅ 60 0)
    as H60.
  pose proof (create_task_then_get_task (InMemory.mk ∅ ∅ []) 1%N 9%N ∅
                3601 0) as H3601.
  split; [|split].
  - apply (proj1 H60). lia.
  - apply (proj1 (proj2 H3601)). lia.
  - apply (proj2 (proj2 H60)). reflexivity.
Defined.

(** ** The life of a task *)

Lemma step_consistent (t : Task.t) (o : TaskLifecycle.op) :
  TaskLifecycle.consistent t ->
  TaskLifecycle.consistent (TaskLifecycle.step t o).
Proof.
  destruct t as [? ? b st ? r ? ? a s c ?].
  unfold TaskLifecycle.consistent, TaskLifecycle.step.
  destruct o, st; simpl; intros H; intuition (subst; eauto);
    match goal with
    | Hn : is_Some None |- _ => destruct Hn as [? Hn]; discriminate Hn
    end.
Qed.

Lemma step_frame (t : Task.t) (o : TaskLifecycle.op) :
  Task.id (TaskLifecycle.step t o) = Task.id t
  /\ Task.workflow_id (TaskLifecycle.step t o) = Task.workflow_id t
  /\ Task.payload (TaskLifecycle.step t o) = Task.payload t
  /\ Task.timeout_seconds (TaskLifecycle.step t o) = Task.timeout_seconds t
  /\ Task.created_at (TaskLifecycle.step t o) = Task.created_at t.
Proof.
  destruct t as [? ? ? st ? ? ? ? ? ? ? ?].
  destruct o, st; repeat split.
Qed.

(** X2. Whatever calls are made on a task built by the constructor, in
    whatever order, and whether they return or raise: a pending task has no
    bot and no result; an assigned or in-progress task has a bot and no
    result; a completed or failed task has a bot, a result, a start time
    and a completion time; a cancelled task has a completion time; and the
    identity, the workflow, the payload, the timeout and the creation time
    are the ones of the constructor. *)
Theorem task_life_consistent
    (fresh_id workflow_id : UUID) (payload : dict) (timeout_seconds : Z)
    (now : Timestamp) (t0 : Task.t) (ops : list TaskLifecycle.op) :
  Task.new fresh_id workflow_id payload timeout_seconds now = inr t0 ->
  TaskLifecycle.consistent (TaskLifecycle.run ops t0)
  /\ Task.id (TaskLifecycle.run ops t0) = fresh_id
  /\ Task.workflow_id (TaskLifecycle.run ops t0) = workflow_id
  /\ Task.payload (TaskLifecycle.run ops t0) = payload
  /\ Task.timeout_seconds (TaskLifecycle.run ops t0) = timeout_seconds
  /\ 1 <= timeout_seconds <= 3600
  /\ Task.created_at (TaskLifecycle.run ops t0) = now.
Proof.
  intros Hnew. unfold Task.new in Hnew.
  destruct (Z.leb_spec 1 timeout_seconds) as [Hlo|]; [|discriminate].
  destruct (Z.leb_spec timeout_seconds 3600) as [Hhi|]; [|discriminate].
  simpl in Hnew. injection Hnew as <-.
  set (t0 := Task.mk _ _ _ _ _ _ _ _ _ _ _ _).
  assert (Hinit : TaskLifecycle.consistent t0
               /\ Task.id t0 = fresh_id /\ Task.workflow_id t0 = workflow_id
               /\ Task.payload t0 = payload
               /\ Task.timeout_seconds t0 = timeout_seconds
               /\ Task.created_at t0 = now).
  { unfold TaskLifecycle.consistent. simpl. repeat split. }
  clearbody t0. revert t0 Hinit. unfold TaskLifecycle.run.
  induction ops as [|o ops IH]; intros t0 (Hc & Hi & Hw & Hp & Ht & Hcr);
    simpl.
  - repeat split; try assumption; lia.
  - apply IH. destruct (step_frame t0 o) as (-> & -> & -> & -> & ->).
    repeat split; try assumption. now apply step_consistent.
Qed.

Lemma task_life_consistent_witness :
  TaskLifecycle.consistent
    (TaskLifecycle.run
       [TaskLifecycle.Start 1; TaskLifecycle.AssignTo 7%N 2;
        TaskLifecycle.Complete ∅ 3; TaskLifecycle.Start 4;
        TaskLifecycle.Fail ∅ 5; TaskLifecycle.Cancel 6]
       (Fixtures.pending_task 1%N)).
Proof.
  apply (task_life_consistent 1%N 9%N ∅ 60 0 (Fixtures.pending_task 1%N)).
  reflexivity.
Defined.

Lemma step_chronological (t : Task.t) (o : TaskLifecycle.op) :
  TaskLifecycle.consistent t ->
  TaskLifecycle.chronological t ->
  Task.updated_at t <= TaskLifecycle.time_of o ->
  TaskLifecycle.chronological (TaskLifecycle.step t o)
  /\ Task.updated_at (TaskLifecycle.step t o) <= TaskLifecycle.time_of o.
Proof.
  destruct t as [? ? b st ? r ? ? a s c ?].
  unfold TaskLifecycle.consistent, TaskLifecycle.chronological,
    TaskLifecycle.step, TaskLifecycle.before.
  destruct o, st, a, s, c; simpl; intros Hcons H Hle;
    try (repeat split; lia);
    exfalso; intuition (try discriminate);
    repeat match goal with
           | Hn : is_Some None |- _ => destruct Hn as [? Hn]; discriminate Hn
           | Hn : is_Some (Some _) -> _ |- _ =>
             specialize (Hn (ex_intro _ _ eq_refl))
           end.
Qed.

Lemma run_chronological (ops : list TaskLifecycle.op) (t : Task.t)
    (lo : Timestamp) :
  TaskLifecycle.consistent t ->
  TaskLifecycle.chronological t ->
  Task.updated_at t <= lo ->
  TaskLifecycle.in_time_order lo ops ->
  TaskLifecycle.chronological (TaskLifecycle.run ops t).
Proof.
  unfold TaskLifecycle.run. revert t lo.
  induction ops as [|o ops IH]; intros t lo Hcons Hc Hu Hord; simpl.
  - exact Hc.
  - destruct Hord as [Hlo Hord].
    destruct (step_chronological t o Hcons Hc) as [Hc' Hu']; [lia|].
    apply (IH _ (TaskLifecycle.time_of o)); try assumption.
    now apply step_consistent.
Qed.

(** X3. When the calls on a task built at [created] are made at times that
    do not go back, the timestamps of the task stay in the order of its
    life: created, assigned, started, completed, each no later than
    [updated_at]; so [duration()] of a finished task is never negative. *)
Theorem task_timestamps_chronological
    (fresh_id workflow_id : UUID) (payload : dict) (timeout_seconds : Z)
    (created : Timestamp) (t0 : Task.t) (ops : list TaskLifecycle.op) :
  Task.new fresh_id workflow_id payload timeout_seconds created = inr t0 ->
  TaskLifecycle.in_time_order created ops ->
  TaskLifecycle.chronological (TaskLifecycle.run ops t0)
  /\ (forall now d,
        is_Some (Task.completed_at (TaskLifecycle.run ops t0)) ->
        Task.duration now (TaskLifecycle.run ops t0) = Some d ->
        0 <= d).
Proof.
  intros Hnew Hord.
  assert (Hc : TaskLifecycle.chronological (TaskLifecycle.run ops t0)).
  { unfold Task.new in Hnew.
    destruct (_ && _); [|discriminate]. injection Hnew as <-.
    apply (run_chronological ops _ created); [| | |exact Hord].
    - unfold TaskLifecycle.consistent; simpl. repeat split.
    - unfold TaskLifecycle.chronological; simpl. repeat split; lia.
    - simpl. lia. }
  split; [exact Hc|].
  intros now d [c Hcomp]. unfold Task.duration. rewrite Hcomp.
  destruct Hc as (_ & _ & _ & _ & _ & _ & Hsc & _). rewrite Hcomp in Hsc.
  destruct (Task.started_at _) as [s|]; [|discriminate].
  intros [= <-]. simpl in Hsc. lia.
Qed.

Lemma task_timestamps_chronological_witness :
  Task.duration 100
    (TaskLifecycle.run
       [TaskLifecycle.AssignTo 7%N 2; TaskLifecycle.Start 4;
        TaskLifecycle.Complete ∅ 9]
       (Fixtures.pending_task 1%N))
  = Some 5
  /\ 0 <= 5.
Proof.
  split; [reflexivity|].
  apply (proj2 (task_timestamps_chronological 1%N 9%N ∅ 60 0
                  (Fixtures.pending_task 1%N)
                  [TaskLifecycle.AssignTo 7%N 2; TaskLifecycle.Start 4;
                   TaskLifecycle.Complete ∅ 9]
                  eq_refl ltac:(simpl; lia))
           100 5); [eexists; reflexivity | reflexivity].
Defined.

(** X4. For a task in progress whose completion time is unset (as it is
    for every in-progress task reached through the methods),
    [is_timed_out()] says that [duration()] exceeds the timeout; and a task
    that is timed out at one time is timed out at every later time, as
    long as the task itself is not changed. *)
Theorem is_timed_out_duration (now now' : Timestamp) (t : Task.t) :
  (Task.status t = IN_PROGRESS -> Task.completed_at t = None ->
   (Task.is_timed_out now t = true <->
    exists d, Task.duration now t = Some d
              /\ Task.timeout_seconds t * 1000000 < d))
  /\ (Task.is_timed_out now t = true -> now <= now' ->
      Task.is_timed_out now' t = true).
Proof.
  unfold Task.is_timed_out, Task.duration, total_seconds_gt. split.
  - intros -> ->. simpl. destruct (Task.started_at t) as [s|].
    + rewrite Z.ltb_lt. split.
      * intros Hlt. now exists (now - s).
      * now intros (d & [= <-] & Hlt).
    + split; [discriminate|]. now intros (d & [=] & _).
  - destruct (negb _); [discriminate|].
    destruct (Task.started_at t) as [s|]; [|discriminate].
    rewrite !Z.ltb_lt. lia.
Qed.

Lemma is_timed_out_duration_witness :
  Task.is_timed_out (500 * Fixtures.second) (Fixtures.running_task 1%N)
  = true
  /\ exists d,
       Task.duration (61 * Fixtures.second) (Fixtures.running_task 1%N)
       = Some d
       /\ Task.timeout_seconds (Fixtures.running_task 1%N) * 1000000 < d.
Proof.
  pose proof (is_timed_out_duration (61 * Fixtures.second)
                (500 * Fixtures.second) (Fixtures.running_task 1%N)) as H.
  split.
  - apply (proj2 H); [reflexivity | unfold Fixtures.second; lia].
  - apply (proj1 (proj1 H eq_refl eq_refl)). reflexivity.
Defined.

Lemma step_terminal (t : Task.t) (o : TaskLifecycle.op) :
  Task.is_terminal t = true ->
  Task.is_terminal (TaskLifecycle.step t o) = true
  /\ (Task.status (TaskLifecycle.step t o) = Task.status t
      \/ Task.status (TaskLifecycle.step t o) = CANCELLED)
  /\ (Task.status t = CANCELLED ->
      Task.status (TaskLifecycle.step t o) = CANCELLED)
  /\ Task.result (TaskLifecycle.step t o) = Task.result t
  /\ Task.bot_id (TaskLifecycle.step t o) = Task.bot_id t
  /\ Task.started_at (TaskLifecycle.step t o) = Task.started_at t.
Proof.
  destruct t as [? ? ? st ? ? ? ? ? ? ? ?].
  unfold Task.is_terminal, TaskLifecycle.step.
  destruct o, st; simpl; intros Ht; try discriminate;
    repeat split; auto.
Qed.

(** X5. A terminal task stays terminal under any further calls: its status
    is the one it had or cancelled, a cancelled task stays cancelled, and
    its result, its bot and its start time are never written again. *)
Theorem task_terminal_is_final (t : Task.t) (ops : list TaskLifecycle.op) :
  Task.is_terminal t = true ->
  Task.is_terminal (TaskLifecycle.run ops t) = true
  /\ (Task.status (TaskLifecycle.run ops t) = Task.status t
      \/ Task.status (TaskLifecycle.run ops t) = CANCELLED)
  /\ (Task.status t = CANCELLED ->
      Task.status (TaskLifecycle.run ops t) = CANCELLED)
  /\ Task.result (TaskLifecycle.run ops t) = Task.result t
  /\ Task.bot_id (TaskLifecycle.run ops t) = Task.bot_id t
  /\ Task.started_at (TaskLifecycle.run ops t) = Task.started_at t.
Proof.
  unfold TaskLifecycle.run. revert t.
  induction ops as [|o ops IH]; intros t Ht; simpl.
  - repeat split; auto.
  - destruct (step_terminal t o Ht) as (Ht' & Hs & Hc & Hr & Hb & Hst).
    destruct (IH _ Ht') as (IH1 & IH2 & IH3 & IH4 & IH5 & IH6).
    split; [exact IH1|]. split; [|split; [|split; [|split]]].
    + destruct IH2 as [-> | ->]; [exact Hs | now right].
    + intros Hcan. apply IH3, Hc, Hcan.
    + congruence.
    + congruence.
    + congruence.
Qed.

Lemma task_terminal_is_final_witness :
  Task.result
    (TaskLifecycle.run
       [TaskLifecycle.Fail ∅ 11; TaskLifecycle.Complete ∅ 12;
        TaskLifecycle.Cancel 13; TaskLifecycle.Start 14]
       (Fixtures.completed_task 1%N))
  = Some {[ "ok" := JBool true ]}.
Proof.
  apply (task_terminal_is_final (Fixtures.completed_task 1%N)
           [TaskLifecycle.Fail ∅ 11; TaskLifecycle.Complete ∅ 12;
            TaskLifecycle.Cancel 13; TaskLifecycle.Start 14]).
  reflexivity.
Defined.

(** ** The constructor and the liveness of a bot *)

Lemma bot_new_unfold (fresh_id : UUID) (name : pystr)
    (capabilities : list pystr) (metadata : dict) (now : Timestamp) :
  Bot.new fresh_id name capabilities metadata now =
  if (1 <=? length name)%nat && (length name <=? 255)%nat then
    if forallb isspace name then
      inl (ValidationError "name" "Bot name cannot be empty")
    else
      match capabilities with
      | [] => inl (PydanticValidationError ["capabilities"])
      | _ => inr (Bot.mk fresh_id name capabilities OFFLINE None metadata
                    now now)
      end
  else
    match capabilities with
    | [] => inl (PydanticValidationError ["name"; "capabilities"])
    | _ => inl (PydanticValidationError ["name"])
    end.
Proof.
  unfold Bot.new, Bot.field.
  destruct ((1 <=? length name)%nat && (length name <=? 255)%nat).
  - destruct (forallb isspace name) eqn:Hs.
    + now rewrite (validate_name_whitespace _ Hs).
    + rewrite (validate_name_visible _ Hs).
      destruct capabilities; reflexivity.
  - destruct capabilities; reflexivity.
Qed.

(** X6. The constructor of [Bot] returns a bot exactly when the name has 1
    to 255 characters, not all of them whitespace, and there is at least
    one capability; the bot is then offline, never seen, with the name and
    the capabilities as given.  A name outside the length bound and an
    empty list of capabilities are refused by pydantic's own error, which
    lists both fields when both are wrong; the domain's [ValidationError]
    for "capabilities" is never raised. *)
Theorem bot_constructor_outcomes
    (fresh_id : UUID) (name : pystr) (capabilities : list pystr)
    (metadata : dict) (now : Timestamp) :
  (forall b,
     Bot.new fresh_id name capabilities metadata now = inr b <->
     (1 <= length name <= 255)%nat /\ forallb isspace name = false
     /\ capabilities <> []
     /\ b = Bot.mk fresh_id name capabilities OFFLINE None metadata now now)
  /\ (~ (1 <= length name <= 255)%nat -> capabilities <> [] ->
      Bot.new fresh_id name capabilities metadata now
      = inl (PydanticValidationError ["name"]))
  /\ ((1 <= length name <= 255)%nat -> forallb isspace name = false ->
      capabilities = [] ->
      Bot.new fresh_id name capabilities metadata now
      = inl (PydanticValidationError ["capabilities"]))
  /\ (~ (1 <= length name <= 255)%nat -> capabilities = [] ->
      Bot.new fresh_id name capabilities metadata now
      = inl (PydanticValidationError ["name"; "capabilities"]))
  /\ (forall reason,
        Bot.new fresh_id name capabilities metadata now
        <> inl (ValidationError "capabilities" reason)).
Proof.
  rewrite bot_new_unfold.
  destruct ((1 <=? length name)%nat && (length name <=? 255)%nat) eqn:Hlen.
  - apply andb_true_iff in Hlen. rewrite !Nat.leb_le in Hlen.
    destruct (forallb isspace name) eqn:Hs;
      [|destruct capabilities as [|c cs]].
    + split; [|split; [|split; [|split]]].
      * intros b. split; [discriminate|]. intros (_ & Hf & _). discriminate.
      * tauto.
      * intros _ Hf. discriminate.
      * tauto.
      * intros reason. discriminate.
    + split; [|split; [|split; [|split]]].
      * intros b. split; [discriminate|]. intros (_ & _ & Hc & _).
        congruence.
      * tauto.
      * reflexivity.
      * tauto.
      * intros reason. discriminate.
    + split; [|split; [|split; [|split]]].
      * intros b. split.
        -- intros [= <-]. repeat split; try tauto. discriminate.
        -- intros (_ & _ & _ & ->). reflexivity.
      * tauto.
      * intros _ _ Hc. discriminate.
      * tauto.
      * intros reason. discriminate.
  - assert (Hout : ~ (1 <= length name <= 255)%nat).
    { intros [Hlo Hhi]. apply andb_false_iff in Hlen.
      rewrite !Nat.leb_nle in Hlen. tauto. }
    destruct capabilities as [|c cs].
    + split; [|split; [|split; [|split]]].
      * intros b. split; [discriminate|]. tauto.
      * intros _ Hc. congruence.
      * tauto.
      * reflexivity.
      * intros reason. discriminate.
    + split; [|split; [|split; [|split]]].
      * intros b. split; [discriminate|]. tauto.
      * reflexivity.
      * tauto.
      * intros _ Hc. discriminate.
      * intros reason. discriminate.
Qed.

Lemma bot_constructor_outcomes_witness :
  Bot.new 7%N [] [] ∅ 0 = inl (PydanticValidationError ["name"; "capabilities"])
  /\ Bot.new 7%N Fixtures.w1 [] ∅ 0
     = inl (PydanticValidationError ["capabilities"])
  /\ Bot.new 7%N [] [Fixtures.build] ∅ 0
     = inl (PydanticValidationError ["name"]).
Proof.
  split; [|split].
  - apply (bot_constructor_outcomes 7%N [] [] ∅ 0);
      [simpl; lia | reflexivity].
  - apply (bot_constructor_outcomes 7%N Fixtures.w1 [] ∅ 0);
      [simpl; lia | reflexivity | reflexivity].
  - apply (bot_constructor_outcomes 7%N [] [Fixtures.build] ∅ 0);
      [simpl; lia | discriminate].
Defined.

Lemma last_seen_after_heartbeat (b : Bot.t) (now : Timestamp) :
  Bot.last_seen (Bot.heartbeat now b).2 = Some now
  /\ Bot.last_seen (Bot.go_online now b).2 = Some now.
Proof. destruct b as [? ? ? [] ? ? ? ?]; split; reflexivity. Qed.

Lemma exact_seconds_float : float_seconds exact_seconds.
Proof.
  unfold exact_seconds. split.
  - intros d1 d2 Hle. unfold Qle. simpl. nia.
  - intros n _. unfold Qeq. simpl. lia.
  - intros d Hd. unfold Qle, Qmult. simpl. nia.
Qed.

Lemma not_stale_iff (total_seconds : Z -> Q) (now seen : Timestamp)
    (threshold : Z) (b : Bot.t) :
  Bot.last_seen b = Some seen ->
  (Bot.is_stale total_seconds now threshold b = true
   <-> ~ Qle (total_seconds (now - seen)) (inject_Z threshold)).
Proof.
  intros Hseen. unfold Bot.is_stale. rewrite Hseen.
  rewrite negb_true_iff, <- Qle_bool_iff.
  destruct (Qle_bool _ _); split; congruence.
Qed.

(** X7. [is_stale] with the float of [total_seconds()].  A bot that was
    never seen is stale for every threshold.  For a threshold of at most
    2^53 seconds in absolute value, a stale bot was last seen more than the
    threshold ago; for a threshold from 0 to 9007199254 seconds (285
    years) the converse holds too, so that the bot is stale exactly when
    more than the threshold has passed.  Right after [heartbeat()] or
    [go_online()] the bot is not stale (threshold from 0 to 2^53); once
    stale it stays stale as time goes on; and [go_busy()] and
    [go_offline()] do not refresh it. *)
Theorem bot_staleness
    (total_seconds : Z -> Q) (b : Bot.t) (now now' at_ : Timestamp)
    (threshold : Z) :
  float_seconds total_seconds ->
  (Bot.last_seen b = None ->
   Bot.is_stale total_seconds now threshold b = true)
  /\ (forall seen, Bot.last_seen b = Some seen ->
        Z.abs threshold <= 2 ^ 53 ->
        Bot.is_stale total_seconds now threshold b = true ->
        threshold * 1000000 < now - seen)
  /\ (forall seen, Bot.last_seen b = Some seen ->
        0 <= threshold <= 9007199254 ->
        (Bot.is_stale total_seconds now threshold b = true
         <-> threshold * 1000000 < now - seen))
  /\ (0 <= threshold <= 2 ^ 53 ->
      Bot.is_stale total_seconds now threshold (Bot.heartbeat now b).2
      = false
      /\ Bot.is_stale total_seconds now threshold (Bot.go_online now b).2
         = false)
  /\ (Bot.is_stale total_seconds now threshold b = true -> now <= now' ->
      Bot.is_stale total_seconds now' threshold b = true)
  /\ Bot.is_stale total_seconds now threshold (Bot.go_busy at_ b).2
     = Bot.is_stale total_seconds now threshold b
  /\ Bot.is_stale total_seconds now threshold (Bot.go_offline at_ b).2
     = Bot.is_stale total_seconds now threshold b.
Proof.
  intros [Hmono Hwhole Hclose].
  assert (Hwithin : forall seen at2,
            Z.abs threshold <= 2 ^ 53 ->
            at2 - seen <= threshold * 1000000 ->
            Qle (total_seconds (at2 - seen)) (inject_Z threshold)).
  { intros seen at2 Habs Hle.
    rewrite <- (Hwhole threshold Habs). now apply Hmono. }
  split; [|split; [|split; [|split; [|split; [|split]]]]].
  - unfold Bot.is_stale. now intros ->.
  - intros seen Hseen Habs Hstale.
    apply (not_stale_iff _ _ _ _ _ Hseen) in Hstale.
    destruct (Z_lt_le_dec (threshold * 1000000) (now - seen)) as [Hlt|Hle];
      [exact Hlt|].
    exfalso. apply Hstale. now apply Hwithin.
  - intros seen Hseen [Hlo Hhi]. rewrite (not_stale_iff _ _ _ _ _ Hseen).
    split.
    + intros Hstale.
      destruct (Z_lt_le_dec (threshold * 1000000) (now - seen))
        as [Hlt|Hle]; [exact Hlt|].
      exfalso. apply Hstale. apply Hwithin; [|exact Hle].
      rewrite Z.abs_eq by exact Hlo. lia.
    + intros Hlt Hle. apply (Qle_not_lt _ _ Hle).
      eapply Qlt_le_trans; [|apply Hclose; lia].
      unfold Qlt, Qmult, inject_Z. simpl. nia.
  - intros [Hlo Hhi].
    destruct (last_seen_after_heartbeat b now) as [Hh Ho].
    assert (Hle : Qle (total_seconds (now - now)) (inject_Z threshold)).
    { apply Hwithin; [rewrite Z.abs_eq by exact Hlo; exact Hhi|lia]. }
    split.
    + destruct (Bot.is_stale total_seconds now threshold
                  (Bot.heartbeat now b).2) eqn:E; [|reflexivity].
      apply (not_stale_iff _ _ _ _ _ Hh) in E. tauto.
    + destruct (Bot.is_stale total_seconds now threshold
                  (Bot.go_online now b).2) eqn:E; [|reflexivity].
      apply (not_stale_iff _ _ _ _ _ Ho) in E. tauto.
  - destruct (Bot.last_seen b) as [seen|] eqn:Hseen;
      [|unfold Bot.is_stale; now rewrite Hseen].
    rewrite !(not_stale_iff _ _ seen _ _ Hseen).
    intros Hstale Hle Hle'. apply Hstale.
    eapply Qle_trans; [|exact Hle']. apply Hmono. lia.
  - destruct b as [? ? ? [] ? ? ? ?]; reflexivity.
  - destruct b as [? ? ? [] ? ? ? ?]; reflexivity.
Qed.

Lemma bot_staleness_witness :
  Bot.is_stale exact_seconds (91 * Fixtures.second) 90 Fixtures.busy_bot
  = true
  /\ Bot.is_stale exact_seconds 5 90 Fixtures.offline_bot = true
  /\ Bot.is_stale exact_seconds 5 90
       (Bot.heartbeat 5 Fixtures.offline_bot).2 = false.
Proof.
  split; [|split].
  - apply (proj1 (proj2 (proj2 (bot_staleness exact_seconds
             Fixtures.busy_bot (91 * Fixtures.second) 0 0 90
             exact_seconds_float))) 0);
      [reflexivity | lia | unfold Fixtures.second; lia].
  - apply (proj1 (bot_staleness exact_seconds Fixtures.offline_bot 5 0 0 90
             exact_seconds_float)).
    reflexivity.
  - apply (proj1 (proj2 (proj2 (proj2 (bot_staleness exact_seconds
             Fixtures.offline_bot 5 0 0 90 exact_seconds_float))))).
    lia.
Defined.

(** ** The bot service on the in-memory store *)

Lemma go_busy_outcome (bot : Bot.t) (now : Timestamp) :
  Bot.go_busy now bot =
  if decide (Bot.status bot = ONLINE) then
    (inr tt,
     Bot.mk (Bot.id bot) (Bot.name bot) (Bot.capabilities bot) BUSY
       (Bot.last_seen bot) (Bot.metadata bot) (Bot.created_at bot) now)
  else
    (inl (InvalidStateTransition "Bot" (Bot.value (Bot.status bot))
            "go_busy"), bot).
Proof. destruct bot as [? ? ? [] ? ? ? ?]; reflexivity. Qed.

(** X8. [mark_bot_busy], [mark_bot_available] and [heartbeat] raise
    [ResourceNotFound] for a bot that is not stored and leave the store as
    it is.  For a stored bot, [mark_bot_busy] saves it as busy when it is
    online, keeping [last_seen], and otherwise raises
    [InvalidStateTransition] with the entity "Bot", the current status and
    "go_busy" without saving; [mark_bot_available] saves it as online from
    any status. *)
Theorem bot_service_outcomes
    (w : InMemory.World) (bot_id : UUID) (now : Timestamp) :
  (InMemory.bots w !! bot_id = None ->
   BotService.mark_bot_busy bot_id now w
   = (inl (ResourceNotFound "Bot" bot_id), w)
   /\ BotService.mark_bot_available bot_id now w
      = (inl (ResourceNotFound "Bot" bot_id), w)
   /\ BotService.heartbeat bot_id now w
      = (inl (ResourceNotFound "Bot" bot_id), w))
  /\ (forall bot,
        InMemory.bots w !! bot_id = Some bot ->
        (Bot.status bot = ONLINE ->
         BotService.mark_bot_busy bot_id now w
         = (inr tt,
            InMemory.put_bot
              (Bot.mk (Bot.id bot) (Bot.name bot) (Bot.capabilities bot)
                 BUSY (Bot.last_seen bot) (Bot.metadata bot)
                 (Bot.created_at bot) now) w))
        /\ (Bot.status bot <> ONLINE ->
            BotService.mark_bot_busy bot_id now w
            = (inl (InvalidStateTransition "Bot"
                      (Bot.value (Bot.status bot)) "go_busy"), w))
        /\ BotService.mark_bot_available bot_id now w
           = (inr tt, InMemory.put_bot (Outcome.online bot now) w)).
Proof.
  unfold BotService.mark_bot_busy, BotService.mark_bot_available,
    BotService.heartbeat.
  split.
  - intros Hnone. unfold_m. simpl. rewrite Hnone. repeat split.
  - intros bot Hbot. unfold_m. simpl. rewrite Hbot.
    rewrite go_busy_outcome. split; [|split].
    + intros Hs. now rewrite decide_True by assumption.
    + intros Hs. now rewrite decide_False by assumption.
    + destruct bot as [? ? ? [] ? ? ? ?]; reflexivity.
Qed.

Lemma bot_service_outcomes_witness :
  BotService.mark_bot_busy 7%N 5 Fixtures.world_running
  = (inl (InvalidStateTransition "Bot" "busy" "go_busy"),
     Fixtures.world_running)
  /\ BotService.mark_bot_busy 8%N 5 Fixtures.world_running
     = (inl (ResourceNotFound "Bot" 8%N), Fixtures.world_running).
Proof.
  split.
  - apply (proj1 (proj2 (proj2 (bot_service_outcomes
             Fixtures.world_running 7%N 5) Fixtures.busy_bot eq_refl))).
    discriminate.
  - apply (proj1 (bot_service_outcomes Fixtures.world_running 8%N 5)).
    reflexivity.
Defined.

(** X9. A bot that was just registered is offline: [mark_bot_busy] on it
    raises [InvalidStateTransition] ("offline", "go_busy") and leaves the
    store as it is.  After a [heartbeat] the same call goes through, and
    the store holds the bot as busy, last seen at the heartbeat. *)
Theorem registered_bot_busy_after_heartbeat
    (w : InMemory.World) (fresh_id : UUID) (name : pystr)
    (capabilities : list pystr) (metadata : option dict)
    (now t1 t2 : Timestamp) (bot : Bot.t) :
  Bot.new fresh_id name capabilities (default ∅ metadata) now = inr bot ->
  let w1 := InMemory.put_bot bot w in
  let seen := Bot.mk fresh_id name capabilities ONLINE (Some t1)
                (default ∅ metadata) now t1 in
  let busy := Bot.mk fresh_id name capabilities BUSY (Some t1)
                (default ∅ metadata) now t2 in
  BotService.register_bot fresh_id name capabilities metadata now w
  = (inr bot, w1)
  /\ BotService.mark_bot_busy fresh_id t1 w1
     = (inl (InvalidStateTransition "Bot" "offline" "go_busy"), w1)
  /\ BotService.heartbeat fresh_id t1 w1
     = (inr tt, InMemory.put_bot seen w1)
  /\ BotService.mark_bot_busy fresh_id t2 (InMemory.put_bot seen w1)
     = (inr tt, InMemory.put_bot busy (InMemory.put_bot seen w1))
  /\ InMemory.bots (InMemory.put_bot busy (InMemory.put_bot seen w1))
     !! fresh_id = Some busy.
Proof.
  intros Hnew w1 seen busy.
  assert (Hbot : bot = Bot.mk fresh_id name capabilities OFFLINE None
                         (default ∅ metadata) now now).
  { rewrite bot_new_unfold in Hnew.
    destruct (_ && _); [|destruct capabilities; discriminate].
    destruct (forallb isspace name); [discriminate|].
    destruct capabilities; [discriminate|]. now injection Hnew. }
  split; [unfold BotService.register_bot; now rewrite Hnew|].
  subst bot.
  assert (H1 : InMemory.bots w1 !! fresh_id
               = Some (Bot.mk fresh_id name capabilities OFFLINE None
                         (default ∅ metadata) now now)).
  { subst w1. simpl. apply lookup_insert_eq. }
  assert (H2 : InMemory.bots (InMemory.put_bot seen w1) !! fresh_id
               = Some seen).
  { simpl. apply lookup_insert_eq. }
  split; [|split; [|split]].
  - unfold BotService.mark_bot_busy. unfold_m. simpl in *.
    now rewrite H1.
  - unfold BotService.heartbeat. unfold_m. simpl in *. now rewrite H1.
  - unfold BotService.mark_bot_busy. unfold_m.
    change (bot_get fresh_id (InMemory.put_bot seen w1))
      with (inr (B:=option Bot.t) (A:=DomainError)
              (InMemory.bots (InMemory.put_bot seen w1) !! fresh_id),
            InMemory.put_bot seen w1).
    rewrite H2. reflexivity.
  - simpl. apply lookup_insert_eq.
Qed.

Lemma registered_bot_busy_after_heartbeat_witness :
  BotService.mark_bot_busy 7%N 1
    (InMemory.put_bot Fixtures.offline_bot (InMemory.mk ∅ ∅ []))
  = (inl (InvalidStateTransition "Bot" "offline" "go_busy"),
     InMemory.put_bot Fixtures.offline_bot (InMemory.mk ∅ ∅ [])).
Proof.
  apply (registered_bot_busy_after_heartbeat (InMemory.mk ∅ ∅ []) 7%N
           Fixtures.w1 [Fixtures.build] None 0 1 2 Fixtures.offline_bot).
  reflexivity.
Defined.

(** ** The workflow state machine *)

(** X10. [start] goes through exactly from pending, [complete] and [fail]
    exactly from in progress; in any other status they raise
    [InvalidStateTransition] with the entity "Workflow", the current status
    and the name of the call, and the workflow is what it was.  [cancel]
    goes through from every status and writes [completed_at] only when it
    is not set; a second [cancel] changes nothing but [updated_at]. *)
Theorem workflow_transitions (wf : Workflow.t) (now now' : Timestamp) :
  Workflow.start now wf =
    (if decide (Workflow.status wf = Workflow.PENDING) then
       (inr tt,
        Workflow.mk (Workflow.id wf) (Workflow.name wf)
          (Workflow.description wf) Workflow.IN_PROGRESS
          (Workflow.task_ids wf) (Workflow.metadata wf)
          (Workflow.created_at wf) (Some now) (Workflow.completed_at wf)
          now)
     else
       (inl (InvalidStateTransition "Workflow"
               (Workflow.value (Workflow.status wf)) "start"), wf))
  /\ Workflow.complete now wf =
    (if decide (Workflow.status wf = Workflow.IN_PROGRESS) then
       (inr tt,
        Workflow.mk (Workflow.id wf) (Workflow.name wf)
          (Workflow.description wf) Workflow.COMPLETED
          (Workflow.task_ids wf) (Workflow.metadata wf)
          (Workflow.created_at wf) (Workflow.started_at wf) (Some now) now)
     else
       (inl (InvalidStateTransition "Workflow"
               (Workflow.value (Workflow.status wf)) "complete"), wf))
  /\ Workflow.fail now wf =
    (if decide (Workflow.status wf = Workflow.IN_PROGRESS) then
       (inr tt,
        Workflow.mk (Workflow.id wf) (Workflow.name wf)
          (Workflow.description wf) Workflow.FAILED
          (Workflow.task_ids wf) (Workflow.metadata wf)
          (Workflow.created_at wf) (Workflow.started_at wf) (Some now) now)
     else
       (inl (InvalidStateTransition "Workflow"
               (Workflow.value (Workflow.status wf)) "fail"), wf))
  /\ Workflow.cancel now wf =
    (inr tt,
     Workflow.mk (Workflow.id wf) (Workflow.name wf)
       (Workflow.description wf) Workflow.CANCELLED
       (Workflow.task_ids wf) (Workflow.metadata wf)
       (Workflow.created_at wf) (Workflow.started_at wf)
       (match Workflow.completed_at wf with
        | Some c => Some c
        | None => Some now
        end) now)
  /\ Workflow.cancel now' (Workflow.cancel now wf).2
     = (inr tt, Workflow.set_updated_at now' (Workflow.cancel now wf).2).
Proof.
  destruct wf as [? ? ? st ? ? ? ? c ?].
  split; [|split; [|split; [|split]]];
    destruct st, c; reflexivity.
Qed.

Lemma add_tasks_unfold (ids : list UUID) (now : Timestamp)
    (wf : Workflow.t) :
  ids <> [] ->
  Expected.add_tasks ids now wf
  = Workflow.mk (Workflow.id wf) (Workflow.name wf)
      (Workflow.description wf) (Workflow.status wf)
      (Workflow.task_ids wf ++ ids) (Workflow.metadata wf)
      (Workflow.created_at wf) (Workflow.started_at wf)
      (Workflow.completed_at wf) now.
Proof.
  unfold Expected.add_tasks. revert wf.
  induction ids as [|i ids IH]; intros wf Hne; [congruence|].
  destruct ids as [|j ids].
  - destruct wf; reflexivity.
  - change (fold_left ?f (i :: ?l) wf)
      with (fold_left f l (Workflow.add_task i now wf).2).
    rewrite IH by discriminate. destruct wf; simpl.
    now rewrite <- app_assoc.
Qed.

(** X11. [add_task] never raises, whatever the status of the workflow,
    and appends: after the identities of a non-empty list were added in
    turn, [task_ids] is the old list followed by the new one, repetitions
    included, [task_count] grew by the length of the list and [has_tasks]
    holds; only [task_ids] and [updated_at] changed. *)
Theorem workflow_add_task_appends
    (wf : Workflow.t) (task_id : UUID) (ids : list UUID) (now : Timestamp) :
  Workflow.add_task task_id now wf
  = (inr tt,
     Workflow.mk (Workflow.id wf) (Workflow.name wf)
       (Workflow.description wf) (Workflow.status wf)
       (Workflow.task_ids wf ++ [task_id]) (Workflow.metadata wf)
       (Workflow.created_at wf) (Workflow.started_at wf)
       (Workflow.completed_at wf) now)
  /\ (ids <> [] ->
      Expected.add_tasks ids now wf
      = Workflow.mk (Workflow.id wf) (Workflow.name wf)
          (Workflow.description wf) (Workflow.status wf)
          (Workflow.task_ids wf ++ ids) (Workflow.metadata wf)
          (Workflow.created_at wf) (Workflow.started_at wf)
          (Workflow.completed_at wf) now
      /\ Workflow.task_count (Expected.add_tasks ids now wf)
         = (Workflow.task_count wf + length ids)%nat
      /\ Workflow.has_tasks (Expected.add_tasks ids now wf) = true).
Proof.
  split; [destruct wf; reflexivity|].
  intros Hne. rewrite (add_tasks_unfold ids now wf Hne).
  split; [reflexivity|]. unfold Workflow.task_count, Workflow.has_tasks.
  simpl. rewrite length_app. split; [reflexivity|].
  apply Nat.ltb_lt. destruct ids; [congruence|]. simpl. lia.
Qed.

Lemma workflow_add_task_appends_witness :
  Workflow.task_ids
    (Expected.add_tasks [4%N; 1%N; 4%N] 20 Fixtures.completed_workflow)
  = [1%N; 4%N; 1%N; 4%N].
Proof.
  rewrite (proj1 (proj2 (workflow_add_task_appends
             Fixtures.completed_workflow 0%N [4%N; 1%N; 4%N] 20)
             ltac:(discriminate))).
  reflexivity.
Defined.

(** ** What the coordinator does to bots *)

Lemma no_new_busy_refl (w : InMemory.World) : Expected.no_new_busy w w.
Proof. intros k bot Hk _. exact Hk. Qed.

Lemma no_new_busy_trans (w1 w2 w3 : InMemory.World) :
  Expected.no_new_busy w1 w2 -> Expected.no_new_busy w2 w3 ->
  Expected.no_new_busy w1 w3.
Proof. intros H12 H23 k bot Hk Hb. apply H12; [|exact Hb]. now apply H23. Qed.

Lemma no_new_busy_put_task (w : InMemory.World) (task : Task.t) :
  Expected.no_new_busy w (InMemory.put_task task w).
Proof. intros k bot Hk _. exact Hk. Qed.

Lemma no_new_busy_free_the_bot (w : InMemory.World) (task : Task.t)
    (now : Timestamp) :
  Expected.no_new_busy w (free_the_bot task now w).2.
Proof.
  rewrite free_the_bot_in_memory.
  destruct (Task.bot_id task) as [b|]; [|apply no_new_busy_refl].
  destruct (InMemory.bots w !! b) as [bot|]; [|apply no_new_busy_refl].
  destruct (decide (Bot.status bot = BUSY)); [|apply no_new_busy_refl].
  intros k bot' Hk Hb. simpl in Hk.
  destruct (decide (Bot.id bot = k)) as [<-|Hne].
  - rewrite lookup_insert_eq in Hk. injection Hk as <-. discriminate Hb.
  - now rewrite lookup_insert_ne in Hk.
Qed.

Lemma no_new_busy_swept (w : InMemory.World) (task : Task.t)
    (now : Timestamp) :
  Expected.no_new_busy w (Outcome.swept w task now).
Proof.
  pose proof (f_equal snd (swept_in_memory w task now)) as E. simpl in E.
  rewrite <- E.
  eapply no_new_busy_trans; [apply (no_new_busy_put_task w task)|].
  apply no_new_busy_free_the_bot.
Qed.

Lemma no_new_busy_terminal_step
    (m : M Task.t unit) (task : Task.t) (now : Timestamp)
    (w : InMemory.World) :
  Expected.no_new_busy w
    (('(_, t) ← call m task; task_save t;; free_the_bot t now) w).2.
Proof.
  destruct (m task) as [[e|[]] task'] eqn:E.
  - rewrite (raising_step_in_memory _ _ _ _ _ _ E). apply no_new_busy_refl.
  - rewrite (terminal_step_in_memory _ _ _ _ _ E).
    eapply no_new_busy_trans; [apply (no_new_busy_put_task w task')|].
    apply no_new_busy_free_the_bot.
Qed.

Lemma no_new_busy_saving_step
    (m : M Task.t unit) (task : Task.t) (w : InMemory.World) :
  Expected.no_new_busy w (('(_, t) ← call m task; task_save t) w).2.
Proof.
  unfold_m. destruct (m task) as [[e|[]] task']; simpl.
  - apply no_new_busy_refl.
  - apply no_new_busy_put_task.
Qed.

Lemma no_new_busy_handle_loop (now : Timestamp) (l : list Task.t)
    (c : nat) (w : InMemory.World) :
  Expected.no_new_busy w (TaskService.handle_loop now l c w).2.
Proof.
  revert c w. induction l as [|task rest IH]; intros c w; simpl.
  - apply no_new_busy_refl.
  - unfold mbind, M_bind, bind.
    destruct (Task.is_timed_out now task) eqn:Hto.
    + rewrite (handle_candidate_in_memory _ _ _ _ Hto).
      eapply no_new_busy_trans; [|apply IH].
      apply no_new_busy_swept.
    + unfold TaskService.handle_candidate. rewrite Hto. apply IH.
Qed.

Lemma no_new_busy_process_loop (now : Timestamp) (l : list Task.t)
    (c : nat) (w : InMemory.World) :
  Expected.no_new_busy w (TimeoutWorker.process_loop now l c w).2.
Proof.
  revert c w. induction l as [|task rest IH]; intros c w; simpl.
  - apply no_new_busy_refl.
  - unfold mbind, M_bind, bind. rewrite process_candidate_in_memory.
    assert (Hskip : Expected.no_new_busy w
                      (TimeoutWorker.process_loop now rest c w).2)
      by apply IH.
    destruct (Task.is_timed_out now task); [|exact Hskip].
    destruct (InMemory.tasks w !! Task.id task) as [cur|]; [|exact Hskip].
    destruct (Task.is_terminal cur); [exact Hskip|].
    destruct (decide (Task.status cur = IN_PROGRESS)); [|exact Hskip].
    eapply no_new_busy_trans; [|apply IH].
    apply no_new_busy_swept.
Qed.

(** X12. No operation of the task service, and neither of the two sweeps,
    ever makes a bot busy: a bot that is busy in the store after the call
    was in the store before it, unchanged.  The only thing they do to a
    bot is to put a busy one online. *)
Theorem coordinator_never_marks_busy
    (w : InMemory.World) (task_id bot_id fresh_id workflow_id : UUID)
    (payload res : dict) (timeout_seconds : Z) (now : Timestamp) :
  Expected.no_new_busy w
    (TaskService.create_task fresh_id workflow_id payload timeout_seconds
       now w).2
  /\ Expected.no_new_busy w
       (TaskService.assign_task_to_bot task_id bot_id now w).2
  /\ Expected.no_new_busy w (TaskService.start_task task_id now w).2
  /\ Expected.no_new_busy w (TaskService.complete_task task_id res now w).2
  /\ Expected.no_new_busy w (TaskService.fail_task task_id res now w).2
  /\ Expected.no_new_busy w (TaskService.cancel_task task_id now w).2
  /\ Expected.no_new_busy w (TaskService.handle_timed_out_tasks now w).2
  /\ Expected.no_new_busy w (TimeoutWorker.process_timeouts now w).2.
Proof.
  split; [|split; [|split; [|split; [|split; [|split; [|split]]]]]].
  - unfold TaskService.create_task.
    destruct (Task.new _ _ _ _ _); [apply no_new_busy_refl|].
    apply no_new_busy_put_task.
  - unfold TaskService.assign_task_to_bot.
    unfold mbind at 1. unfold M_bind, bind. simpl.
    destruct (InMemory.tasks w !! task_id) as [task|];
      [|apply no_new_busy_refl].
    unfold mbind at 1. unfold M_bind, bind. simpl.
    destruct (InMemory.bots w !! bot_id) as [bot|];
      [|apply no_new_busy_refl].
    apply no_new_busy_saving_step.
  - unfold TaskService.start_task.
    unfold mbind at 1. unfold M_bind, bind. simpl.
    destruct (InMemory.tasks w !! task_id) as [task|];
      [|apply no_new_busy_refl].
    apply no_new_busy_saving_step.
  - unfold TaskService.complete_task.
    unfold mbind at 1. unfold M_bind, bind. simpl.
    destruct (InMemory.tasks w !! task_id) as [task|];
      [|apply no_new_busy_refl].
    apply no_new_busy_terminal_step.
  - unfold TaskService.fail_task.
    unfold mbind at 1. unfold M_bind, bind. simpl.
    destruct (InMemory.tasks w !! task_id) as [task|];
      [|apply no_new_busy_refl].
    apply no_new_busy_terminal_step.
  - unfold TaskService.cancel_task.
    unfold mbind at 1. unfold M_bind, bind. simpl.
    destruct (InMemory.tasks w !! task_id) as [task|];
      [|apply no_new_busy_refl].
    apply no_new_busy_terminal_step.
  - apply no_new_busy_handle_loop.
  - apply no_new_busy_process_loop.
Qed.

Lemma coordinator_never_marks_busy_witness :
  Expected.no_new_busy Fixtures.world_running
    (TaskService.complete_task 1%N ∅ 5 Fixtures.world_running).2.
Proof.
  exact (proj1 (proj2 (proj2 (proj2
    (coordinator_never_marks_busy Fixtures.world_running 1%N 7%N 2%N 9%N
       ∅ ∅ 60 5))))).
Defined.

(** ** A task through the coordinator *)

Lemma start_outcome (t : Task.t) (now : Timestamp) :
  Task.start now t =
  if decide (Task.status t = ASSIGNED) then
    (inr tt,
     Task.mk (Task.id t) (Task.workflow_id t) (Task.bot_id t) IN_PROGRESS
       (Task.payload t) (Task.result t) (Task.timeout_seconds t)
       (Task.created_at t) (Task.assigned_at t) (Some now)
       (Task.completed_at t) now)
  else
    (inl (InvalidStateTransition "Task" (Task.value (Task.status t))
            "start"), t).
Proof. destruct t as [? ? ? [] ? ? ? ? ? ? ? ?]; reflexivity. Qed.

Lemma start_task_in_memory (w : InMemory.World) (task_id : UUID)
    (now : Timestamp) :
  TaskService.start_task task_id now w =
  match InMemory.tasks w !! task_id with
  | None => (inl (ResourceNotFound "Task" task_id), w)
  | Some task =>
    if decide (Task.status task = ASSIGNED) then
      (inr tt,
       Outcome.task_saved w
         (Task.mk (Task.id task) (Task.workflow_id task) (Task.bot_id task)
            IN_PROGRESS (Task.payload task) (Task.result task)
            (Task.timeout_seconds task) (Task.created_at task)
            (Task.assigned_at task) (Some now) (Task.completed_at task)
            now))
    else
      (inl (InvalidStateTransition "Task" (Task.value (Task.status task))
              "start"), w)
  end.
Proof.
  unfold TaskService.start_task. unfold_m. simpl.
  destruct (InMemory.tasks w !! task_id) as [task|]; [|reflexivity].
  rewrite start_outcome.
  destruct (decide (Task.status task = ASSIGNED)); reflexivity.
Qed.

Lemma assign_task_in_memory (w : InMemory.World) (task_id bot_id : UUID)
    (task : Task.t) (bot : Bot.t) (now : Timestamp) :
  InMemory.tasks w !! task_id = Some task ->
  InMemory.bots w !! bot_id = Some bot ->
  Task.status task = PENDING ->
  TaskService.assign_task_to_bot task_id bot_id now w
  = (inr tt, Outcome.task_saved w (Outcome.assigned task bot_id now)).
Proof.
  intros Ht Hb Hs. unfold TaskService.assign_task_to_bot. unfold_m. simpl.
  rewrite Ht, Hb, (assign_to_pending _ _ _ Hs). reflexivity.
Qed.

(** X13. For a pending task stored under its identity and a stored bot,
    [assign_task_to_bot], [start_task] and [complete_task], called in this
    order, all go through; the store then holds the task as completed, with
    the bot, the result and the three times of the calls, and the bot as it
    was, or online if it was busy.  Out of order the calls raise and leave
    the store as it is: [start_task] on the pending task, [complete_task]
    on the assigned task; [start_task] of an unknown task raises
    [ResourceNotFound]. *)
Theorem task_through_coordinator
    (w : InMemory.World) (task_id bot_id : UUID) (task : Task.t)
    (bot : Bot.t) (res : dict) (t1 t2 t3 : Timestamp) :
  InMemory.tasks w !! task_id = Some task ->
  Task.id task = task_id ->
  Task.status task = PENDING ->
  InMemory.bots w !! bot_id = Some bot ->
  let assigned := Outcome.assigned task bot_id t1 in
  let started :=
    Task.mk task_id (Task.workflow_id task) (Some bot_id) IN_PROGRESS
      (Task.payload task) (Task.result task) (Task.timeout_seconds task)
      (Task.created_at task) (Some t1) (Some t2) (Task.completed_at task)
      t2 in
  let completed :=
    Task.mk task_id (Task.workflow_id task) (Some bot_id) COMPLETED
      (Task.payload task) (Some res) (Task.timeout_seconds task)
      (Task.created_at task) (Some t1) (Some t2) (Some t3) t3 in
  let w1 := Outcome.task_saved w assigned in
  let w2 := Outcome.task_saved w1 started in
  let w3 := Outcome.swept w2 completed t3 in
  TaskService.assign_task_to_bot task_id bot_id t1 w = (inr tt, w1)
  /\ TaskService.start_task task_id t2 w1 = (inr tt, w2)
  /\ TaskService.complete_task task_id res t3 w2 = (inr tt, w3)
  /\ InMemory.tasks w3 !! task_id = Some completed
  /\ (Bot.status bot <> BUSY -> InMemory.bots w3 = InMemory.bots w)
  /\ (Bot.status bot = BUSY ->
      InMemory.bots w3
      = <[Bot.id bot := Outcome.online bot t3]> (InMemory.bots w))
  /\ TaskService.start_task task_id t2 w
     = (inl (InvalidStateTransition "Task" "pending" "start"), w)
  /\ TaskService.complete_task task_id res t3 w1
     = (inl (InvalidStateTransition "Task" "assigned" "complete"), w1)
  /\ (forall k, InMemory.tasks w !! k = None ->
        TaskService.start_task k t2 w
        = (inl (ResourceNotFound "Task" k), w)).
Proof.
  intros Ht Hid Hs Hb assigned started completed w1 w2 w3.
  assert (H1 : InMemory.tasks w1 !! task_id = Some assigned).
  { subst w1. simpl. rewrite Hid. apply lookup_insert_eq. }
  assert (H2 : InMemory.tasks w2 !! task_id = Some started).
  { subst w2. simpl. apply lookup_insert_eq. }
  assert (Hswept : InMemory.bots w3
                   = if decide (Bot.status bot = BUSY) then
                       <[Bot.id bot := Outcome.online bot t3]>
                         (InMemory.bots w)
                     else InMemory.bots w).
  { subst w3. unfold Outcome.swept. simpl. rewrite Hb.
    destruct (decide (Bot.status bot = BUSY)); reflexivity. }
  split; [now apply (assign_task_in_memory _ _ _ _ bot)|].
  split.
  { rewrite start_task_in_memory, H1. simpl. subst w2 started assigned.
    unfold Outcome.assigned. simpl. now rewrite Hid. }
  split.
  { rewrite (complete_task_in_memory _ _ _ res t3 H2 eq_refl).
    now rewrite swept_in_memory. }
  split.
  { subst w3. unfold Outcome.swept. simpl. rewrite Hb.
    destruct (decide (Bot.status bot = BUSY)); simpl;
      apply lookup_insert_eq. }
  split; [intros Hn; now rewrite Hswept, decide_False by assumption|].
  split; [intros Hy; now rewrite Hswept, decide_True by assumption|].
  split.
  { rewrite start_task_in_memory, Ht, Hs. reflexivity. }
  split.
  { now rewrite (complete_task_raises _ _ _ res t3 H1). }
  intros k Hk. now rewrite start_task_in_memory, Hk.
Qed.

Lemma task_through_coordinator_witness :
  TaskService.start_task 1%N 2 Fixtures.world_pending
  = (inl (InvalidStateTransition "Task" "pending" "start"),
     Fixtures.world_pending).
Proof.
  apply (task_through_coordinator Fixtures.world_pending 1%N 7%N
           (Fixtures.pending_task 1%N) Fixtures.offline_bot ∅ 1 2 3);
    reflexivity.
Defined.

(** X14. The coordinator assigns without looking at the bot beyond its
    existence: two different pending tasks can be assigned to the same bot
    one after the other, whatever the status of the bot (offline and busy
    included), and both are then stored as assigned to it. *)
Theorem one_bot_two_assignments
    (w : InMemory.World) (k1 k2 bot_id : UUID) (task1 task2 : Task.t)
    (bot : Bot.t) (t1 t2 : Timestamp) :
  k1 <> k2 ->
  InMemory.tasks w !! k1 = Some task1 -> Task.id task1 = k1 ->
  InMemory.tasks w !! k2 = Some task2 -> Task.id task2 = k2 ->
  Task.status task1 = PENDING -> Task.status task2 = PENDING ->
  InMemory.bots w !! bot_id = Some bot ->
  let w1 := Outcome.task_saved w (Outcome.assigned task1 bot_id t1) in
  let w2 := Outcome.task_saved w1 (Outcome.assigned task2 bot_id t2) in
  TaskService.assign_task_to_bot k1 bot_id t1 w = (inr tt, w1)
  /\ TaskService.assign_task_to_bot k2 bot_id t2 w1 = (inr tt, w2)
  /\ InMemory.tasks w2 !! k1 = Some (Outcome.assigned task1 bot_id t1)
  /\ InMemory.tasks w2 !! k2 = Some (Outcome.assigned task2 bot_id t2)
  /\ InMemory.bots w2 = InMemory.bots w.
Proof.
  intros Hne H1 Hid1 H2 Hid2 Hs1 Hs2 Hb w1 w2.
  split; [now apply (assign_task_in_memory _ _ _ _ bot)|].
  split.
  { apply (assign_task_in_memory _ _ _ _ bot); try assumption.
    subst w1. simpl. rewrite Hid1. now rewrite lookup_insert_ne. }
  split.
  { subst w2 w1. simpl. rewrite Hid1, Hid2.
    rewrite lookup_insert_ne by congruence. apply lookup_insert_eq. }
  split.
  { subst w2. simpl. rewrite Hid2. apply lookup_insert_eq. }
  reflexivity.
Qed.

Lemma one_bot_two_assignments_witness :
  TaskService.assign_task_to_bot 2%N 7%N 6
    (Outcome.task_saved
       (InMemory.mk
          {[ 1%N := Fixtures.pending_task 1%N;
             2%N := Fixtures.pending_task 2%N ]}
          {[ 7%N := Fixtures.busy_bot ]} [])
       (Outcome.assigned (Fixtures.pending_task 1%N) 7%N 5))
  = (inr tt,
     Outcome.task_saved
       (Outcome.task_saved
          (InMemory.mk
             {[ 1%N := Fixtures.pending_task 1%N;
                2%N := Fixtures.pending_task 2%N ]}
             {[ 7%N := Fixtures.busy_bot ]} [])
          (Outcome.assigned (Fixtures.pending_task 1%N) 7%N 5))
       (Outcome.assigned (Fixtures.pending_task 2%N) 7%N 6)).
Proof.
  apply (one_bot_two_assignments
           (InMemory.mk
              {[ 1%N := Fixtures.pending_task 1%N;
                 2%N := Fixtures.pending_task 2%N ]}
              {[ 7%N := Fixtures.busy_bot ]} [])
           1%N 2%N 7%N (Fixtures.pending_task 1%N)
           (Fixtures.pending_task 2%N) Fixtures.busy_bot 5 6);
    try reflexivity. discriminate.
Defined.

(** ** The sweep of the worker over any store *)

Section AnyStoreWorker.
Context {W : Type} `{TaskRepository W} `{BotRepository W}.

Lemma process_candidate_returns (now : Timestamp) (c : nat)
    (task : Task.t) (w : W) :
  exists n w',
    TimeoutWorker.process_candidate now c task w = (inr n, w')
    /\ (n = c \/ n = S c).
Proof.
  unfold TimeoutWorker.process_candidate.
  destruct (Task.is_timed_out now task); [|exists c, w; auto].
  unfold try_except, mbind, M_bind, bind, mret, M_ret, ret, call.
  destruct (task_get (Task.id task) w) as [[e|[cur|]] w1];
    [exists c, w1; auto| |exists c, w1; auto].
  destruct (Task.is_terminal cur); [exists c, w1; auto|].
  destruct (Task.fail _ now cur) as [[e|[]] cur'];
    [exists c, w1; auto|].
  destruct (task_save cur' w1) as [[e|[]] w2]; [exists c, w2; auto|].
  destruct (free_the_bot cur' now w2) as [[e|[]] w3];
    [exists c, w3; auto|].
  exists (S c), w3; auto.
Qed.

Lemma process_loop_returns (now : Timestamp) (l : list Task.t) (c : nat)
    (w : W) :
  exists n w',
    TimeoutWorker.process_loop now l c w = (inr n, w')
    /\ (c <= n <= c + length l)%nat.
Proof.
  revert c w. induction l as [|task rest IH]; intros c w; simpl.
  - exists c, w. split; [reflexivity|lia].
  - destruct (process_candidate_returns now c task w)
      as (n1 & w1 & H1 & Hn1).
    destruct (IH n1 w1) as (n2 & w2 & H2 & Hn2).
    exists n2, w2. unfold mbind, M_bind, bind. rewrite H1.
    split; [exact H2|]. lia.
Qed.

(** X15. Whatever the repositories do, the loop of [process_timeouts]
    does not raise: every exception raised while one task is handled is
    caught, and the loop goes on to the next task.  The pass raises only
    when [get_all] does, and otherwise returns a count between 0 and the
    number of tasks that [get_all] returned. *)
Theorem process_timeouts_never_aborts (now : Timestamp) (w : W) :
  (forall l c, exists n w',
      TimeoutWorker.process_loop now l c w = (inr n, w')
      /\ (c <= n <= c + length l)%nat)
  /\ (forall l w0,
        task_get_all w = (inr l, w0) ->
        exists n w',
          TimeoutWorker.process_timeouts now w = (inr n, w')
          /\ (n <= length l)%nat)
  /\ (forall e w0,
        task_get_all w = (inl e, w0) ->
        TimeoutWorker.process_timeouts now w = (inl e, w0)).
Proof.
  split; [|split].
  - intros l c. apply process_loop_returns.
  - intros l w0 Hall.
    destruct (process_loop_returns now l 0 w0) as (n & w' & Hrun & Hn).
    exists n, w'. unfold TimeoutWorker.process_timeouts, mbind, M_bind, bind.
    rewrite Hall. split; [exact Hrun|lia].
  - intros e w0 Hall.
    unfold TimeoutWorker.process_timeouts, mbind, M_bind, bind.
    now rewrite Hall.
Qed.
End AnyStoreWorker.

Lemma process_timeouts_never_aborts_witness :
  exists n w',
    TimeoutWorker.process_timeouts (120 * Fixtures.second)
      Fixtures.world_faulty = (inr n, w')
    /\ (n <= 3)%nat.
Proof.
  apply (proj1 (proj2 (process_timeouts_never_aborts
           (120 * Fixtures.second) Fixtures.world_faulty))
           [Fixtures.running_task 2%N; Fixtures.running_task 3%N;
            Fixtures.running_task 1%N] Fixtures.world_faulty).
  vm_compute. reflexivity.
Defined.

(** ** A pass of the task service and the pass after it *)

Lemma filter_none {A} (P : A -> Prop) `{forall x, Decision (P x)}
    (l : list A) :
  (forall x, x ∈ l -> ~ P x) -> filter P l = [].
Proof.
  induction l as [|a l IH]; intros Hall; [reflexivity|].
  rewrite filter_cons_False by (apply Hall; left).
  apply IH. intros x Hx. apply Hall. now right.
Qed.

(** The tasks of the store after the loop over candidates that are all
    timed out. *)
Lemma handle_loop_tasks (now : Timestamp) (l : list Task.t) (c : nat)
    (w : InMemory.World) :
  (forall t, t ∈ l -> Task.is_timed_out now t = true) ->
  exists w',
    TaskService.handle_loop now l c w = (inr (c + length l)%nat, w')
    /\ InMemory.tasks w'
       = fold_left
           (fun m t =>
              <[Task.id t
                := Outcome.failed t (TaskService.timeout_error t) now]> m)
           l (InMemory.tasks w).
Proof.
  revert c w. induction l as [|t rest IH]; intros c w Hall; simpl.
  - exists w. now rewrite Nat.add_0_r.
  - unfold mbind, M_bind, bind.
    rewrite (handle_candidate_in_memory now c t w) by (apply Hall; left).
    destruct (IH (S c)
                (Outcome.swept w
                   (Outcome.failed t (TaskService.timeout_error t) now)
                   now))
      as (w' & Hrun & Htasks).
    { intros x Hx. apply Hall. now right. }
    exists w'. rewrite Hrun, Htasks. split; [f_equal; f_equal; lia|].
    f_equal. unfold Outcome.swept.
    destruct (Task.bot_id _) as [b|]; [|reflexivity].
    destruct (InMemory.bots w !! b) as [bot|]; [|reflexivity].
    destruct (decide _); reflexivity.
Qed.

Lemma fold_insert_lookup (now : Timestamp) (l : list Task.t) (k : UUID)
    (t0 : Task.t) (m : gmap UUID Task.t) :
  (forall t, t ∈ l -> Task.id t = k -> t = t0) ->
  fold_left
    (fun m t =>
       <[Task.id t := Outcome.failed t (TaskService.timeout_error t) now]> m)
    l m !! k
  = if decide (Exists (fun t => Task.id t = k) l) then
      Some (Outcome.failed t0 (TaskService.timeout_error t0) now)
    else m !! k.
Proof.
  revert m. induction l as [|t rest IH]; intros m Huniq; cbn [fold_left].
  - destruct (decide _) as [Hex|]; [inversion Hex|reflexivity].
  - rewrite IH by (intros x Hx; apply Huniq; now right).
    destruct (decide (Exists (fun x => Task.id x = k) rest)) as [Hex|Hno];
      destruct (decide (Exists (fun x => Task.id x = k) (t :: rest)))
        as [Hex'|Hno'].
    + reflexivity.
    + exfalso. apply Hno'. now apply Exists_cons_tl.
    + apply Exists_cons in Hex'. destruct Hex' as [Hid|Hex']; [|tauto].
      rewrite <- Hid, lookup_insert_eq.
      now rewrite (Huniq t (list_elem_of_here _ _) Hid).
    + rewrite lookup_insert_ne; [reflexivity|].
      intros Hid. apply Hno'. now apply Exists_cons_hd.
Qed.

Lemma handle_timed_out_in_memory (now : Timestamp) (w : InMemory.World) :
  TaskService.handle_timed_out_tasks now w
  = TaskService.handle_loop now
      (filter (fun t => Task.is_timed_out now t = true)
         (InMemory.all_tasks w)) 0 w.
Proof. reflexivity. Qed.

Lemma elem_of_all_tasks (w : InMemory.World) (t : Task.t) :
  t ∈ InMemory.all_tasks w <-> exists k, InMemory.tasks w !! k = Some t.
Proof.
  unfold InMemory.all_tasks. rewrite list_elem_of_fmap. split.
  - intros ([k t'] & -> & Hin). exists k. now apply elem_of_map_to_list.
  - intros (k & Hk). exists (k, t). split; [reflexivity|].
    now apply elem_of_map_to_list.
Qed.

Lemma after_pass_not_timed_out (now : Timestamp) (t : Task.t) :
  Task.is_timed_out now (Expected.after_pass now t) = false.
Proof.
  unfold Expected.after_pass.
  destruct (Task.is_timed_out now t) eqn:E; [reflexivity|exact E].
Qed.

(** X16. On a store that keeps every task under its own identity, one
    pass of [handle_timed_out_tasks] returns the number of stored tasks
    that are timed out, and leaves each of them failed and every other
    task as it was; a second pass at the same time finds no candidate,
    returns 0 and leaves the store as it is. *)
Theorem handle_timed_out_tasks_twice (now : Timestamp) (w : InMemory.World) :
  Expected.keyed_by_id w ->
  exists w',
    TaskService.handle_timed_out_tasks now w
    = (inr (length (filter (fun t => Task.is_timed_out now t = true)
                      (InMemory.all_tasks w))), w')
    /\ InMemory.tasks w' = Expected.after_pass now <$> InMemory.tasks w
    /\ TaskService.handle_timed_out_tasks now w' = (inr 0%nat, w').
Proof.
  intros Hkeyed.
  set (cands := filter (fun t => Task.is_timed_out now t = true)
                  (InMemory.all_tasks w)).
  destruct (handle_loop_tasks now cands 0 w) as (w' & Hrun & Htasks).
  { intros t Ht. now apply list_elem_of_filter in Ht. }
  assert (Hafter : InMemory.tasks w'
                   = Expected.after_pass now <$> InMemory.tasks w).
  { rewrite Htasks. apply map_eq. intros k. rewrite lookup_fmap.
    destruct (InMemory.tasks w !! k) as [t0|] eqn:Hk; simpl.
    - rewrite (fold_insert_lookup now cands k t0).
      + rewrite Hk. unfold Expected.after_pass.
        destruct (decide (Exists (fun t => Task.id t = k) cands))
          as [Hex|Hno].
        * apply Exists_exists in Hex. destruct Hex as (t & Hin & Hid).
          apply list_elem_of_filter in Hin. destruct Hin as [Hto Hin].
          apply elem_of_all_tasks in Hin. destruct Hin as (k' & Hk').
          rewrite <- (Hkeyed _ _ Hk'), Hid in Hk'.
          assert (t = t0) by congruence. subst t. now rewrite Hto.
        * destruct (Task.is_timed_out now t0) eqn:Hto; [|reflexivity].
          exfalso. apply Hno. apply Exists_exists. exists t0. split.
          -- apply list_elem_of_filter. split; [exact Hto|].
             apply elem_of_all_tasks. eauto.
          -- now apply Hkeyed.
      + intros t Hin Hid. apply list_elem_of_filter in Hin.
        destruct Hin as [_ Hin]. apply elem_of_all_tasks in Hin.
        destruct Hin as (k' & Hk').
        rewrite <- (Hkeyed _ _ Hk'), Hid in Hk'. congruence.
    - rewrite (fold_insert_lookup now cands k (Fixtures.pending_task 0%N)).
      + rewrite decide_False; [exact Hk|]. intros Hex.
        apply Exists_exists in Hex. destruct Hex as (t & Hin & Hid).
        apply list_elem_of_filter in Hin. destruct Hin as [_ Hin].
        apply elem_of_all_tasks in Hin. destruct Hin as (k' & Hk').
        rewrite <- (Hkeyed _ _ Hk'), Hid in Hk'. congruence.
      + intros t Hin Hid. exfalso. apply list_elem_of_filter in Hin.
        destruct Hin as [_ Hin]. apply elem_of_all_tasks in Hin.
        destruct Hin as (k' & Hk').
        rewrite <- (Hkeyed _ _ Hk'), Hid in Hk'. congruence. }
  exists w'. split; [|split].
  - rewrite handle_timed_out_in_memory. exact Hrun.
  - exact Hafter.
  - rewrite handle_timed_out_in_memory.
    rewrite (filter_none (fun t => Task.is_timed_out now t = true));
      [reflexivity|].
    intros x Hx. apply elem_of_all_tasks in Hx. destruct Hx as (k & Hk).
    rewrite Hafter, lookup_fmap in Hk.
    destruct (InMemory.tasks w !! k) as [t|]; [|discriminate].
    injection Hk as <-. now rewrite after_pass_not_timed_out.
Qed.

Lemma handle_timed_out_tasks_twice_witness :
  exists w',
    TaskService.handle_timed_out_tasks (120 * Fixtures.second)
      Fixtures.world_running
    = (inr (length
              (filter
                 (fun t =>
                    Task.is_timed_out (120 * Fixtures.second) t = true)
                 (InMemory.all_tasks Fixtures.world_running))), w')
    /\ InMemory.tasks w'
       = Expected.after_pass (120 * Fixtures.second)
         <$> InMemory.tasks Fixtures.world_running
    /\ TaskService.handle_timed_out_tasks (120 * Fixtures.second) w'
       = (inr 0%nat, w').
Proof.
  apply (handle_timed_out_tasks_twice (120 * Fixtures.second)
           Fixtures.world_running).
  intros k task Hk. unfold Fixtures.world_running in Hk. simpl in Hk.
  apply lookup_singleton_Some in Hk. destruct Hk as [<- <-]. reflexivity.
Defined.

(** ** The workflow service *)

Lemma workflow_new_outcome (fresh_id : UUID) (name description : pystr)
    (metadata : dict) (now : Timestamp) :
  Workflow.new fresh_id name description metadata now =
  if decide ((1 <= length name <= 255)%nat) then
    inr (Workflow.mk fresh_id name description Workflow.PENDING [] metadata
           now None None now)
  else inl (PydanticValidationError ["name"]).
Proof.
  unfold Workflow.new.
  destruct (Nat.leb_spec 1 (length name));
    destruct (Nat.leb_spec (length name) 255); simpl;
    destruct (decide _); try reflexivity; lia.
Qed.

Lemma add_task_outcome (task_id : UUID) (now : Timestamp)
    (wf : Workflow.t) :
  Workflow.add_task task_id now wf
  = (inr tt,
     Workflow.mk (Workflow.id wf) (Workflow.name wf)
       (Workflow.description wf) (Workflow.status wf)
       (Workflow.task_ids wf ++ [task_id]) (Workflow.metadata wf)
       (Workflow.created_at wf) (Workflow.started_at wf)
       (Workflow.completed_at wf) now).
Proof. destruct wf; reflexivity. Qed.

Lemma create_tasks_in_memory (fresh : nat -> UUID) (now : Timestamp)
    (payloads : list dict) (i : nat) (wf : Workflow.t)
    (w : WorkflowStore.World InMemory.World) :
  Workflow.updated_at wf = now ->
  WorkflowService.create_tasks fresh i payloads wf now w
  = (inr (Workflow.mk (Workflow.id wf) (Workflow.name wf)
            (Workflow.description wf) (Workflow.status wf)
            (Workflow.task_ids wf ++ map fresh (seq i (length payloads)))
            (Workflow.metadata wf) (Workflow.created_at wf)
            (Workflow.started_at wf) (Workflow.completed_at wf) now),
     WorkflowStore.mk
       (Expected.tasks_saved (WorkflowStore.base w)
          (Expected.new_tasks fresh i (Workflow.id wf) payloads now))
       (WorkflowStore.workflows w) (WorkflowStore.saved_workflows w)).
Proof.
  revert i wf w. induction payloads as [|p rest IH]; intros i wf w Hup.
  - simpl. rewrite app_nil_r. destruct wf, w; simpl in *. now subst.
  - cbn [WorkflowService.create_tasks]. unfold mbind at 1.
    unfold M_bind, bind.
    change (TaskService.create_task (fresh i) (Workflow.id wf) p 300 now w)
      with (inr (A:=DomainError)
              (Expected.new_task (fresh i) (Workflow.id wf) p 300 now),
            WorkflowStore.mk
              (InMemory.put_task
                 (Expected.new_task (fresh i) (Workflow.id wf) p 300 now)
                 (WorkflowStore.base w))
              (WorkflowStore.workflows w)
              (WorkflowStore.saved_workflows w)).
    cbv beta iota. unfold mbind at 1. unfold M_bind, bind, call.
    cbn [Task.id Expected.new_task]. rewrite add_task_outcome.
    cbv beta iota. rewrite IH by reflexivity. simpl.
    rewrite <- app_assoc. reflexivity.
Qed.

(** X17. [create_workflow] with a name of 1 to 255 characters (whitespace
    only included: the workflow has no validator of its own) saves one
    pending task per payload, in the order of the payloads, each with the
    identity of the workflow and the timeout 300, then saves and returns
    the pending workflow whose [task_ids] are the identities of these tasks
    in the same order.  With any other name it raises pydantic's error for
    "name" and saves nothing. *)
Theorem create_workflow_outcome
    (fresh : nat -> UUID) (name description : pystr)
    (task_payloads : option (list dict)) (metadata : option dict)
    (now : Timestamp) (w : WorkflowStore.World InMemory.World) :
  ((1 <= length name <= 255)%nat ->
   let payloads := default [] task_payloads in
   let wf := Expected.new_workflow fresh name description payloads
               (default ∅ metadata) now in
   WorkflowService.create_workflow fresh name description task_payloads
     metadata now w
   = (inr wf,
      WorkflowStore.put_workflow wf
        (WorkflowStore.mk
           (Expected.tasks_saved (WorkflowStore.base w)
              (Expected.new_tasks fresh 1 (fresh 0%nat) payloads now))
           (WorkflowStore.workflows w) (WorkflowStore.saved_workflows w))))
  /\ (~ (1 <= length name <= 255)%nat ->
      WorkflowService.create_workflow fresh name description task_payloads
        metadata now w
      = (inl (PydanticValidationError ["name"]), w)).
Proof.
  unfold WorkflowService.create_workflow. rewrite workflow_new_outcome.
  split.
  - intros Hlen. cbv zeta. rewrite decide_True by assumption.
    unfold mbind at 1. unfold M_bind, bind.
    destruct (default [] task_payloads) as [|p rest].
    + simpl. destruct w; reflexivity.
    + change (truthy (p :: rest)) with true. cbv iota.
      rewrite create_tasks_in_memory by reflexivity. reflexivity.
  - intros Hlen. now rewrite decide_False by assumption.
Qed.

Lemma create_workflow_outcome_witness :
  WorkflowService.create_workflow N.of_nat [32%N] [] (Some [∅; ∅]) None 5
    (WorkflowStore.mk (InMemory.mk ∅ ∅ []) ∅ [])
  = (inr (Workflow.mk 0%N [32%N] [] Workflow.PENDING [1%N; 2%N] ∅ 5 None
            None 5),
     WorkflowStore.mk
       (InMemory.mk
          {[ 1%N := Expected.new_task 1%N 0%N ∅ 300 5;
             2%N := Expected.new_task 2%N 0%N ∅ 300 5 ]}
          ∅
          [InMemory.SavedTask (Expected.new_task 1%N 0%N ∅ 300 5);
           InMemory.SavedTask (Expected.new_task 2%N 0%N ∅ 300 5)])
       {[ 0%N := Workflow.mk 0%N [32%N] [] Workflow.PENDING [1%N; 2%N] ∅ 5
                   None None 5 ]}
       [Workflow.mk 0%N [32%N] [] Workflow.PENDING [1%N; 2%N] ∅ 5 None
          None 5])
  /\ WorkflowService.create_workflow N.of_nat [] [] (Some [∅; ∅]) None 5
       (WorkflowStore.mk (InMemory.mk ∅ ∅ []) ∅ [])
     = (inl (PydanticValidationError ["name"]),
        WorkflowStore.mk (InMemory.mk ∅ ∅ []) ∅ []).
Proof.
  split.
  - etransitivity.
    + apply (proj1 (create_workflow_outcome N.of_nat [32%N] []
               (Some [∅; ∅]) None 5
               (WorkflowStore.mk (InMemory.mk ∅ ∅ []) ∅ []))).
      simpl. lia.
    + vm_compute. reflexivity.
  - apply (proj2 (create_workflow_outcome N.of_nat [] []
             (Some [∅; ∅]) None 5
             (WorkflowStore.mk (InMemory.mk ∅ ∅ []) ∅ []))).
    simpl. lia.
Defined.

Lemma create_task_faulty (task_id workflow_id : UUID) (q : dict)
    (now : Timestamp) (w : WorkflowStore.World Faulty.World) :
  TaskService.create_task task_id workflow_id q 300 now w
  = if bool_decide (task_id ∈ Faulty.broken (WorkflowStore.base w)) then
      (inl (RepositoryError "save failed"), w)
    else
      (inr (Expected.new_task task_id workflow_id q 300 now),
       WorkflowStore.mk
         (Faulty.mk
            (InMemory.put_task
               (Expected.new_task task_id workflow_id q 300 now)
               (Faulty.inner (WorkflowStore.base w)))
            (Faulty.broken (WorkflowStore.base w)))
         (WorkflowStore.workflows w) (WorkflowStore.saved_workflows w)).
Proof.
  unfold TaskService.create_task.
  change (Task.new task_id workflow_id q 300 now)
    with (inr (A:=DomainError)
            (Expected.new_task task_id workflow_id q 300 now)).
  unfold mbind, M_bind, bind.
  cbn -[bool_decide Expected.new_task InMemory.put_task].
  unfold WorkflowStore.lift.
  cbn -[bool_decide Expected.new_task InMemory.put_task].
  destruct (bool_decide _); [destruct w as [[? ?] ? ?]|]; reflexivity.
Qed.

Lemma create_tasks_faulty (fresh : nat -> UUID) (now : Timestamp)
    (p : dict) (post pre : list dict) (i : nat) (wf : Workflow.t)
    (w : WorkflowStore.World Faulty.World) :
  (forall j, (j < length pre)%nat ->
             fresh (i + j)%nat ∉ Faulty.broken (WorkflowStore.base w)) ->
  fresh (i + length pre)%nat ∈ Faulty.broken (WorkflowStore.base w) ->
  WorkflowService.create_tasks fresh i (pre ++ p :: post) wf now w
  = (inl (RepositoryError "save failed"),
     WorkflowStore.mk
       (Faulty.mk
          (Expected.tasks_saved (Faulty.inner (WorkflowStore.base w))
             (Expected.new_tasks fresh i (Workflow.id wf) pre now))
          (Faulty.broken (WorkflowStore.base w)))
       (WorkflowStore.workflows w) (WorkflowStore.saved_workflows w)).
Proof.
  revert i wf w. induction pre as [|q pre IH]; intros i wf w Hfree Hbroken.
  - cbn [app WorkflowService.create_tasks length] in *.
    rewrite Nat.add_0_r in Hbroken.
    unfold mbind at 1. unfold M_bind, bind. rewrite create_task_faulty.
    rewrite bool_decide_eq_true_2 by exact Hbroken.
    destruct w as [[inner broken] ? ?]; reflexivity.
  - cbn [app WorkflowService.create_tasks]. unfold mbind at 1.
    unfold M_bind, bind.
    assert (Hi : fresh i ∉ Faulty.broken (WorkflowStore.base w)).
    { specialize (Hfree 0%nat). rewrite Nat.add_0_r in Hfree.
      apply Hfree. simpl. lia. }
    rewrite create_task_faulty.
    rewrite bool_decide_eq_false_2 by exact Hi.
    cbv beta iota. unfold mbind at 1.
    unfold M_bind, bind, call.
    cbn [Task.id Expected.new_task]. rewrite add_task_outcome.
    cbv beta iota. rewrite IH.
    + reflexivity.
    + intros j Hj. cbn [WorkflowStore.base Faulty.broken].
      specialize (Hfree (S j)).
      rewrite Nat.add_succ_r in Hfree. apply Hfree. simpl. lia.
    + cbn [WorkflowStore.base Faulty.broken length] in *.
      now rewrite Nat.add_succ_r in Hbroken.
Qed.

(** X18. [create_workflow] saves its tasks one by one before it saves the
    workflow, and nothing undoes them: on a store that cannot save the task
    of one payload, the call raises the exception of the store, the tasks
    of the payloads before it stay saved, carrying the identity of a
    workflow that is not in the store, and no workflow is saved. *)
Theorem create_workflow_leaves_tasks_behind
    (fresh : nat -> UUID) (name description : pystr)
    (pre post : list dict) (p : dict) (metadata : option dict)
    (now : Timestamp) (w : WorkflowStore.World Faulty.World) :
  (1 <= length name <= 255)%nat ->
  (forall j, (j < length pre)%nat ->
             fresh (S j) ∉ Faulty.broken (WorkflowStore.base w)) ->
  fresh (S (length pre)) ∈ Faulty.broken (WorkflowStore.base w) ->
  WorkflowService.create_workflow fresh name description
    (Some (pre ++ p :: post)) metadata now w
  = (inl (RepositoryError "save failed"),
     WorkflowStore.mk
       (Faulty.mk
          (Expected.tasks_saved (Faulty.inner (WorkflowStore.base w))
             (Expected.new_tasks fresh 1 (fresh 0%nat) pre now))
          (Faulty.broken (WorkflowStore.base w)))
       (WorkflowStore.workflows w) (WorkflowStore.saved_workflows w)).
Proof.
  intros Hlen Hfree Hbroken.
  unfold WorkflowService.create_workflow. rewrite workflow_new_outcome.
  rewrite decide_True by assumption.
  unfold mbind at 1. unfold M_bind, bind.
  assert (Htruthy : truthy (default [] (Some (pre ++ p :: post))) = true).
  { simpl. now destruct pre. }
  rewrite Htruthy. cbn [default from_option]. unfold id.
  rewrite create_tasks_faulty; [reflexivity| |exact Hbroken].
  intros j Hj. now apply Hfree.
Qed.

Lemma create_workflow_leaves_tasks_behind_witness :
  WorkflowService.create_workflow N.of_nat Fixtures.w1 []
    (Some [∅; ∅; ∅]) None 5
    (WorkflowStore.mk (Faulty.mk (InMemory.mk ∅ ∅ []) {[ 2%N ]}) ∅ [])
  = (inl (RepositoryError "save failed"),
     WorkflowStore.mk
       (Faulty.mk
          (InMemory.mk {[ 1%N := Expected.new_task 1%N 0%N ∅ 300 5 ]} ∅
             [InMemory.SavedTask (Expected.new_task 1%N 0%N ∅ 300 5)])
          {[ 2%N ]})
       ∅ []).
Proof.
  etransitivity.
  - apply (create_workflow_leaves_tasks_behind N.of_nat Fixtures.w1 []
             [∅] [∅] ∅ None 5
             (WorkflowStore.mk (Faulty.mk (InMemory.mk ∅ ∅ []) {[ 2%N ]})
                ∅ [])).
    + simpl. lia.
    + intros j Hj. simpl in Hj. assert (j = 0%nat) as -> by lia.
      vm_compute. intros Hin. discriminate Hin.
    + vm_compute. reflexivity.
  - vm_compute. reflexivity.
Defined.

Section WorkflowStart.
Context {B : Type}.
Implicit Types (w : WorkflowStore.World B).

Lemma workflow_start_outcome (wf : Workflow.t) (now : Timestamp) :
  Workflow.start now wf =
  if decide (Workflow.status wf = Workflow.PENDING) then
    (inr tt,
     Workflow.mk (Workflow.id wf) (Workflow.name wf)
       (Workflow.description wf) Workflow.IN_PROGRESS
       (Workflow.task_ids wf) (Workflow.metadata wf)
       (Workflow.created_at wf) (Some now) (Workflow.completed_at wf) now)
  else
    (inl (InvalidStateTransition "Workflow"
            (Workflow.value (Workflow.status wf)) "start"), wf).
Proof. destruct wf as [? ? ? [] ? ? ? ? ? ?]; reflexivity. Qed.

Lemma start_workflow_in_memory w (workflow_id : UUID) (now : Timestamp) :
  WorkflowService.start_workflow workflow_id now w =
  match WorkflowStore.workflows w !! workflow_id with
  | None => (inl (ResourceNotFound "Workflow" workflow_id), w)
  | Some wf =>
    if decide (Workflow.status wf = Workflow.PENDING) then
      (inr tt,
       WorkflowStore.put_workflow
         (Workflow.mk (Workflow.id wf) (Workflow.name wf)
            (Workflow.description wf) Workflow.IN_PROGRESS
            (Workflow.task_ids wf) (Workflow.metadata wf)
            (Workflow.created_at wf) (Some now) (Workflow.completed_at wf)
            now) w)
    else
      (inl (InvalidStateTransition "Workflow"
              (Workflow.value (Workflow.status wf)) "start"), w)
  end.
Proof.
  unfold WorkflowService.start_workflow. unfold_m. simpl.
  destruct (WorkflowStore.workflows w !! workflow_id) as [wf|];
    [|reflexivity].
  rewrite workflow_start_outcome.
  destruct (decide (Workflow.status wf = Workflow.PENDING)); reflexivity.
Qed.

(** X19. [start_workflow] raises [ResourceNotFound] for a workflow that is
    not stored.  A stored pending workflow is saved as in progress, with
    its start time, its tasks untouched; a second [start_workflow] then
    raises [InvalidStateTransition] ("in_progress", "start") and saves
    nothing, as does the call on any workflow that is not pending. *)
Theorem start_workflow_once w (workflow_id : UUID) (now now' : Timestamp) :
  (WorkflowStore.workflows w !! workflow_id = None ->
   WorkflowService.start_workflow workflow_id now w
   = (inl (ResourceNotFound "Workflow" workflow_id), w))
  /\ (forall wf,
        WorkflowStore.workflows w !! workflow_id = Some wf ->
        Workflow.id wf = workflow_id ->
        Workflow.status wf = Workflow.PENDING ->
        let started :=
          Workflow.mk workflow_id (Workflow.name wf)
            (Workflow.description wf) Workflow.IN_PROGRESS
            (Workflow.task_ids wf) (Workflow.metadata wf)
            (Workflow.created_at wf) (Some now) (Workflow.completed_at wf)
            now in
        WorkflowService.start_workflow workflow_id now w
        = (inr tt, WorkflowStore.put_workflow started w)
        /\ WorkflowService.start_workflow workflow_id now'
             (WorkflowStore.put_workflow started w)
           = (inl (InvalidStateTransition "Workflow" "in_progress" "start"),
              WorkflowStore.put_workflow started w))
  /\ (forall wf,
        WorkflowStore.workflows w !! workflow_id = Some wf ->
        Workflow.status wf <> Workflow.PENDING ->
        WorkflowService.start_workflow workflow_id now w
        = (inl (InvalidStateTransition "Workflow"
                  (Workflow.value (Workflow.status wf)) "start"), w)).
Proof.
  split; [|split].
  - intros Hnone. now rewrite start_workflow_in_memory, Hnone.
  - intros wf Hwf Hid Hs started. split.
    + rewrite start_workflow_in_memory, Hwf.
      rewrite decide_True by assumption. subst started. now rewrite Hid.
    + rewrite start_workflow_in_memory.
      assert (Hl : WorkflowStore.workflows
                     (WorkflowStore.put_workflow started w) !! workflow_id
                   = Some started).
      { simpl. apply lookup_insert_eq. }
      rewrite Hl. reflexivity.
  - intros wf Hwf Hs. rewrite start_workflow_in_memory, Hwf.
    now rewrite decide_False by assumption.
Qed.
End WorkflowStart.

Lemma start_workflow_once_witness :
  WorkflowService.start_workflow 9%N 30
    (WorkflowStore.mk (InMemory.mk ∅ ∅ [])
       {[ 9%N := Fixtures.completed_workflow ]} [])
  = (inl (InvalidStateTransition "Workflow" "completed" "start"),
     WorkflowStore.mk (InMemory.mk ∅ ∅ [])
       {[ 9%N := Fixtures.completed_workflow ]} [])
  /\ WorkflowService.start_workflow 8%N 30
       (WorkflowStore.mk (InMemory.mk ∅ ∅ [])
          {[ 9%N := Fixtures.completed_workflow ]} [])
     = (inl (ResourceNotFound "Workflow" 8%N),
        WorkflowStore.mk (InMemory.mk ∅ ∅ [])
          {[ 9%N := Fixtures.completed_workflow ]} []).
Proof.
  split.
  - apply (proj2 (proj2 (start_workflow_once
             (WorkflowStore.mk (InMemory.mk ∅ ∅ [])
                {[ 9%N := Fixtures.completed_workflow ]} []) 9%N 30 0))
             Fixtures.completed_workflow); [reflexivity|discriminate].
  - apply (proj1 (start_workflow_once
             (WorkflowStore.mk (InMemory.mk ∅ ∅ [])
                {[ 9%N := Fixtures.completed_workflow ]} []) 8%N 30 0)).
    reflexivity.
Defined.

(** ** The two tables of the connection registry *)

Section RegistryInfo.
Import WebSocketConnectionManager.
Context {WebSocket : Type}.
Implicit Types (self : t WebSocket) (ops : list (op WebSocket)).

Lemma registry_fold_info ops self :
  info_keyed self -> info_keyed (fold_left step ops self).
Proof.
  revert self. induction ops as [|o ops IH]; intros self Hk; simpl;
    [exact Hk|].
  apply IH. intros b info. destruct o as [b' ws now|b']; simpl.
  - destruct (decide (b' = b)) as [->|Hne].
    + rewrite lookup_insert_eq. now intros [= <-].
    + rewrite lookup_insert_ne by exact Hne. apply Hk.
  - destruct (decide (b' = b)) as [->|Hne].
    + now rewrite lookup_delete_eq.
    + rewrite lookup_delete_ne by exact Hne. apply Hk.
Qed.

Lemma registry_lookup_none ops (b : UUID) :
  _connections (run ops) !! b = None ->
  _connection_info (run ops) !! b = None.
Proof.
  intros Hn. apply not_elem_of_dom. rewrite <- registry_run_dom.
  now apply not_elem_of_dom.
Qed.

(** X20. In a registry reached by any sequence of connect and disconnect
    calls, a bot has a connection record exactly when it is connected, the
    record names that bot, and the bot is listed by
    [get_all_connected_bot_ids] exactly when it is connected.  Connecting a
    bot that is not connected adds one to the count, and disconnecting it
    again gives back the registry as it was; disconnecting a connected bot
    takes one from the count. *)
Theorem registry_tables_agree
    ops (b : UUID) (ws : WebSocket) (now : Timestamp) :
  (is_Some (get_connection_info b (run ops))
   <-> is_connected b (run ops) = true)
  /\ (forall info, get_connection_info b (run ops) = Some info ->
        bot_id info = b)
  /\ (b ∈ get_all_connected_bot_ids (run ops)
      <-> is_connected b (run ops) = true)
  /\ (is_connected b (run ops) = false ->
      get_connection_count (connect b ws now (run ops))
      = S (get_connection_count (run ops))
      /\ disconnect b (connect b ws now (run ops)) = run ops)
  /\ (is_connected b (run ops) = true ->
      S (get_connection_count (disconnect b (run ops)))
      = get_connection_count (run ops)).
Proof.
  unfold get_connection_info, is_connected, get_all_connected_bot_ids,
    get_connection_count.
  split; [|split; [|split; [|split]]].
  - rewrite bool_decide_eq_true, <- !elem_of_dom.
    now rewrite registry_run_dom.
  - intros info Hinfo.
    apply (registry_fold_info ops init); [|exact Hinfo].
    intros b' info' Hl. simpl in Hl. now rewrite lookup_empty in Hl.
  - rewrite bool_decide_eq_true, <- elem_of_dom, elem_of_dom.
    rewrite list_elem_of_fmap. split.
    + intros ([k v] & -> & Hin). apply elem_of_map_to_list in Hin. eauto.
    + intros [v Hv]. exists (b, v). split; [reflexivity|].
      now apply elem_of_map_to_list.
  - intros Hc. apply bool_decide_eq_false in Hc.
    assert (Hn : _connections (run ops) !! b = None).
    { destruct (_connections (run ops) !! b) eqn:E; [|reflexivity].
      exfalso; apply Hc; eauto. }
    split.
    + simpl. now apply map_size_insert_None.
    + unfold disconnect, connect. simpl.
      rewrite !delete_insert_id
        by (try exact Hn; now apply registry_lookup_none).
      now destruct (run ops).
  - intros Hc. apply bool_decide_eq_true in Hc. destruct Hc as [v Hv].
    simpl. rewrite map_size_delete, Hv.
    assert (size (_connections (run ops)) <> 0%nat).
    { intros Hz. apply map_size_empty_inv in Hz. rewrite Hz in Hv.
      now rewrite lookup_empty in Hv. }
    lia.
Qed.
End RegistryInfo.

Lemma registry_tables_agree_witness :
  WebSocketConnectionManager.disconnect 8%N
    (WebSocketConnectionManager.connect 8%N 3%nat 2
       (WebSocketConnectionManager.run
          [WebSocketConnectionManager.Connect 5%N 1%nat 0]))
  = WebSocketConnectionManager.run
      [WebSocketConnectionManager.Connect 5%N 1%nat 0].
Proof.
  apply (registry_tables_agree
           [WebSocketConnectionManager.Connect 5%N 1%nat 0] 8%N 3%nat 2).
  vm_compute. reflexivity.
Defined.
